(** * build-openmw: a shallow embedding of the build script

    The script [build-openmw.py] is a sequence of calls to external
    programs (git, cmake, make, package managers) and to the file system,
    gated by command-line flags.  It is embedded here as computations in a
    small monad: a computation reads and updates a [World] (file system,
    working directory, process environment, module-level package tables),
    produces the list of [Event]s it performed (log lines, text written to
    stderr, commands spawned, file-system mutations) and finishes with an
    [Outcome]: a returned value, [sys.exit], or an uncaught exception.

    What external programs do is not known to the script: it is a
    parameter of the development (the oracles of [Section Script]). *)

From Stdlib Require Import ZArith Ascii String List Lia Bool.
From stdpp Require Import base strings list gmap pretty.

Open Scope Z_scope.

(** ** Python strings *)

Module Py.

Definition nl : string := String (ascii_of_nat 10) "".
Definition dquote : string := String (ascii_of_nat 34) "".

(** [str.lower] on ASCII letters. *)
Definition lower_char (c : ascii) : ascii :=
  let n := N_of_ascii c in
  if ((65 <=? n)%N && (n <=? 90)%N)%bool then ascii_of_N (n + 32) else c.

Fixpoint lower (s : string) : string :=
  match s with
  | EmptyString => EmptyString
  | String c s' => String (lower_char c) (lower s')
  end.

(** [s.startswith(p)] *)
Definition startswith (s p : string) : bool := String.prefix p s.

(** [s.endswith("/")] *)
Fixpoint endswith_sep (s : string) : bool :=
  match s with
  | EmptyString => false
  | String c EmptyString => Ascii.eqb c "/"
  | String _ s' => endswith_sep s'
  end.

(** [needle in hay] for strings. *)
Fixpoint contains (needle hay : string) : bool :=
  String.prefix needle hay ||
  match hay with
  | EmptyString => false
  | String _ hay' => contains needle hay'
  end.

(** [sep.join(l)] *)
Fixpoint join (sep : string) (l : list string) : string :=
  match l with
  | [] => ""
  | [x] => x
  | x :: l' => x +:+ sep +:+ join sep l'
  end.

(** [s.split()]: split on runs of white space. *)
Definition split (s : string) : list string := String.words s.

(** [c.isspace()] on the code points below 256: the ASCII white space
    (tab to carriage return, and the space), the four separators
    U+001C to U+001F, and U+0085 and U+00A0. *)
Definition isspace (c : ascii) : bool :=
  let n := N_of_ascii c in
  (((9 <=? n) && (n <=? 13)) || ((28 <=? n) && (n <=? 32))
   || (n =? 133) || (n =? 160))%N%bool.

(** [s.strip()] *)
Fixpoint lstrip (s : string) : string :=
  match s with
  | EmptyString => EmptyString
  | String c s' => if isspace c then lstrip s' else s
  end.

Fixpoint rstrip (s : string) : string :=
  match s with
  | EmptyString => EmptyString
  | String c s' =>
      match rstrip s' with
      | EmptyString => if isspace c then EmptyString else String c ""
      | r => String c r
      end
  end.

Definition strip (s : string) : string := rstrip (lstrip s).

(** [s.split(":")] *)
Fixpoint split_colon (s : string) : list string :=
  match s with
  | EmptyString => [""]
  | String c s' =>
      if Ascii.eqb c ":" then "" :: split_colon s'
      else match split_colon s' with
           | [] => [String c ""]
           | x :: l => String c x :: l
           end
  end.

(** [template.format(arg)] for templates whose only fields are [{0}]. *)
Fixpoint format0_go (skip : nat) (template arg : string) : string :=
  match template with
  | EmptyString => EmptyString
  | String c t' =>
      match skip with
      | S n => format0_go n t' arg
      | O =>
          if String.prefix "{0}" template then arg +:+ format0_go 2 t' arg
          else String c (format0_go 0 t' arg)
      end
  end.
Definition format0 (template arg : string) : string := format0_go 0 template arg.

(** Truth value of an optional string ([None] and [""] are false). *)
Definition truthy (o : option string) : bool :=
  match o with
  | Some (String _ _) => true
  | _ => false
  end.

(** Truth value of an optional list ([None] and [[]] are false). *)
Definition truthy_list {A} (o : option (list A)) : bool :=
  match o with
  | Some (_ :: _) => true
  | _ => false
  end.

(** A value given to [str.format]: the script formats strings, an
    integer (the job count) and [None]. *)
Inductive value :=
| VNone
| VInt (n : Z)
| VStr (s : string).

Definition format (v : value) : string :=
  match v with
  | VNone => "None"
  | VInt n => pretty n
  | VStr s => s
  end.

(** Exceptions the modelled calls can raise. *)
Inductive exn :=
| FileNotFoundError
| FileExistsError
| NotADirectoryError
| IsADirectoryError
| TypeError
| AttributeError
| UnboundLocalError
| IndexError
| PermissionError.

End Py.

(** ** Paths: [os.path] on POSIX *)

Module Path.

(** [os.path.join(a, b)] *)
Definition join2 (a b : string) : string :=
  if Py.startswith b "/" then b
  else if (String.eqb a "" || Py.endswith_sep a)%bool then a +:+ b
  else a +:+ "/" +:+ b.

(** [os.path.join(a, *ps)] *)
Definition join (a : string) (ps : list string) : string :=
  fold_left join2 ps a.

(** [p] with a trailing separator. *)
Definition as_dir (p : string) : string :=
  if Py.endswith_sep p then p else p +:+ "/".

(** [q] is [p] or lies below [p]. *)
Definition under (p q : string) : bool :=
  (String.eqb q p || Py.startswith q (as_dir p))%bool.

(** Drop the last component: what is left of the last separator,
    separator included. *)
Fixpoint head_go (s : string) : option string :=
  match s with
  | EmptyString => None
  | String c s' =>
      match head_go s' with
      | Some h => Some (String c h)
      | None => if Ascii.eqb c "/" then Some (String c "") else None
      end
  end.

Fixpoint all_sep (s : string) : bool :=
  match s with
  | EmptyString => true
  | String c s' => (Ascii.eqb c "/" && all_sep s')%bool
  end.

(** [s.rstrip("/")] *)
Fixpoint rstrip_sep (s : string) : string :=
  match s with
  | EmptyString => EmptyString
  | String c s' =>
      match rstrip_sep s' with
      | EmptyString => if Ascii.eqb c "/" then EmptyString else String c ""
      | r => String c r
      end
  end.

(** [os.path.dirname(p)] *)
Definition dirname (p : string) : string :=
  match head_go p with
  | None => ""
  | Some h => if all_sep h then h else rstrip_sep h
  end.

(** The last component after the last separator. *)
Fixpoint basename (p : string) : string :=
  match p with
  | EmptyString => EmptyString
  | String c p' =>
      if Py.contains "/" p' then basename p'
      else if Ascii.eqb c "/" then p' else p
  end.

End Path.

Example join_abs : Path.join "/opt/build-openmw" ["src"; "osg"] = "/opt/build-openmw/src/osg".
Proof. reflexivity. Qed.
Example join_restart : Path.join "/opt" ["/usr/lib"; "x"] = "/usr/lib/x".
Proof. reflexivity. Qed.
Example dirname_ex : Path.dirname "/opt/build-openmw/src" = "/opt/build-openmw".
Proof. reflexivity. Qed.
Example dirname_root : Path.dirname "/opt" = "/".
Proof. reflexivity. Qed.
Example basename_ex : Path.basename "/usr/lib/libbz2.so" = "libbz2.so".
Proof. reflexivity. Qed.
Example lower_ex : Py.lower "Void Linux" = "void linux".
Proof. reflexivity. Qed.
Example contains_ex : Py.contains "void" (Py.lower "Void Linux") = true.
Proof. reflexivity. Qed.
Example split_ex : Py.split "git  cmake gcc" = ["git"; "cmake"; "gcc"].
Proof. reflexivity. Qed.
Example format_ex : Py.format (Py.VInt 9) = "9".
Proof. reflexivity. Qed.
Example strip_ex : Py.strip ("  Void Linux " +:+ Py.nl) = "Void Linux".
Proof. reflexivity. Qed.
Example strip_separators :
  Py.strip (String (ascii_of_nat 160) (String (ascii_of_nat 28) "abc1234")
            +:+ String (ascii_of_nat 133) (String (ascii_of_nat 31) ""))
  = "abc1234".
Proof. reflexivity. Qed.
Example split_colon_ex :
  Py.split_colon "Description:	Ubuntu 20.04" = ["Description"; "	Ubuntu 20.04"].
Proof. reflexivity. Qed.
Example format0_ex :
  Py.format0 "{0}/osg-openmw:{0}/bullet" "/opt/b" = "/opt/b/osg-openmw:/opt/b/bullet".
Proof. reflexivity. Qed.

(** ** The world the script runs in *)

Inductive node := File | Dir.

(** Paths are identified as written (no [..] or symlink resolution). *)
Definition FileSys := string -> option node.

(** [logging] levels, with their numeric order. *)
Inductive Level := DEBUG | INFO | WARN | ERROR.

Definition level_no (l : Level) : Z :=
  match l with DEBUG => 10 | INFO => 20 | WARN => 30 | ERROR => 40 end.

(** A logged message: the script logs strings and, on a failed command,
    the raw stderr bytes of the child (or [None] in verbose mode). *)
Inductive LogMsg :=
| LStr (s : string)
| LBytes (o : option string).

(** The module-level package tables.  They are Python lists, and [main]
    appends to some of them, so they are part of the state. *)
Record Tables := mkTables {
  ARCH_PKGS : list string;
  DEBIAN_PKGS : list string;
  REDHAT_PKGS : list string;
  UBUNTU_PKGS : list string;
  VOID_PKGS : list string
}.

Record World := mkWorld {
  fs : FileSys;
  cwd : string;
  environ : gmap string string;
  uid : Z;
  loglevel : Level;
  tables : Tables;
  clock : nat   (** number of external commands run so far *)
}.

Definition with_fs (f : FileSys) (w : World) : World :=
  mkWorld f (cwd w) (environ w) (uid w) (loglevel w) (tables w) (clock w).
Definition with_cwd (d : string) (w : World) : World :=
  mkWorld (fs w) d (environ w) (uid w) (loglevel w) (tables w) (clock w).
Definition with_environ (e : gmap string string) (w : World) : World :=
  mkWorld (fs w) (cwd w) e (uid w) (loglevel w) (tables w) (clock w).
Definition with_loglevel (l : Level) (w : World) : World :=
  mkWorld (fs w) (cwd w) (environ w) (uid w) l (tables w) (clock w).
Definition with_tables (t : Tables) (w : World) : World :=
  mkWorld (fs w) (cwd w) (environ w) (uid w) (loglevel w) t (clock w).
Definition tick (f : FileSys) (w : World) : World :=
  mkWorld f (cwd w) (environ w) (uid w) (loglevel w) (tables w) (S (clock w)).

(** What the script does to the outside, in order. *)
Inductive Event :=
| EvLog (lvl : Level) (msg : LogMsg)
| EvStderr (s : string)
| EvPopen (args : list string) (env : option (gmap string string))
          (verbose : bool) (res : option (Z * string * string))
| EvSystem (cmd : string) (code : Z)
| EvChdir (p : string)
| EvMkdir (p : string)
| EvRmtree (p : string)
| EvRemove (p : string)
| EvCopy (src dst : string)
| EvCopytree (src dst : string)
| EvTarOpen (archive : string)
| EvTarAdd (archive member : string).

(** How a computation ends. *)
Inductive Outcome (A : Type) :=
| Ret (a : A)
| Exit (code : Z)
| Raise (e : Py.exn).
Arguments Ret {A} a.
Arguments Exit {A} code.
Arguments Raise {A} e.

Record Run (A : Type) := mkRun {
  outcome : Outcome A;
  final : World;
  events : list Event
}.
Arguments mkRun {A} _ _ _.
Arguments outcome {A} _.
Arguments final {A} _.
Arguments events {A} _.

Definition M (A : Type) : Type := World -> Run A.

Definition ret {A} (a : A) : M A := fun w => mkRun (Ret a) w [].

Definition bind {A B} (m : M A) (k : A -> M B) : M B := fun w =>
  match m w with
  | mkRun (Ret a) w1 e1 =>
      match k a w1 with
      | mkRun o w2 e2 => mkRun o w2 (e1 ++ e2)
      end
  | mkRun (Exit c) w1 e1 => mkRun (Exit c) w1 e1
  | mkRun (Raise e) w1 e1 => mkRun (Raise e) w1 e1
  end.

Definition raise {A} (e : Py.exn) : M A := fun w => mkRun (Raise e) w [].
Definition sys_exit {A} (c : Z) : M A := fun w => mkRun (Exit c) w [].
Definition emit (e : Event) : M unit := fun w => mkRun (Ret tt) w [e].
Definition get {A} (f : World -> A) : M A := fun w => mkRun (Ret (f w)) w [].
Definition modify (f : World -> World) : M unit := fun w => mkRun (Ret tt) (f w) [].

(** [try: m except e: h] *)
Definition try_except {A} (m : M A) (handles : Py.exn -> bool) (h : M A) : M A :=
  fun w =>
    match m w with
    | mkRun (Raise e) w1 e1 =>
        if handles e then
          match h w1 with
          | mkRun o w2 e2 => mkRun o w2 (e1 ++ e2)
          end
        else mkRun (Raise e) w1 e1
    | r => r
    end.

Declare Scope script_scope.
Delimit Scope script_scope with script.
Notation "'let*' x ':=' m 'in' k" := (bind m (fun x => k))
  (at level 10, x pattern, m at level 100, k at level 200) : script_scope.
Notation "m ;; k" := (bind m (fun _ => k))
  (at level 100, right associativity) : script_scope.
Open Scope script_scope.

(** [if c: m] with no else branch. *)
Definition when (c : bool) (m : M unit) : M unit := if c then m else ret tt.

(** [for x in l: f(x)] *)
Fixpoint for_each {A} (l : list A) (f : A -> M unit) : M unit :=
  match l with
  | [] => ret tt
  | x :: l' => f x ;; for_each l' f
  end.


(** ** Command line and configuration *)

(** The namespace [parse_argv] returns (lines 585-742).  The flags are
    [store_true] switches; the others are strings or [None]. *)
Module Parsed.
Record t := mk {
  sha : option string;
  tag : option string;
  branch : option string;
  build_bullet : bool;
  build_mygui : bool;
  build_upstream_osg : bool;
  build_unshield : bool;
  force_bullet : bool;
  force_mygui : bool;
  force_openmw : bool;
  force_osg : bool;
  force_tes3mp : bool;
  force_unshield : bool;
  force_pkg : bool;
  force_all : bool;
  force_all_tes3mp : bool;
  system_osg : bool;
  install_prefix : option string;
  jobs : option string;
  make_install : bool;
  make_pkg : bool;
  no_pull : bool;
  out : option string;
  patch : option string;
  skip_install_pkgs : bool;
  src_dir : option string;
  update : bool;
  tes3mp : bool;
  tes3mp_server_only : bool;
  with_corescripts : bool;
  with_essimporter : bool;
  without_cs : bool;
  without_iniimporter : bool;
  without_launcher : bool;
  without_wizard : bool;
  verbose : bool
}.

(** No option given. *)
Definition none : t :=
  mk None None None false false false false false false false false false
     false false false false false None None false false false None None
     false None false false false false false false false false false false.
End Parsed.

(** The local variables of [main] that hold the configuration (lines
    749-783), with one setter per variable. *)
Module Cfg.
Record t := mk {
  cpus : Py.value;
  build_bullet : bool;
  build_mygui : bool;
  build_upstream_osg : bool;
  build_unshield : bool;
  force_bullet : bool;
  force_mygui : bool;
  force_openmw : bool;
  force_osg : bool;
  force_tes3mp : bool;
  force_unshield : bool;
  force_pkg : bool;
  install_prefix : string;
  system_osg : bool;
  make_install : bool;
  make_pkg : bool;
  out_dir : option string;
  patch : option string;
  pull : bool;
  skip_install_pkgs : bool;
  src_dir : string;
  tes3mp : bool;
  tes3mp_serveronly : bool;
  verbose : bool;
  with_corescripts : bool;
  sha : option string;
  tag : option string;
  branch : string;
  rev : string;
  with_essimporter : bool;
  without_cs : bool;
  without_iniimporter : bool;
  without_launcher : bool;
  without_wizard : bool
}.

Definition set_cpus (v : Py.value) (c : t) : t :=
  mk v (build_bullet c) (build_mygui c) (build_upstream_osg c)
    (build_unshield c) (force_bullet c) (force_mygui c) (force_openmw c)
    (force_osg c) (force_tes3mp c) (force_unshield c) (force_pkg c)
    (install_prefix c) (system_osg c) (make_install c) (make_pkg c)
    (out_dir c) (patch c) (pull c) (skip_install_pkgs c) (src_dir c)
    (tes3mp c) (tes3mp_serveronly c) (verbose c) (with_corescripts c)
    (sha c) (tag c) (branch c) (rev c) (with_essimporter c) (without_cs c)
    (without_iniimporter c) (without_launcher c) (without_wizard c).
Definition set_build_bullet (v : bool) (c : t) : t :=
  mk (cpus c) v (build_mygui c) (build_upstream_osg c) (build_unshield c)
    (force_bullet c) (force_mygui c) (force_openmw c) (force_osg c)
    (force_tes3mp c) (force_unshield c) (force_pkg c) (install_prefix c)
    (system_osg c) (make_install c) (make_pkg c) (out_dir c) (patch c)
    (pull c) (skip_install_pkgs c) (src_dir c) (tes3mp c)
    (tes3mp_serveronly c) (verbose c) (with_corescripts c) (sha c) (tag c)
    (branch c) (rev c) (with_essimporter c) (without_cs c)
    (without_iniimporter c) (without_launcher c) (without_wizard c).
Definition set_build_mygui (v : bool) (c : t) : t :=
  mk (cpus c) (build_bullet c) v (build_upstream_osg c) (build_unshield c)
    (force_bullet c) (force_mygui c) (force_openmw c) (force_osg c)
    (force_tes3mp c) (force_unshield c) (force_pkg c) (install_prefix c)
    (system_osg c) (make_install c) (make_pkg c) (out_dir c) (patch c)
    (pull c) (skip_install_pkgs c) (src_dir c) (tes3mp c)
    (tes3mp_serveronly c) (verbose c) (with_corescripts c) (sha c) (tag c)
    (branch c) (rev c) (with_essimporter c) (without_cs c)
    (without_iniimporter c) (without_launcher c) (without_wizard c).
Definition set_build_upstream_osg (v : bool) (c : t) : t :=
  mk (cpus c) (build_bullet c) (build_mygui c) v (build_unshield c)
    (force_bullet c) (force_mygui c) (force_openmw c) (force_osg c)
    (force_tes3mp c) (force_unshield c) (force_pkg c) (install_prefix c)
    (system_osg c) (make_install c) (make_pkg c) (out_dir c) (patch c)
    (pull c) (skip_install_pkgs c) (src_dir c) (tes3mp c)
    (tes3mp_serveronly c) (verbose c) (with_corescripts c) (sha c) (tag c)
    (branch c) (rev c) (with_essimporter c) (without_cs c)
    (without_iniimporter c) (without_launcher c) (without_wizard c).
Definition set_build_unshield (v : bool) (c : t) : t :=
  mk (cpus c) (build_bullet c) (build_mygui c) (build_upstream_osg c) v
    (force_bullet c) (force_mygui c) (force_openmw c) (force_osg c)
    (force_tes3mp c) (force_unshield c) (force_pkg c) (install_prefix c)
    (system_osg c) (make_install c) (make_pkg c) (out_dir c) (patch c)
    (pull c) (skip_install_pkgs c) (src_dir c) (tes3mp c)
    (tes3mp_serveronly c) (verbose c) (with_corescripts c) (sha c) (tag c)
    (branch c) (rev c) (with_essimporter c) (without_cs c)
    (without_iniimporter c) (without_launcher c) (without_wizard c).
Definition set_force_bullet (v : bool) (c : t) : t :=
  mk (cpus c) (build_bullet c) (build_mygui c) (build_upstream_osg c)
    (build_unshield c) v (force_mygui c) (force_openmw c) (force_osg c)
    (force_tes3mp c) (force_unshield c) (force_pkg c) (install_prefix c)
    (system_osg c) (make_install c) (make_pkg c) (out_dir c) (patch c)
    (pull c) (skip_install_pkgs c) (src_dir c) (tes3mp c)
    (tes3mp_serveronly c) (verbose c) (with_corescripts c) (sha c) (tag c)
    (branch c) (rev c) (with_essimporter c) (without_cs c)
    (without_iniimporter c) (without_launcher c) (without_wizard c).
Definition set_force_mygui (v : bool) (c : t) : t :=
  mk (cpus c) (build_bullet c) (build_mygui c) (build_upstream_osg c)
    (build_unshield c) (force_bullet c) v (force_openmw c) (force_osg c)
    (force_tes3mp c) (force_unshield c) (force_pkg c) (install_prefix c)
    (system_osg c) (make_install c) (make_pkg c) (out_dir c) (patch c)
    (pull c) (skip_install_pkgs c) (src_dir c) (tes3mp c)
    (tes3mp_serveronly c) (verbose c) (with_corescripts c) (sha c) (tag c)
    (branch c) (rev c) (with_essimporter c) (without_cs c)
    (without_iniimporter c) (without_launcher c) (without_wizard c).
Definition set_force_openmw (v : bool) (c : t) : t :=
  mk (cpus c) (build_bullet c) (build_mygui c) (build_upstream_osg c)
    (build_unshield c) (force_bullet c) (force_mygui c) v (force_osg c)
    (force_tes3mp c) (force_unshield c) (force_pkg c) (install_prefix c)
    (system_osg c) (make_install c) (make_pkg c) (out_dir c) (patch c)
    (pull c) (skip_install_pkgs c) (src_dir c) (tes3mp c)
    (tes3mp_serveronly c) (verbose c) (with_corescripts c) (sha c) (tag c)
    (branch c) (rev c) (with_essimporter c) (without_cs c)
    (without_iniimporter c) (without_launcher c) (without_wizard c).
Definition set_force_osg (v : bool) (c : t) : t :=
  mk (cpus c) (build_bullet c) (build_mygui c) (build_upstream_osg c)
    (build_unshield c) (force_bullet c) (force_mygui c) (force_openmw c) v
    (force_tes3mp c) (force_unshield c) (force_pkg c) (install_prefix c)
    (system_osg c) (make_install c) (make_pkg c) (out_dir c) (patch c)
    (pull c) (skip_install_pkgs c) (src_dir c) (tes3mp c)
    (tes3mp_serveronly c) (verbose c) (with_corescripts c) (sha c) (tag c)
    (branch c) (rev c) (with_essimporter c) (without_cs c)
    (without_iniimporter c) (without_launcher c) (without_wizard c).
Definition set_force_tes3mp (v : bool) (c : t) : t :=
  mk (cpus c) (build_bullet c) (build_mygui c) (build_upstream_osg c)
    (build_unshield c) (force_bullet c) (force_mygui c) (force_openmw c)
    (force_osg c) v (force_unshield c) (force_pkg c) (install_prefix c)
    (system_osg c) (make_install c) (make_pkg c) (out_dir c) (patch c)
    (pull c) (skip_install_pkgs c) (src_dir c) (tes3mp c)
    (tes3mp_serveronly c) (verbose c) (with_corescripts c) (sha c) (tag c)
    (branch c) (rev c) (with_essimporter c) (without_cs c)
    (without_iniimporter c) (without_launcher c) (without_wizard c).
Definition set_force_unshield (v : bool) (c : t) : t :=
  mk (cpus c) (build_bullet c) (build_mygui c) (build_upstream_osg c)
    (build_unshield c) (force_bullet c) (force_mygui c) (force_openmw c)
    (force_osg c) (force_tes3mp c) v (force_pkg c) (install_prefix c)
    (system_osg c) (make_install c) (make_pkg c) (out_dir c) (patch c)
    (pull c) (skip_install_pkgs c) (src_dir c) (tes3mp c)
    (tes3mp_serveronly c) (verbose c) (with_corescripts c) (sha c) (tag c)
    (branch c) (rev c) (with_essimporter c) (without_cs c)
    (without_iniimporter c) (without_launcher c) (without_wizard c).
Definition set_force_pkg (v : bool) (c : t) : t :=
  mk (cpus c) (build_bullet c) (build_mygui c) (build_upstream_osg c)
    (build_unshield c) (force_bullet c) (force_mygui c) (force_openmw c)
    (force_osg c) (force_tes3mp c) (force_unshield c) v (install_prefix c)
    (system_osg c) (make_install c) (make_pkg c) (out_dir c) (patch c)
    (pull c) (skip_install_pkgs c) (src_dir c) (tes3mp c)
    (tes3mp_serveronly c) (verbose c) (with_corescripts c) (sha c) (tag c)
    (branch c) (rev c) (with_essimporter c) (without_cs c)
    (without_iniimporter c) (without_launcher c) (without_wizard c).
Definition set_install_prefix (v : string) (c : t) : t :=
  mk (cpus c) (build_bullet c) (build_mygui c) (build_upstream_osg c)
    (build_unshield c) (force_bullet c) (force_mygui c) (force_openmw c)
    (force_osg c) (force_tes3mp c) (force_unshield c) (force_pkg c) v
    (system_osg c) (make_install c) (make_pkg c) (out_dir c) (patch c)
    (pull c) (skip_install_pkgs c) (src_dir c) (tes3mp c)
    (tes3mp_serveronly c) (verbose c) (with_corescripts c) (sha c) (tag c)
    (branch c) (rev c) (with_essimporter c) (without_cs c)
    (without_iniimporter c) (without_launcher c) (without_wizard c).
Definition set_system_osg (v : bool) (c : t) : t :=
  mk (cpus c) (build_bullet c) (build_mygui c) (build_upstream_osg c)
    (build_unshield c) (force_bullet c) (force_mygui c) (force_openmw c)
    (force_osg c) (force_tes3mp c) (force_unshield c) (force_pkg c)
    (install_prefix c) v (make_install c) (make_pkg c) (out_dir c) (patch c)
    (pull c) (skip_install_pkgs c) (src_dir c) (tes3mp c)
    (tes3mp_serveronly c) (verbose c) (with_corescripts c) (sha c) (tag c)
    (branch c) (rev c) (with_essimporter c) (without_cs c)
    (without_iniimporter c) (without_launcher c) (without_wizard c).
Definition set_make_install (v : bool) (c : t) : t :=
  mk (cpus c) (build_bullet c) (build_mygui c) (build_upstream_osg c)
    (build_unshield c) (force_bullet c) (force_mygui c) (force_openmw c)
    (force_osg c) (force_tes3mp c) (force_unshield c) (force_pkg c)
    (install_prefix c) (system_osg c) v (make_pkg c) (out_dir c) (patch c)
    (pull c) (skip_install_pkgs c) (src_dir c) (tes3mp c)
    (tes3mp_serveronly c) (verbose c) (with_corescripts c) (sha c) (tag c)
    (branch c) (rev c) (with_essimporter c) (without_cs c)
    (without_iniimporter c) (without_launcher c) (without_wizard c).
Definition set_make_pkg (v : bool) (c : t) : t :=
  mk (cpus c) (build_bullet c) (build_mygui c) (build_upstream_osg c)
    (build_unshield c) (force_bullet c) (force_mygui c) (force_openmw c)
    (force_osg c) (force_tes3mp c) (force_unshield c) (force_pkg c)
    (install_prefix c) (system_osg c) (make_install c) v (out_dir c)
    (patch c) (pull c) (skip_install_pkgs c) (src_dir c) (tes3mp c)
    (tes3mp_serveronly c) (verbose c) (with_corescripts c) (sha c) (tag c)
    (branch c) (rev c) (with_essimporter c) (without_cs c)
    (without_iniimporter c) (without_launcher c) (without_wizard c).
Definition set_out_dir (v : option string) (c : t) : t :=
  mk (cpus c) (build_bullet c) (build_mygui c) (build_upstream_osg c)
    (build_unshield c) (force_bullet c) (force_mygui c) (force_openmw c)
    (force_osg c) (force_tes3mp c) (force_unshield c) (force_pkg c)
    (install_prefix c) (system_osg c) (make_install c) (make_pkg c) v
    (patch c) (pull c) (skip_install_pkgs c) (src_dir c) (tes3mp c)
    (tes3mp_serveronly c) (verbose c) (with_corescripts c) (sha c) (tag c)
    (branch c) (rev c) (with_essimporter c) (without_cs c)
    (without_iniimporter c) (without_launcher c) (without_wizard c).
Definition set_patch (v : option string) (c : t) : t :=
  mk (cpus c) (build_bullet c) (build_mygui c) (build_upstream_osg c)
    (build_unshield c) (force_bullet c) (force_mygui c) (force_openmw c)
    (force_osg c) (force_tes3mp c) (force_unshield c) (force_pkg c)
    (install_prefix c) (system_osg c) (make_install c) (make_pkg c)
    (out_dir c) v (pull c) (skip_install_pkgs c) (src_dir c) (tes3mp c)
    (tes3mp_serveronly c) (verbose c) (with_corescripts c) (sha c) (tag c)
    (branch c) (rev c) (with_essimporter c) (without_cs c)
    (without_iniimporter c) (without_launcher c) (without_wizard c).
Definition set_pull (v : bool) (c : t) : t :=
  mk (cpus c) (build_bullet c) (build_mygui c) (build_upstream_osg c)
    (build_unshield c) (force_bullet c) (force_mygui c) (force_openmw c)
    (force_osg c) (force_tes3mp c) (force_unshield c) (force_pkg c)
    (install_prefix c) (system_osg c) (make_install c) (make_pkg c)
    (out_dir c) (patch c) v (skip_install_pkgs c) (src_dir c) (tes3mp c)
    (tes3mp_serveronly c) (verbose c) (with_corescripts c) (sha c) (tag c)
    (branch c) (rev c) (with_essimporter c) (without_cs c)
    (without_iniimporter c) (without_launcher c) (without_wizard c).
Definition set_skip_install_pkgs (v : bool) (c : t) : t :=
  mk (cpus c) (build_bullet c) (build_mygui c) (build_upstream_osg c)
    (build_unshield c) (force_bullet c) (force_mygui c) (force_openmw c)
    (force_osg c) (force_tes3mp c) (force_unshield c) (force_pkg c)
    (install_prefix c) (system_osg c) (make_install c) (make_pkg c)
    (out_dir c) (patch c) (pull c) v (src_dir c) (tes3mp c)
    (tes3mp_serveronly c) (verbose c) (with_corescripts c) (sha c) (tag c)
    (branch c) (rev c) (with_essimporter c) (without_cs c)
    (without_iniimporter c) (without_launcher c) (without_wizard c).
Definition set_src_dir (v : string) (c : t) : t :=
  mk (cpus c) (build_bullet c) (build_mygui c) (build_upstream_osg c)
    (build_unshield c) (force_bullet c) (force_mygui c) (force_openmw c)
    (force_osg c) (force_tes3mp c) (force_unshield c) (force_pkg c)
    (install_prefix c) (system_osg c) (make_install c) (make_pkg c)
    (out_dir c) (patch c) (pull c) (skip_install_pkgs c) v (tes3mp c)
    (tes3mp_serveronly c) (verbose c) (with_corescripts c) (sha c) (tag c)
    (branch c) (rev c) (with_essimporter c) (without_cs c)
    (without_iniimporter c) (without_launcher c) (without_wizard c).
Definition set_tes3mp (v : bool) (c : t) : t :=
  mk (cpus c) (build_bullet c) (build_mygui c) (build_upstream_osg c)
    (build_unshield c) (force_bullet c) (force_mygui c) (force_openmw c)
    (force_osg c) (force_tes3mp c) (force_unshield c) (force_pkg c)
    (install_prefix c) (system_osg c) (make_install c) (make_pkg c)
    (out_dir c) (patch c) (pull c) (skip_install_pkgs c) (src_dir c) v
    (tes3mp_serveronly c) (verbose c) (with_corescripts c) (sha c) (tag c)
    (branch c) (rev c) (with_essimporter c) (without_cs c)
    (without_iniimporter c) (without_launcher c) (without_wizard c).
Definition set_tes3mp_serveronly (v : bool) (c : t) : t :=
  mk (cpus c) (build_bullet c) (build_mygui c) (build_upstream_osg c)
    (build_unshield c) (force_bullet c) (force_mygui c) (force_openmw c)
    (force_osg c) (force_tes3mp c) (force_unshield c) (force_pkg c)
    (install_prefix c) (system_osg c) (make_install c) (make_pkg c)
    (out_dir c) (patch c) (pull c) (skip_install_pkgs c) (src_dir c)
    (tes3mp c) v (verbose c) (with_corescripts c) (sha c) (tag c) (branch c)
    (rev c) (with_essimporter c) (without_cs c) (without_iniimporter c)
    (without_launcher c) (without_wizard c).
Definition set_verbose (v : bool) (c : t) : t :=
  mk (cpus c) (build_bullet c) (build_mygui c) (build_upstream_osg c)
    (build_unshield c) (force_bullet c) (force_mygui c) (force_openmw c)
    (force_osg c) (force_tes3mp c) (force_unshield c) (force_pkg c)
    (install_prefix c) (system_osg c) (make_install c) (make_pkg c)
    (out_dir c) (patch c) (pull c) (skip_install_pkgs c) (src_dir c)
    (tes3mp c) (tes3mp_serveronly c) v (with_corescripts c) (sha c) (tag c)
    (branch c) (rev c) (with_essimporter c) (without_cs c)
    (without_iniimporter c) (without_launcher c) (without_wizard c).
Definition set_with_corescripts (v : bool) (c : t) : t :=
  mk (cpus c) (build_bullet c) (build_mygui c) (build_upstream_osg c)
    (build_unshield c) (force_bullet c) (force_mygui c) (force_openmw c)
    (force_osg c) (force_tes3mp c) (force_unshield c) (force_pkg c)
    (install_prefix c) (system_osg c) (make_install c) (make_pkg c)
    (out_dir c) (patch c) (pull c) (skip_install_pkgs c) (src_dir c)
    (tes3mp c) (tes3mp_serveronly c) (verbose c) v (sha c) (tag c)
    (branch c) (rev c) (with_essimporter c) (without_cs c)
    (without_iniimporter c) (without_launcher c) (without_wizard c).
Definition set_sha (v : option string) (c : t) : t :=
  mk (cpus c) (build_bullet c) (build_mygui c) (build_upstream_osg c)
    (build_unshield c) (force_bullet c) (force_mygui c) (force_openmw c)
    (force_osg c) (force_tes3mp c) (force_unshield c) (force_pkg c)
    (install_prefix c) (system_osg c) (make_install c) (make_pkg c)
    (out_dir c) (patch c) (pull c) (skip_install_pkgs c) (src_dir c)
    (tes3mp c) (tes3mp_serveronly c) (verbose c) (with_corescripts c) v
    (tag c) (branch c) (rev c) (with_essimporter c) (without_cs c)
    (without_iniimporter c) (without_launcher c) (without_wizard c).
Definition set_tag (v : option string) (c : t) : t :=
  mk (cpus c) (build_bullet c) (build_mygui c) (build_upstream_osg c)
    (build_unshield c) (force_bullet c) (force_mygui c) (force_openmw c)
    (force_osg c) (force_tes3mp c) (force_unshield c) (force_pkg c)
    (install_prefix c) (system_osg c) (make_install c) (make_pkg c)
    (out_dir c) (patch c) (pull c) (skip_install_pkgs c) (src_dir c)
    (tes3mp c) (tes3mp_serveronly c) (verbose c) (with_corescripts c)
    (sha c) v (branch c) (rev c) (with_essimporter c) (without_cs c)
    (without_iniimporter c) (without_launcher c) (without_wizard c).
Definition set_branch (v : string) (c : t) : t :=
  mk (cpus c) (build_bullet c) (build_mygui c) (build_upstream_osg c)
    (build_unshield c) (force_bullet c) (force_mygui c) (force_openmw c)
    (force_osg c) (force_tes3mp c) (force_unshield c) (force_pkg c)
    (install_prefix c) (system_osg c) (make_install c) (make_pkg c)
    (out_dir c) (patch c) (pull c) (skip_install_pkgs c) (src_dir c)
    (tes3mp c) (tes3mp_serveronly c) (verbose c) (with_corescripts c)
    (sha c) (tag c) v (rev c) (with_essimporter c) (without_cs c)
    (without_iniimporter c) (without_launcher c) (without_wizard c).
Definition set_rev (v : string) (c : t) : t :=
  mk (cpus c) (build_bullet c) (build_mygui c) (build_upstream_osg c)
    (build_unshield c) (force_bullet c) (force_mygui c) (force_openmw c)
    (force_osg c) (force_tes3mp c) (force_unshield c) (force_pkg c)
    (install_prefix c) (system_osg c) (make_install c) (make_pkg c)
    (out_dir c) (patch c) (pull c) (skip_install_pkgs c) (src_dir c)
    (tes3mp c) (tes3mp_serveronly c) (verbose c) (with_corescripts c)
    (sha c) (tag c) (branch c) v (with_essimporter c) (without_cs c)
    (without_iniimporter c) (without_launcher c) (without_wizard c).
Definition set_with_essimporter (v : bool) (c : t) : t :=
  mk (cpus c) (build_bullet c) (build_mygui c) (build_upstream_osg c)
    (build_unshield c) (force_bullet c) (force_mygui c) (force_openmw c)
    (force_osg c) (force_tes3mp c) (force_unshield c) (force_pkg c)
    (install_prefix c) (system_osg c) (make_install c) (make_pkg c)
    (out_dir c) (patch c) (pull c) (skip_install_pkgs c) (src_dir c)
    (tes3mp c) (tes3mp_serveronly c) (verbose c) (with_corescripts c)
    (sha c) (tag c) (branch c) (rev c) v (without_cs c)
    (without_iniimporter c) (without_launcher c) (without_wizard c).
Definition set_without_cs (v : bool) (c : t) : t :=
  mk (cpus c) (build_bullet c) (build_mygui c) (build_upstream_osg c)
    (build_unshield c) (force_bullet c) (force_mygui c) (force_openmw c)
    (force_osg c) (force_tes3mp c) (force_unshield c) (force_pkg c)
    (install_prefix c) (system_osg c) (make_install c) (make_pkg c)
    (out_dir c) (patch c) (pull c) (skip_install_pkgs c) (src_dir c)
    (tes3mp c) (tes3mp_serveronly c) (verbose c) (with_corescripts c)
    (sha c) (tag c) (branch c) (rev c) (with_essimporter c) v
    (without_iniimporter c) (without_launcher c) (without_wizard c).
Definition set_without_iniimporter (v : bool) (c : t) : t :=
  mk (cpus c) (build_bullet c) (build_mygui c) (build_upstream_osg c)
    (build_unshield c) (force_bullet c) (force_mygui c) (force_openmw c)
    (force_osg c) (force_tes3mp c) (force_unshield c) (force_pkg c)
    (install_prefix c) (system_osg c) (make_install c) (make_pkg c)
    (out_dir c) (patch c) (pull c) (skip_install_pkgs c) (src_dir c)
    (tes3mp c) (tes3mp_serveronly c) (verbose c) (with_corescripts c)
    (sha c) (tag c) (branch c) (rev c) (with_essimporter c) (without_cs c) v
    (without_launcher c) (without_wizard c).
Definition set_without_launcher (v : bool) (c : t) : t :=
  mk (cpus c) (build_bullet c) (build_mygui c) (build_upstream_osg c)
    (build_unshield c) (force_bullet c) (force_mygui c) (force_openmw c)
    (force_osg c) (force_tes3mp c) (force_unshield c) (force_pkg c)
    (install_prefix c) (system_osg c) (make_install c) (make_pkg c)
    (out_dir c) (patch c) (pull c) (skip_install_pkgs c) (src_dir c)
    (tes3mp c) (tes3mp_serveronly c) (verbose c) (with_corescripts c)
    (sha c) (tag c) (branch c) (rev c) (with_essimporter c) (without_cs c)
    (without_iniimporter c) v (without_wizard c).
Definition set_without_wizard (v : bool) (c : t) : t :=
  mk (cpus c) (build_bullet c) (build_mygui c) (build_upstream_osg c)
    (build_unshield c) (force_bullet c) (force_mygui c) (force_openmw c)
    (force_osg c) (force_tes3mp c) (force_unshield c) (force_pkg c)
    (install_prefix c) (system_osg c) (make_install c) (make_pkg c)
    (out_dir c) (patch c) (pull c) (skip_install_pkgs c) (src_dir c)
    (tes3mp c) (tes3mp_serveronly c) (verbose c) (with_corescripts c)
    (sha c) (tag c) (branch c) (rev c) (with_essimporter c) (without_cs c)
    (without_iniimporter c) (without_launcher c) v.
End Cfg.
(** ** Module constants (lines 12-37) *)

Definition BULLET_VERSION : string := "2.86.1".
Definition MYGUI_VERSION : string := "3.2.2".
Definition UNSHIELD_VERSION : string := "1.4.2".
Definition OPENMW_OSG_BRANCH : string := "3.4".
Definition UPSTREAM_OSG_VERSION : string := "OpenSceneGraph-3.6.5".
Definition TES3MP_CORESCRIPTS_VERSION : string := "0.7.0".
Definition INSTALL_PREFIX : string := Path.join "/" ["opt"; "build-openmw"].
Definition SRC_DIR : string := Path.join INSTALL_PREFIX ["src"].

Definition ARCH_PKGS0 : list string := Py.split "".
Definition DEBIAN_PKGS0 : list string :=
  Py.split "git libopenal-dev libbullet-dev libsdl2-dev qt5-default libfreetype6-dev libboost-filesystem-dev libboost1.71-dev libboost-thread-dev libboost-program-options-dev libboost-system-dev libavcodec-dev libavformat-dev libavutil-dev libswscale-dev cmake build-essential libqt5opengl5-dev".
Definition REDHAT_PKGS0 : list string :=
  Py.split "openal-devel SDL2-devel qt5-devel boost-filesystem git boost-thread boost-program-options boost-system ffmpeg-devel ffmpeg-libs gcc-c++ tinyxml-devel cmake".
Definition UBUNTU_PKGS0 : list string :=
  ["libfreetype6-dev"; "libbz2-dev"; "liblzma-dev"] ++ DEBIAN_PKGS0.
Definition VOID_PKGS0 : list string :=
  Py.split "SDL2-devel boost-devel bullet-devel cmake ffmpeg-devel freetype-devel gcc git libXt-devel libavformat libavutil libmygui-devel libopenal-devel libopenjpeg2-devel libswresample libswscale libtxc_liblzma-devel libunshield-devel python-devel python3-devel qt5-devel zlib-devel".

(** The tables as the module defines them, before [main] runs. *)
Definition tables0 : Tables :=
  mkTables ARCH_PKGS0 DEBIAN_PKGS0 REDHAT_PKGS0 UBUNTU_PKGS0 VOID_PKGS0.

(** ** File-system and process primitives *)

Module OS.

(** A path as the kernel sees it from the working directory. *)
Definition resolve (w : World) (p : string) : string := Path.join2 (cwd w) p.

Definition lookup (w : World) (p : string) : option node := fs w (resolve w p).

(** [os.path.exists], [os.path.isfile], [os.path.isdir] *)
Definition exists_ (p : string) : M bool :=
  get (fun w => match lookup w p with Some _ => true | None => false end).
Definition isfile (p : string) : M bool :=
  get (fun w => match lookup w p with Some File => true | _ => false end).
Definition isdir (p : string) : M bool :=
  get (fun w => match lookup w p with Some Dir => true | _ => false end).

(** [os.getenv(k)], as a truth value *)
Definition getenv (k : string) : M (option string) :=
  get (fun w => environ w !! k).

(** [os.getcwd()] *)
Definition getcwd : M string := get cwd.

(** [os.chdir(p)] *)
Definition chdir (p : string) : M unit := fun w =>
  match lookup w p with
  | None => raise Py.FileNotFoundError w
  | Some File => raise Py.NotADirectoryError w
  | Some Dir => mkRun (Ret tt) (with_cwd (resolve w p) w) [EvChdir (resolve w p)]
  end.

Definition set_node (p : string) (n : option node) (f : FileSys) : FileSys :=
  fun q => if String.eqb q p then n else f q.

(** [os.mkdir(p)] *)
Definition mkdir (p : string) : M unit := fun w =>
  let rp := resolve w p in
  match fs w rp with
  | Some _ => raise Py.FileExistsError w
  | None =>
      match fs w (Path.dirname rp) with
      | Some Dir => mkRun (Ret tt) (with_fs (set_node rp (Some Dir) (fs w)) w) [EvMkdir rp]
      | Some File => raise Py.NotADirectoryError w
      | None => raise Py.FileNotFoundError w
      end
  end.

(** The proper ancestors of a path, outermost first. *)
Fixpoint ancestors_go (acc s : string) : list string :=
  match s with
  | EmptyString => []
  | String c s' =>
      (if (Ascii.eqb c "/" && negb (Path.all_sep acc))%bool then [acc] else [])
        ++ ancestors_go (acc +:+ String c "") s'
  end.
Definition ancestors (p : string) : list string := ancestors_go "" p.

(** [os.makedirs(p)]: create the missing ancestors, then [p] itself. *)
Definition makedirs (p : string) : M unit :=
  let* rp := get (fun w => resolve w p) in
  for_each (ancestors rp)
    (fun a => let* e := exists_ a in when (negb e) (mkdir a)) ;;
  mkdir rp.

(** [shutil.rmtree(p)] *)
Definition rmtree (p : string) : M unit := fun w =>
  let rp := resolve w p in
  match fs w rp with
  | None => raise Py.FileNotFoundError w
  | Some File => raise Py.NotADirectoryError w
  | Some Dir =>
      mkRun (Ret tt)
        (with_fs (fun q => if Path.under rp q then None else fs w q) w)
        [EvRmtree rp]
  end.

(** [os.remove(p)] *)
Definition remove (p : string) : M unit := fun w =>
  let rp := resolve w p in
  match fs w rp with
  | None => raise Py.FileNotFoundError w
  | Some Dir => raise Py.IsADirectoryError w
  | Some File => mkRun (Ret tt) (with_fs (set_node rp None (fs w)) w) [EvRemove rp]
  end.

(** [shutil.copy(src, dst)] with [dst] an existing directory. *)
Definition copy (src dst : string) : M unit := fun w =>
  let rs := resolve w src in
  let rd := resolve w dst in
  match fs w rs with
  | None => raise Py.FileNotFoundError w
  | Some Dir => raise Py.IsADirectoryError w
  | Some File =>
      match fs w rd with
      | Some Dir =>
          let target := Path.join2 rd (Path.basename rs) in
          match fs w target with
          | Some Dir => raise Py.IsADirectoryError w
          | _ => mkRun (Ret tt) (with_fs (set_node target (Some File) (fs w)) w)
                   [EvCopy rs target]
          end
      | Some File => mkRun (Ret tt) w [EvCopy rs rd]
      | None =>
          match fs w (Path.dirname rd) with
          | Some Dir => mkRun (Ret tt) (with_fs (set_node rd (Some File) (fs w)) w)
                          [EvCopy rs rd]
          | Some File => raise Py.NotADirectoryError w
          | None => raise Py.FileNotFoundError w
          end
      end
  end.

(** The part of [q] below directory [p], if [q] lies strictly below. *)
Fixpoint strip_prefix (p q : string) : option string :=
  match p, q with
  | EmptyString, _ => Some q
  | String a p', String b q' => if Ascii.eqb a b then strip_prefix p' q' else None
  | _, _ => None
  end.

(** [shutil.copytree(src, dst)]: [dst] must not exist. *)
Definition copytree (src dst : string) : M unit := fun w =>
  let rs := resolve w src in
  let rd := resolve w dst in
  match fs w rs with
  | None => raise Py.FileNotFoundError w
  | Some File => raise Py.NotADirectoryError w
  | Some Dir =>
      match fs w rd with
      | Some _ => raise Py.FileExistsError w
      | None =>
          mkRun (Ret tt)
            (with_fs (fun q =>
               if String.eqb q rd then Some Dir
               else match strip_prefix (Path.as_dir rd) q with
                    | Some rest =>
                        match fs w (Path.as_dir rs +:+ rest) with
                        | Some n => Some n
                        | None => fs w q
                        end
                    | None => fs w q
                    end) w)
            [EvCopytree rs rd]
      end
  end.

(** [os.getuid()] *)
Definition getuid : M Z := get uid.

End OS.

(** Arguments of [build_library] (lines 93-111). *)
Record BuildArgs := mkBuildArgs {
  libname : string;
  check_file : string;
  clone_dest : option string;
  cmake : bool;
  cmake_args : option (list string);
  cmake_target : string;
  cpus : Py.value;
  env : option (gmap string string);
  force : bool;
  install_prefix : string;
  git_url : string;
  make_install : bool;
  patch : option string;
  quiet : bool;
  src_dir : string;
  verbose : bool;
  version : string
}.

(** The keyword defaults of [build_library]. *)
Definition build_defaults (name check url : string) : BuildArgs :=
  {| libname := name; check_file := check; clone_dest := None; cmake := true;
     cmake_args := None; cmake_target := ".."; cpus := Py.VNone; env := None;
     force := false; install_prefix := INSTALL_PREFIX; git_url := url;
     make_install := true; patch := None; quiet := false; src_dir := SRC_DIR;
     verbose := false; version := "master" |}.

(** ** The script *)

Section Script.

(** What a spawned program does: given its arguments, the environment it
    runs in, whether its output goes to the terminal, the working
    directory, the file system and the time, it is found or not, returns
    an exit status with its stdout and stderr, and leaves a file
    system. *)
Variable popen :
  list string -> gmap string string -> bool -> string -> FileSys -> nat ->
  option (Z * string * string) * FileSys.

(** What a shell command line given to [os.system] does: its wait
    status and the file system it leaves. *)
Variable system : string -> string -> FileSys -> nat -> Z * FileSys.

(** The directory name [tempfile.mkdtemp] picks for a suffix. *)
Variable mkdtemp_name : string -> FileSys -> nat -> string.

(** [os.path.normpath] *)
Variable normpath : string -> string.

(** [logging.debug], [logging.info], ...: a record below the level of
    the root logger is dropped. *)
Definition logging_log (lvl : Level) (msg : LogMsg) : M unit := fun w =>
  if level_no (loglevel w) <=? level_no lvl
  then emit (EvLog lvl msg) w
  else ret tt w.

(** lines 40-50 *)
Definition emit_log (msg : LogMsg) (level : Level) (quiet : bool) : M unit :=
  if negb quiet then
    match level with
    | DEBUG => logging_log DEBUG msg
    | INFO => logging_log INFO msg
    | WARN => logging_log WARN msg
    | ERROR => logging_log ERROR msg
    end
  else ret tt.

(** [emit_log(msg)] with the defaults. *)
Definition log (s : string) : M unit := emit_log (LStr s) INFO false.

(** lines 75-77 *)
Definition error_and_die {A} (msg : string) : M A :=
  emit (EvStderr ("ERROR: " +:+ msg +:+ " Exiting ..." +:+ Py.nl)) ;;
  sys_exit 1.

(** [subprocess.Popen(...)] followed by [communicate()]. *)
Definition Popen (cli_args : list string) (env : option (gmap string string))
    (verbose : bool) : M (Z * string * string) := fun w =>
  match popen cli_args (default (environ w) env) verbose (cwd w) (fs w) (clock w) with
  | (None, _) =>
      mkRun (Raise Py.FileNotFoundError) (tick (fs w) w)
        [EvPopen cli_args env verbose None]
  | (Some r, f) =>
      mkRun (Ret r) (tick f w) [EvPopen cli_args env verbose (Some r)]
  end.

(** lines 80-90.  The result is [(returncode, (out, err))]; in verbose
    mode the streams are not piped and both are [None]. *)
Definition execute_shell (cli_args : list string)
    (env : option (gmap string string)) (verbose : bool)
    : M (Z * (option string * option string)) :=
  emit_log (LStr ("EXECUTING: " +:+ Py.join " " cli_args)) DEBUG false ;;
  let* (rc, out, err) := Popen cli_args env verbose in
  ret (rc, if verbose then (None, None) else (Some out, Some err)).

(** [os.system(cmd)] *)
Definition os_system (cmd : string) : M Z := fun w =>
  let '(code, f) := system cmd (cwd w) (fs w) (clock w) in
  mkRun (Ret code) (tick f w) [EvSystem cmd code].

(** *** [build_library] (lines 93-219) *)

(** [clone_dest] after lines 151-152. *)
Definition dest (a : BuildArgs) : string :=
  if negb (Py.truthy (clone_dest a)) then libname a else default "" (clone_dest a).

(** lines 112-149 *)
Definition _git_clean_src (a : BuildArgs) : M unit :=
  OS.chdir (Path.join (src_dir a) [dest a]) ;;
  log (libname a +:+ " executing source clean") ;;
  execute_shell ["git"; "checkout"; "--"; "."] None (verbose a) ;;
  execute_shell ["git"; "clean"; "-df"] None (verbose a) ;;
  when (String.eqb (libname a) "osg-openmw") (
    log (libname a +:+ " resetting source to the desired rev ("
         +:+ OPENMW_OSG_BRANCH +:+ ")") ;;
    execute_shell ["git"; "checkout"; OPENMW_OSG_BRANCH] None (verbose a) ;;
    execute_shell ["git"; "reset"; "--hard"; "origin/" +:+ OPENMW_OSG_BRANCH]
      None (verbose a) ;;
    ret tt) ;;
  if String.eqb (libname a) "osg" then
    log (libname a +:+ " resetting source to the desired rev ("
         +:+ OPENMW_OSG_BRANCH +:+ ")") ;;
    execute_shell ["git"; "checkout"; UPSTREAM_OSG_VERSION] None (verbose a) ;;
    execute_shell ["git"; "reset"; "--hard"; "origin/" +:+ UPSTREAM_OSG_VERSION]
      None (verbose a) ;;
    ret tt
  else
    log (libname a +:+ " resetting source to the desired rev ("
         +:+ version a +:+ ")") ;;
    execute_shell ["git"; "checkout"; version a] None (verbose a) ;;
    execute_shell ["git"; "reset"; "--hard"; version a] None (verbose a) ;;
    ret tt.

(** lines 157-168 *)
Definition clone_source (a : BuildArgs) : M unit :=
  let* have := OS.exists_ (Path.join (src_dir a) [dest a]) in
  when (negb have) (
    log (dest a +:+ " source directory not found, cloning...") ;;
    OS.chdir (src_dir a) ;;
    (if Py.contains "osg-openmw" (dest a) then
       execute_shell ["git"; "clone"; "-b"; OPENMW_OSG_BRANCH; git_url a; dest a]
         None (verbose a)
     else
       execute_shell ["git"; "clone"; git_url a; dest a] None (verbose a)) ;;
    let* cloned := OS.exists_ (Path.join (src_dir a) [libname a]) in
    when (negb cloned)
      (error_and_die ("Could not clone " +:+ dest a +:+ " for some reason!"))).

(** lines 170-172 *)
Definition remove_previous_install (a : BuildArgs) : M unit :=
  let* prev := OS.exists_ (Path.join (install_prefix a) [libname a]) in
  when (force a && prev) (
    log (libname a +:+ " forcing removal of previous install") ;;
    OS.rmtree (Path.join (install_prefix a) [libname a])).

(** lines 176-180 *)
Definition apply_patch (a : BuildArgs) : M unit :=
  when (Py.truthy (patch a)) (
    log ("Applying patch: " +:+ default "" (patch a)) ;;
    let* code := os_system ("patch -p1 < " +:+ default "" (patch a)) in
    when (0 <? code) (error_and_die "There was a problem applying the patch!")).

(** The command line of lines 193-199. *)
Definition build_cmd (a : BuildArgs) : list string :=
  ["cmake"; "-DCMAKE_INSTALL_PREFIX=" +:+ install_prefix a +:+ "/" +:+ libname a]
    ++ (if Py.truthy_list (cmake_args a) then default [] (cmake_args a) else [])
    ++ [cmake_target a].

(** lines 184-203 *)
Definition configure (a : BuildArgs) : M unit :=
  when (cmake a) (
    log (libname a +:+ " building with cmake") ;;
    let build_dir := Path.join (src_dir a) [dest a; "build"] in
    let* old := OS.isdir build_dir in
    when old (OS.rmtree build_dir) ;;
    OS.mkdir build_dir ;;
    OS.chdir build_dir ;;
    log (libname a +:+ " running cmake ...") ;;
    let* (exitcode, output) := execute_shell (build_cmd a) (env a) (verbose a) in
    when (negb (exitcode =? 0)) (
      emit_log (LBytes (snd output)) INFO false ;;
      error_and_die "cmake exited nonzero!")).

(** The command line of line 207. *)
Definition make_cmd (a : BuildArgs) : list string :=
  ["make"; "-j" +:+ Py.format (cpus a)].

(** lines 205-211 *)
Definition compile (a : BuildArgs) : M unit :=
  log (libname a +:+ " running make (this will take a while) ...") ;;
  let* (exitcode, output) := execute_shell (make_cmd a) (env a) (verbose a) in
  when (negb (exitcode =? 0)) (
    emit_log (LBytes (snd output)) INFO false ;;
    error_and_die "make exited nonzero!").

(** lines 213-219.  Only the streams of [make install] are kept; its
    exit status is dropped by the [[1]]. *)
Definition install (a : BuildArgs) : M unit :=
  when (make_install a) (
    log (libname a +:+ " running make install ...") ;;
    let* (_, (out, err)) := execute_shell ["make"; "install"] (env a) (verbose a) in
    when (Py.truthy err) (error_and_die (default "" err)) ;;
    log (libname a +:+ " installed successfully")).

(** The [else] branch, lines 156-219. *)
Definition build_now (a : BuildArgs) : M unit :=
  log (libname a +:+ " building now ...") ;;
  clone_source a ;;
  remove_previous_install a ;;
  _git_clean_src a ;;
  apply_patch a ;;
  OS.chdir (Path.join (src_dir a) [dest a]) ;;
  configure a ;;
  compile a ;;
  install a.

(** lines 151-219 *)
Definition build_library (a : BuildArgs) : M unit :=
  let* e := OS.exists_ (check_file a) in
  let* f := OS.isfile (check_file a) in
  if (e && f && negb (force a))%bool then
    log (libname a +:+ " found!")
  else
    build_now a.


(** *** Helpers of the orchestrator *)

(** lines 222-258 *)
Definition format_openmw_cmake_args (bullet_path : string)
    (osg_path : option string) (use_bullet : bool) : list string :=
  let args :=
    if Py.truthy osg_path then
      let osg := default "" osg_path in
      [ "-DOPENTHREADS_INCLUDE_DIR=" +:+ osg +:+ "/include";
        "-DOPENTHREADS_LIBRARY=" +:+ osg +:+ "/lib64/libOpenThreads.so";
        "-DOSG_INCLUDE_DIR=" +:+ osg +:+ "/include";
        "-DOSG_LIBRARY=" +:+ osg +:+ "/lib64/libosg.so";
        "-DOSGANIMATION_INCLUDE_DIR=" +:+ osg +:+ "/include";
        "-DOSGANIMATION_LIBRARY=" +:+ osg +:+ "/lib64/libosgAnimation.so";
        "-DOSGDB_INCLUDE_DIR=" +:+ osg +:+ "/include";
        "-DOSGDB_LIBRARY=" +:+ osg +:+ "/lib64/libosgDB.so";
        "-DOSGFX_INCLUDE_DIR=" +:+ osg +:+ "/include";
        "-DOSGFX_LIBRARY=" +:+ osg +:+ "/lib64/libosgFX.so";
        "-DOSGGA_INCLUDE_DIR=" +:+ osg +:+ "/include";
        "-DOSGGA_LIBRARY=" +:+ osg +:+ "/lib64/libosgGA.so";
        "-DOSGPARTICLE_INCLUDE_DIR=" +:+ osg +:+ "/include";
        "-DOSGPARTICLE_LIBRARY=" +:+ osg +:+ "/lib64/libosgParticle.so";
        "-DOSGTEXT_INCLUDE_DIR=" +:+ osg +:+ "/include";
        "-DOSGTEXT_LIBRARY=" +:+ osg +:+ "/lib64/libosgText.so";
        "-DOSGUTIL_INCLUDE_DIR=" +:+ osg +:+ "/include";
        "-DOSGUTIL_LIBRARY=" +:+ osg +:+ "/lib64/libosgUtil.so";
        "-DOSGVIEWER_INCLUDE_DIR=" +:+ osg +:+ "/include";
        "-DOSGVIEWER_LIBRARY=" +:+ osg +:+ "/lib64/libosgViewer.so" ]
    else [] in
  if use_bullet then
    args ++ [ "-DBullet_INCLUDE_DIR=" +:+ bullet_path +:+ "/include/bullet";
              "-DBullet_BulletCollision_LIBRARY=" +:+ bullet_path
                +:+ "/lib/libBulletCollision.so";
              "-DBullet_LinearMath_LIBRARY=" +:+ bullet_path
                +:+ "/lib/libLinearMath.so" ]
  else args.

(** lines 261-263 *)
Definition get_distro : M (option string * option string) :=
  let* r := execute_shell ["lsb_release"; "-d"] None false in
  ret (snd r).

(** What [get_repo_sha] returns: annotated [str], but also [False]. *)
Inductive Sha :=
| ShaFalse
| ShaStr (s : string).

Definition sha_truthy (s : Sha) : bool :=
  match s with
  | ShaStr (String _ _) => true
  | _ => false
  end.

(** [str(sha)] *)
Definition sha_str (s : Sha) : string :=
  match s with
  | ShaFalse => "False"
  | ShaStr x => x
  end.

Definition is_FileNotFoundError (e : Py.exn) : bool :=
  match e with Py.FileNotFoundError => true | _ => false end.

(** lines 266-281.  [subprocess] output is taken as text: [decode] is
    the identity; [[1][0]] of a verbose call is [None]. *)
Definition get_repo_sha (src_dir repo rev : string) (pull verbose : bool) : M Sha :=
  let* entered :=
    try_except (OS.chdir (Path.join src_dir [repo]) ;; ret true)
      is_FileNotFoundError (ret false) in
  if negb entered then ret ShaFalse
  else
    when pull (
      log "Fetching latest sources ..." ;;
      execute_shell ["git"; "fetch"; "--all"] None false ;;
      ret tt) ;;
    execute_shell ["git"; "checkout"; rev] None verbose ;;
    execute_shell ["git"; "reset"; "--hard"; rev] None verbose ;;
    let* r := execute_shell ["git"; "rev-parse"; "--short"; "HEAD"] None false in
    match fst (snd r) with
    | Some out => ret (ShaStr (Py.strip out))
    | None => raise Py.AttributeError
    end.

(** *** [install_packages] (lines 518-582) *)

Definition install_packages (distro : option string) (quiet verbose : bool)
    : M (option string * option string) :=
  emit_log (LStr "Attempting to install dependency packages, please enter your sudo password as needed...")
    INFO quiet ;;
  let* user_uid := OS.getuid in
  let* t := get tables in
  match distro with
  | None => raise Py.AttributeError
  | Some distro =>
      let d := Py.lower distro in
      let* r :=
        if Py.contains "void" d then
          log "Distro detected as 'Void Linux'" ;;
          let cmd := ["xbps-install"; "--yes"] ++ VOID_PKGS t in
          let cmd := if 0 <? user_uid then ["sudo"] ++ cmd else cmd in
          execute_shell cmd None verbose
        else if Py.contains "arch" d then
          log "Distro detected as 'Arch Linux'" ;;
          let cmd := ["pacman"; "-sy"] ++ ARCH_PKGS t in
          let cmd := if 0 <? user_uid then ["sudo"] ++ cmd else cmd in
          execute_shell cmd None verbose
        else if Py.contains "debian" d then
          log "Distro detected as 'Debian'" ;;
          let cmd :=
            if 0 <? user_uid
            then ["sudo"; "apt-get"; "install"; "-y"; "--force-yes"] ++ DEBIAN_PKGS t
            else ["apt-get"; "install"; "-y"; "--force-yes"] ++ DEBIAN_PKGS t in
          execute_shell cmd None verbose
        else if Py.contains "devuan" d then
          log "Distro detected as 'Devuan'" ;;
          let cmd :=
            if 0 <? user_uid
            then ["sudo"; "apt-get"; "install"; "-y"; "--force-yes"] ++ DEBIAN_PKGS t
            else ["apt-get"; "install"; "-y"; "--force-yes"] ++ DEBIAN_PKGS t in
          execute_shell cmd None verbose
        else if (Py.contains "ubuntu" d || Py.contains "mint" d)%bool then
          log "Distro detected as 'Mint' or 'Ubuntu'!" ;;
          let cmd :=
            if 0 <? user_uid
            then ["sudo"; "apt-get"; "install"; "-y"; "--force-yes"] ++ UBUNTU_PKGS t
            else ["apt-get"; "install"; "-y"; "--force-yes"] ++ UBUNTU_PKGS t in
          execute_shell cmd None verbose
        else if Py.contains "fedora" d then
          log "Distro detected as 'Fedora'" ;;
          if 0 <? user_uid then
            execute_shell ["dnf"; "groupinstall"; "-y"; "development-tools"]
              None verbose ;;
            execute_shell (["dnf"; "install"; "-y"] ++ REDHAT_PKGS t) None verbose
          else
            execute_shell ["sudo"; "dnf"; "groupinstall"; "-y"; "development-tools"]
              None verbose ;;
            execute_shell (["sudo"; "dnf"; "install"; "-y"] ++ REDHAT_PKGS t)
              None verbose
        else
          error_and_die "Your OS is not yet supported!  If you think you know what you are doing, you can use '-S' to continue anyways." in
      log "Package installation completed" ;;
      ret (snd r)
  end.

(** *** [make_portable_package] (lines 284-515) *)

(** [tempfile.mkdtemp(suffix=...)] *)
Definition mkdtemp (suffix : string) : M string :=
  let* name := get (fun w => mkdtemp_name suffix (fs w) (clock w)) in
  OS.mkdir name ;;
  ret name.

(** [tarfile.open(path, "w:bz2")]: the archive file is created (or
    truncated) when it is opened. *)
Definition tarfile_open (path : string) : M string := fun w =>
  let rp := OS.resolve w path in
  match fs w rp with
  | Some Dir => raise Py.IsADirectoryError w
  | _ =>
      match fs w (Path.dirname rp) with
      | Some Dir =>
          mkRun (Ret rp) (with_fs (OS.set_node rp (Some File) (fs w)) w)
            [EvTarOpen rp]
      | Some File => raise Py.NotADirectoryError w
      | None => raise Py.FileNotFoundError w
      end
  end.

(** [tar.add(name)] *)
Definition tar_add (archive name : string) : M unit := fun w =>
  match OS.lookup w name with
  | None => raise Py.FileNotFoundError w
  | Some _ => mkRun (Ret tt) w [EvTarAdd archive (OS.resolve w name)]
  end.

Definition server_bins : list string :=
  [ Path.join SRC_DIR ["tes3mp"; "build"; "tes3mp-server"];
    Path.join SRC_DIR ["tes3mp"; "build"; "tes3mp-server-default.cfg"];
    Path.join SRC_DIR ["tes3mp"; "AUTHORS.md"];
    Path.join SRC_DIR ["tes3mp"; "LICENSE"];
    Path.join SRC_DIR ["tes3mp"; "README.md"];
    Path.join SRC_DIR ["tes3mp"; "tes3mp-credits.md"] ].

Definition client_bins : list string :=
  [ Path.join SRC_DIR ["tes3mp"; "build"; "bsatool"];
    Path.join SRC_DIR ["tes3mp"; "build"; "esmtool"];
    Path.join SRC_DIR ["tes3mp"; "build"; "openmw-essimporter"];
    Path.join SRC_DIR ["tes3mp"; "build"; "openmw-iniimporter"];
    Path.join SRC_DIR ["tes3mp"; "build"; "openmw-launcher"];
    Path.join SRC_DIR ["tes3mp"; "build"; "openmw-wizard"];
    Path.join SRC_DIR ["tes3mp"; "build"; "settings-default.cfg"];
    Path.join SRC_DIR ["tes3mp"; "build"; "tes3mp"];
    Path.join SRC_DIR ["tes3mp"; "build"; "tes3mp-browser"];
    Path.join SRC_DIR ["tes3mp"; "build"; "tes3mp-client-default.cfg"];
    Path.join SRC_DIR ["tes3mp"; "build"; "tes3mp-server"];
    Path.join SRC_DIR ["tes3mp"; "build"; "tes3mp-server-default.cfg"];
    Path.join SRC_DIR ["tes3mp"; "tes3mp-credits.md"] ].

Definition forge_system_libs : list string :=
  [ "/usr/local/lib64/libstdc++.so.6";
    "/usr/local/lib/libMyGUIEngine.so.3.2.3";
    "/usr/local/lib/libavcodec.so.58";
    "/usr/local/lib/libavformat.so.58";
    "/usr/local/lib/libavutil.so.56";
    "/usr/local/lib/libboost_filesystem.so.1.64.0";
    "/usr/local/lib/libboost_program_options.so.1.64.0";
    "/usr/local/lib/libboost_system.so.1.64.0";
    "/usr/local/lib/libswresample.so.3";
    "/usr/local/lib/libswscale.so.5";
    "/usr/local/lib64/libOpenThreads.so.20";
    "/usr/local/lib64/libosg.so.130";
    "/usr/local/lib64/libosgAnimation.so.130";
    "/usr/local/lib64/libosgDB.so.130";
    "/usr/local/lib64/libosgFX.so.130";
    "/usr/local/lib64/libosgGA.so.130";
    "/usr/local/lib64/libosgParticle.so.130";
    "/usr/local/lib64/libosgText.so.130";
    "/usr/local/lib64/libosgUtil.so.130";
    "/usr/local/lib64/libosgViewer.so.130";
    "/usr/local/lib64/libosgWidget.so.130";
    "/usr/lib/x86_64-linux-gnu/libSDL2.a";
    "/usr/lib/x86_64-linux-gnu/libSDL2-2.0.so.0";
    "/usr/lib/x86_64-linux-gnu/libopenal.so";
    "/usr/lib/x86_64-linux-gnu/libluajit-5.1.so.2";
    "/usr/lib/x86_64-linux-gnu/libpng12.so.0" ].

Definition void_system_libs : list string :=
  [ "/usr/lib/libavcodec.so.58";
    "/usr/lib/libavformat.so.58";
    "/usr/lib/libavutil.so.56";
    "/usr/lib/libboost_filesystem.so";
    "/usr/lib/libboost_program_options.so";
    "/usr/lib/libboost_system.so";
    "/usr/lib/libboost_thread.so";
    "/usr/lib/libswresample.so";
    "/usr/lib/libswscale.so";
    "/usr/lib/libSDL2.so";
    "/usr/lib/libbz2.so";
    "/usr/lib/libopenal.so";
    "/usr/lib/libluajit-5.1.so";
    "/usr/lib/libpng16.so" ].

Definition debian_system_libs : list string :=
  [ "/usr/lib/x86_64-linux-gnu/libavcodec.so";
    "/usr/lib/x86_64-linux-gnu/libavformat.so";
    "/usr/lib/x86_64-linux-gnu/libavutil.so";
    "/usr/lib/x86_64-linux-gnu/libboost_filesystem.so.1.67.0";
    "/usr/lib/x86_64-linux-gnu/libboost_program_options.so.1.67.0";
    "/usr/lib/x86_64-linux-gnu/libboost_system.so.1.67.0";
    "/usr/lib/x86_64-linux-gnu/libboost_thread.so.1.67.0";
    "/usr/lib/x86_64-linux-gnu/libswresample.so";
    "/usr/lib/x86_64-linux-gnu/libswscale.so";
    "/usr/lib/x86_64-linux-gnu/libSDL2.so";
    "/usr/lib/x86_64-linux-gnu/libbz2.so";
    "/usr/lib/x86_64-linux-gnu/libluajit-5.1.so";
    "/usr/lib/x86_64-linux-gnu/libopenal.so";
    "/usr/lib/x86_64-linux-gnu/libpng16.so" ].

Definition server_openmw_libs : list string :=
  [ Path.join SRC_DIR ["bullet"; "build"; "src"; "BulletCollision";
                       "libBulletCollision.so.2.86"];
    Path.join SRC_DIR ["bullet"; "build"; "src"; "LinearMath"; "libLinearMath.so.2.86"];
    Path.join SRC_DIR ["mygui"; "build"; "lib"; "libMyGUIEngine.so.3.4.0"];
    Path.join SRC_DIR ["unshield"; "build"; "lib"; "libunshield.so"] ].

Definition client_openmw_libs : list string :=
  server_openmw_libs ++
  [ Path.join SRC_DIR ["osg-openmw"; "build"; "lib"; "libOpenThreads.so.20"];
    Path.join SRC_DIR ["osg-openmw"; "build"; "lib"; "libosg.so.130"];
    Path.join SRC_DIR ["osg-openmw"; "build"; "lib"; "libosgAnimation.so.130"];
    Path.join SRC_DIR ["osg-openmw"; "build"; "lib"; "libosgDB.so.130"];
    Path.join SRC_DIR ["osg-openmw"; "build"; "lib"; "libosgFX.so.130"];
    Path.join SRC_DIR ["osg-openmw"; "build"; "lib"; "libosgGA.so.130"];
    Path.join SRC_DIR ["osg-openmw"; "build"; "lib"; "libosgParticle.so.130"];
    Path.join SRC_DIR ["osg-openmw"; "build"; "lib"; "libosgText.so.130"];
    Path.join SRC_DIR ["osg-openmw"; "build"; "lib"; "libosgUtil.so.130"];
    Path.join SRC_DIR ["osg-openmw"; "build"; "lib"; "libosgViewer.so.130"];
    Path.join SRC_DIR ["osg-openmw"; "build"; "lib"; "libosgWidget.so.130"] ].

(** lines 334-415: [system_libs] stays unbound when no branch applies. *)
Definition select_system_libs (distro : option string) : M (option (list string)) :=
  let* forge := OS.getenv "TES3MP_FORGE" in
  if Py.truthy forge then ret (Some forge_system_libs)
  else
    match distro with
    | None => raise Py.TypeError
    | Some d =>
        if Py.contains "Void" d then ret (Some void_system_libs)
        else if (Py.contains "Ubuntu" d || Py.contains "Debian" d)%bool
        then ret (Some debian_system_libs)
        else ret None
    end.

(** lines 288-297: the guard on an archive that is already there. *)
Definition guard_archive (pkg_path : string) (force : bool) : M unit :=
  let* there := OS.exists_ pkg_path in
  if (there && negb force)%bool then
    error_and_die ("Path exists: " +:+ pkg_path)
  else
    when (there && force) (
      log ("Force removing " +:+ pkg_path) ;;
      OS.remove pkg_path).

(** lines 299-503: the staging tree. *)
Definition stage_package (pkgname : string) (distro : option string)
    (serveronly : bool) (pkg_dir pkg_libs : string) : M unit :=
  log ("Making: " +:+ pkg_dir) ;;
  OS.makedirs pkg_libs ;;
  let bins := if serveronly then server_bins else client_bins in
  let* system_libs := select_system_libs distro in
  let openmw_libs := if serveronly then server_openmw_libs else client_openmw_libs in
  log "Copying binaries" ;;
  for_each bins (fun b =>
    emit_log (LStr ("Copying " +:+ b +:+ " to " +:+ pkg_dir)) DEBUG false ;;
    OS.copy b pkg_dir) ;;
  log "Copying system libs" ;;
  match system_libs with
  | None => raise Py.UnboundLocalError
  | Some system_libs =>
      for_each system_libs (fun lib =>
        emit_log (LStr ("Copying " +:+ lib +:+ " to " +:+ pkg_libs)) DEBUG false ;;
        OS.copy lib pkg_libs) ;;
      log "Copying openmw libs" ;;
      for_each openmw_libs (fun lib =>
        emit_log (LStr ("Copying " +:+ lib +:+ " to " +:+ pkg_libs)) DEBUG false ;;
        OS.copy lib pkg_libs) ;;
      log "Copying resources" ;;
      OS.copytree (Path.join SRC_DIR ["tes3mp"; "build"; "resources"])
        (Path.join pkg_dir ["resources"]) ;;
      if serveronly then
        log "Copying osgPlugins-3.4.0" ;;
        OS.copytree "/usr/lib/x86_64-linux-gnu/osgPlugins-3.4.0"
          (Path.join pkg_libs ["osgPlugins-3.4.0"])
      else
        log "Copying osgPlugins-3.4.1" ;;
        OS.copytree (Path.join SRC_DIR ["osg-openmw"; "build"; "lib"; "osgPlugins-3.4.1"])
          (Path.join pkg_libs ["osgPlugins-3.4.1"])
  end.

Definition make_portable_package (pkgname : string) (distro : option string)
    (force : bool) (out_dir : option string) (serveronly : bool) : M bool :=
  match out_dir with
  | None => raise Py.TypeError
  | Some out_dir =>
      let* d := OS.isdir out_dir in
      when (negb d) (
        log ("Out dir doesn't exist, creating it: " +:+ out_dir) ;;
        OS.makedirs out_dir) ;;
      let pkg_path := Path.join out_dir [pkgname +:+ ".tar.bz2"] in
      guard_archive pkg_path force ;;
      log ("Creating a portable package: " +:+ pkg_path) ;;
      let* _tmpdir := mkdtemp pkgname in
      let pkg_dir := Path.join _tmpdir [pkgname] in
      let pkg_libs := Path.join pkg_dir ["lib"] in
      stage_package pkgname distro serveronly pkg_dir pkg_libs ;;
      let* _prev := OS.getcwd in
      OS.chdir _tmpdir ;;
      log ("Creating package now: " +:+ pkg_path) ;;
      let* tar := tarfile_open pkg_path in
      tar_add tar pkgname ;;
      OS.chdir _prev ;;
      log ("Removing: " +:+ _tmpdir) ;;
      OS.rmtree _tmpdir ;;
      ret true
  end.

(** *** [main]: reading the flags (lines 745-909) *)

(** [os.cpu_count()] *)
Variable cpu_count : Z.

(** [os.getlogin()] *)
Variable login : string.

(** line 21 *)
Definition CPUS : Z := cpu_count + 1.

(** [OUT_DIR] (line 27) is [os.getenv("HOME")], read when the module is
    loaded; lines 749-783 give every variable its default. *)
Definition cfg0 (OUT_DIR : option string) : Cfg.t :=
  {| Cfg.cpus := Py.VInt CPUS;
     Cfg.build_bullet := false; Cfg.build_mygui := false;
     Cfg.build_upstream_osg := false; Cfg.build_unshield := false;
     Cfg.force_bullet := false; Cfg.force_mygui := false;
     Cfg.force_openmw := false; Cfg.force_osg := false;
     Cfg.force_tes3mp := false; Cfg.force_unshield := false;
     Cfg.force_pkg := false;
     Cfg.install_prefix := INSTALL_PREFIX;
     Cfg.system_osg := false;
     Cfg.make_install := false; Cfg.make_pkg := false;
     Cfg.out_dir := OUT_DIR;
     Cfg.patch := None;
     Cfg.pull := true;
     Cfg.skip_install_pkgs := false;
     Cfg.src_dir := SRC_DIR;
     Cfg.tes3mp := false; Cfg.tes3mp_serveronly := false;
     Cfg.verbose := false;
     Cfg.with_corescripts := false;
     Cfg.sha := None; Cfg.tag := None; Cfg.branch := "master";
     Cfg.rev := "";
     Cfg.with_essimporter := false; Cfg.without_cs := false;
     Cfg.without_iniimporter := false; Cfg.without_launcher := false;
     Cfg.without_wizard := false |}.

(** [if flag: c = update(c); emit_log(msg)] *)
Definition on_flag (flag : bool) (update : Cfg.t -> Cfg.t) (msg : string)
    (c : Cfg.t) : M Cfg.t :=
  if flag then log msg ;; ret (update c) else ret c.

(** The same without a message. *)
Definition on_flag_quiet (flag : bool) (update : Cfg.t -> Cfg.t) (c : Cfg.t)
    : M Cfg.t :=
  if flag then ret (update c) else ret c.

(** lines 867-873 and 874-880: a TES3MP build needs LuaJIT. *)
Definition add_luajit (t : Tables) : Tables :=
  {| ARCH_PKGS := ARCH_PKGS t;
     DEBIAN_PKGS := DEBIAN_PKGS t ++ ["libluajit-5.1-dev"];
     REDHAT_PKGS := REDHAT_PKGS t;
     UBUNTU_PKGS := UBUNTU_PKGS t ++ ["libluajit-5.1-dev"];
     VOID_PKGS := VOID_PKGS t ++ ["LuaJIT-devel"] |}.

(** [os.path.abspath(p)] *)
Definition abspath (p : string) : M string :=
  let* d := OS.getcwd in ret (normpath (Path.join d [p])).

(** lines 785-909 *)
Definition process_flags (parsed : Parsed.t) : M Cfg.t :=
  let* OUT_DIR := OS.getenv "HOME" in
  let c := cfg0 OUT_DIR in
  let* c := on_flag (Parsed.force_all parsed)
    (fun c => Cfg.set_force_pkg true (Cfg.set_force_unshield true
       (Cfg.set_force_osg true (Cfg.set_force_openmw true
          (Cfg.set_force_mygui true (Cfg.set_force_bullet true c))))))
    "Force building all dependencies" c in
  let* c := on_flag (Parsed.force_all_tes3mp parsed)
    (fun c => Cfg.set_force_pkg true (Cfg.set_force_unshield true
       (Cfg.set_force_tes3mp true (Cfg.set_force_osg true
          (Cfg.set_force_mygui true (Cfg.set_force_bullet true c))))))
    "Force building all TES3MP dependencies" c in
  let* c := on_flag (Parsed.build_bullet parsed)
    (Cfg.set_build_bullet true) "Building LibBullet" c in
  let* c := on_flag (Parsed.build_mygui parsed)
    (Cfg.set_build_mygui true) "Building MyGUI" c in
  let* c := on_flag (Parsed.build_upstream_osg parsed)
    (Cfg.set_build_upstream_osg true) "Building upstream OSG" c in
  let* c := on_flag (Parsed.build_unshield parsed)
    (Cfg.set_build_unshield true) "Building Unshield" c in
  let* c := on_flag (Parsed.force_bullet parsed)
    (Cfg.set_force_bullet true) "Forcing build of LibBullet" c in
  let* c := on_flag (Parsed.force_mygui parsed)
    (Cfg.set_force_mygui true) "Forcing build of MyGUI" c in
  let* c := on_flag (Parsed.force_openmw parsed)
    (Cfg.set_force_openmw true) "Forcing build of OpenMW" c in
  let* c := on_flag (Parsed.force_osg parsed)
    (Cfg.set_force_osg true) "Forcing build of OSG" c in
  let* c := on_flag (Parsed.force_tes3mp parsed)
    (Cfg.set_force_tes3mp true) "Forcing build of TES3MP" c in
  let* c := on_flag (Parsed.force_unshield parsed)
    (Cfg.set_force_unshield true) "Forcing build of Unshield" c in
  let* c := on_flag (Parsed.force_pkg parsed)
    (Cfg.set_force_pkg true) "Forcing build of package" c in
  let* c := on_flag (Py.truthy (Parsed.install_prefix parsed))
    (Cfg.set_install_prefix (default "" (Parsed.install_prefix parsed)))
    ("Using the install prefix: " +:+ default "" (Parsed.install_prefix parsed)) c in
  let* c := on_flag (Py.truthy (Parsed.jobs parsed))
    (Cfg.set_cpus (Py.VStr (default "" (Parsed.jobs parsed))))
    ("'-j" +:+ default "" (Parsed.jobs parsed) +:+ "' will be used with make") c in
  let* c := on_flag (Parsed.make_install parsed)
    (Cfg.set_make_install (Parsed.make_install parsed)) "Make install will be ran" c in
  let* c := on_flag (Parsed.make_pkg parsed)
    (Cfg.set_make_pkg (Parsed.make_pkg parsed)) "A package will be made" c in
  let* c := on_flag (Parsed.no_pull parsed)
    (Cfg.set_pull false) "git fetch will not be ran" c in
  let* c := on_flag (Py.truthy (Parsed.out parsed))
    (Cfg.set_out_dir (Parsed.out parsed))
    ("Out dir set to: " +:+ default "" (Parsed.out parsed)) c in
  let* c :=
    if Py.truthy (Parsed.patch parsed) then
      let* patch := abspath (default "" (Parsed.patch parsed)) in
      let* isf := OS.isfile patch in
      if isf then
        log ("Will attempt to use this patch: " +:+ patch) ;;
        ret (Cfg.set_patch (Some patch) c)
      else error_and_die "The supplied patch isn't a file!"
    else ret c in
  let* c := on_flag (Parsed.skip_install_pkgs parsed)
    (Cfg.set_skip_install_pkgs (Parsed.skip_install_pkgs parsed))
    "Package installs will be skipped" c in
  let* c := on_flag (Parsed.system_osg parsed)
    (Cfg.set_system_osg false) "The system OSG will be used." c in
  let* c := on_flag (Py.truthy (Parsed.src_dir parsed))
    (Cfg.set_src_dir (default "" (Parsed.src_dir parsed)))
    ("Source directory set to: " +:+ default "" (Parsed.src_dir parsed)) c in
  let* c :=
    if Parsed.tes3mp parsed then
      modify (fun w => with_tables (add_luajit (tables w)) w) ;;
      log "TES3MP build selected!" ;;
      ret (Cfg.set_tes3mp true c)
    else ret c in
  let* c :=
    if Parsed.tes3mp_server_only parsed then
      modify (fun w => with_tables (add_luajit (tables w)) w) ;;
      log "TES3MP server-only build selected" ;;
      ret (Cfg.set_tes3mp_serveronly true c)
    else ret c in
  let* c :=
    if Parsed.verbose parsed then
      modify (with_loglevel DEBUG) ;;
      log "Verbose output enabled" ;;
      ret (Cfg.set_verbose (Parsed.verbose parsed) c)
    else ret c in
  let* c := on_flag_quiet (Parsed.with_corescripts parsed)
    (Cfg.set_with_corescripts true) c in
  let* c := on_flag_quiet (Parsed.with_essimporter parsed)
    (Cfg.set_with_essimporter true) c in
  let* c := on_flag_quiet (Parsed.without_cs parsed)
    (Cfg.set_without_cs true) c in
  let* c := on_flag_quiet (Parsed.without_iniimporter parsed)
    (Cfg.set_without_iniimporter true) c in
  let* c := on_flag_quiet (Parsed.without_launcher parsed)
    (Cfg.set_without_launcher true) c in
  let* c := on_flag_quiet (Parsed.without_wizard parsed)
    (Cfg.set_without_wizard true) c in
  if Py.truthy (Parsed.branch parsed) then
    let b := default "" (Parsed.branch parsed) in
    let b := if negb (Py.contains "/" b) then "origin/" +:+ b else b in
    log ("Branch selected: " +:+ b) ;;
    ret (Cfg.set_rev b (Cfg.set_branch b c))
  else if Py.truthy (Parsed.sha parsed) then
    log ("SHA selected: " +:+ default "" (Parsed.sha parsed)) ;;
    ret (Cfg.set_rev (default "" (Parsed.sha parsed))
           (Cfg.set_sha (Parsed.sha parsed) c))
  else if Py.truthy (Parsed.tag parsed) then
    log ("Tag selected: " +:+ default "" (Parsed.tag parsed)) ;;
    ret (Cfg.set_rev (default "" (Parsed.tag parsed))
           (Cfg.set_tag (Parsed.tag parsed) c))
  else
    ret (Cfg.set_rev ("origin/" +:+ Cfg.branch c) c).

(** *** [main]: the steps after the flags *)

Definition is_PermissionError (e : Py.exn) : bool :=
  match e with Py.PermissionError => true | _ => false end.

(** lines 53-72, as called with [create=True] *)
Definition ensure_dir (path : string) : M unit :=
  let* e := OS.exists_ path in
  let* d := OS.isdir path in
  if (negb e && negb d)%bool then
    try_except (OS.mkdir path) is_PermissionError (
      log ("Can't write '" +:+ path +:+ "', trying with sudo...") ;;
      execute_shell ["sudo"; "mkdir"; path] None false ;;
      log ("Chowning '" +:+ path +:+ "' so sudo isn't needed anymore...") ;;
      execute_shell ["sudo"; "chown"; login +:+ ":"; path] None false ;;
      ret tt) ;;
    log (path +:+ " now exists")
  else
    log (path +:+ " exists").

(** [out.decode().split(":")[1].strip()] *)
Definition parse_distro (out : option string) : M string :=
  match out with
  | None => raise Py.AttributeError
  | Some out =>
      match Py.split_colon out with
      | _ :: x :: _ => ret (Py.strip x)
      | _ => raise Py.IndexError
      end
  end.

(** lines 911-923: the value of [distro] afterwards *)
Definition detect_distro (c : Cfg.t) : M (option string) :=
  let* r :=
    try_except
      (let* (out, err) := get_distro in
       when (Py.truthy err) (error_and_die (default "" err)) ;;
       ret (Some out))
      is_FileNotFoundError
      (if Cfg.skip_install_pkgs c then ret None
       else error_and_die "Unable to determine your distro to install dependencies!  Try again and use '-S' if you know what you are doing.") in
  match r with
  | Some out => let* d := parse_distro out in ret (Some d)
  | None => ret None
  end.

(** lines 925-929 *)
Definition install_dependencies (c : Cfg.t) (distro : option string) : M unit :=
  when (negb (Cfg.skip_install_pkgs c)) (
    let* (out, err) := install_packages distro false (Cfg.verbose c) in
    when (Py.truthy err) (log ("Stderr received: " +:+ default "" err))).

Definition osg_cmake_args : list string :=
  [ "-DBUILD_OSG_PLUGINS_BY_DEFAULT=0";
    "-DBUILD_OSG_PLUGIN_OSG=1";
    "-DBUILD_OSG_PLUGIN_DDS=1";
    "-DBUILD_OSG_PLUGIN_TGA=1";
    "-DBUILD_OSG_PLUGIN_BMP=1";
    "-DBUILD_OSG_PLUGIN_JPEG=1";
    "-DBUILD_OSG_PLUGIN_PNG=1";
    "-DBUILD_OSG_DEPRECATED_SERIALIZERS=0" ].

(** The keyword arguments every call in [main] passes on. *)
Definition lib_args (c : Cfg.t) (name check url : string)
    (args : option (list string)) (forced : bool) (ver : string) : BuildArgs :=
  {| libname := name; check_file := check; clone_dest := None; cmake := true;
     cmake_args := args; cmake_target := ".."; cpus := Cfg.cpus c; env := None;
     force := forced; install_prefix := Cfg.install_prefix c; git_url := url;
     make_install := true; patch := None; quiet := false;
     src_dir := Cfg.src_dir c; verbose := Cfg.verbose c; version := ver |}.

(** The arguments of the call of lines 941-960. *)
Definition upstream_osg_args (c : Cfg.t) : BuildArgs :=
  lib_args c "osg"
    (Path.join (Cfg.install_prefix c) ["osg"; "lib64"; "libosg.so"])
    "https://github.com/openscenegraph/OpenSceneGraph.git"
    (Some osg_cmake_args) (Cfg.force_osg c) "master".

(** The arguments of the call of lines 965-984. *)
Definition osg_openmw_args (c : Cfg.t) : BuildArgs :=
  lib_args c "osg-openmw"
    (Path.join (Cfg.install_prefix c) ["osg-openmw"; "lib64"; "libosg.so"])
    "https://github.com/OpenMW/osg.git"
    (Some osg_cmake_args) (Cfg.force_osg c) "master".

(** lines 940-984 *)
Definition build_osg (c : Cfg.t) : M unit :=
  if Cfg.build_upstream_osg c then build_library (upstream_osg_args c)
  else if negb (Cfg.system_osg c) then build_library (osg_openmw_args c)
  else ret tt.

(** lines 987-1008 *)
Definition build_bullet (c : Cfg.t) : M unit :=
  when (Cfg.build_bullet c || Cfg.force_bullet c) (
    build_library
      (lib_args c "bullet"
         (Path.join (Cfg.install_prefix c) ["bullet"; "lib"; "libLinearMath.so"])
         "https://github.com/bulletphysics/bullet3.git"
         (Some [ "-DBUILD_CPU_DEMOS=false";
                 "-DBUILD_OPENGL3_DEMOS=false";
                 "-DBUILD_BULLET2_DEMOS=false";
                 "-DBUILD_UNIT_TESTS=false";
                 "-DINSTALL_LIBS=on";
                 "-DBUILD_SHARED_LIBS=on" ])
         (Cfg.force_bullet c) BULLET_VERSION)).

(** lines 1011-1022 *)
Definition build_unshield (c : Cfg.t) : M unit :=
  when (Cfg.build_unshield c || Cfg.force_unshield c) (
    build_library
      (lib_args c "unshield"
         (Path.join (Cfg.install_prefix c) ["unshield"; "bin"; "unshield"])
         "https://github.com/twogood/unshield.git"
         None (Cfg.force_unshield c) UNSHIELD_VERSION)).

(** lines 1025-1048 *)
Definition build_mygui (c : Cfg.t) : M unit :=
  let* forge := OS.getenv "TES3MP_FORGE" in
  if (Cfg.make_pkg c && Py.truthy forge)%bool then
    log "Skipping MyGUI build"
  else
    when (Cfg.build_mygui c || Cfg.force_mygui c) (
      build_library
        (lib_args c "mygui"
           (Path.join (Cfg.install_prefix c) ["mygui"; "lib"; "libMyGUIEngine.so"])
           "https://github.com/MyGUI/mygui.git"
           (Some [ "-DMYGUI_BUILD_TOOLS=OFF";
                   "-DMYGUI_RENDERSYSTEM=1";
                   "-DMYGUI_BUILD_DEMOS=OFF";
                   "-DMYGUI_BUILD_PLUGINS=OFF" ])
           (Cfg.force_mygui c) MYGUI_VERSION)).

(** lines 1062-1072 and 1209-1219: the template of CMAKE_PREFIX_PATH *)
Definition prefix_path (c : Cfg.t) : string :=
  (if Cfg.system_osg c then "" else "{0}/osg-openmw")
  +:+ (if (Cfg.build_bullet c || Cfg.force_bullet c)%bool then ":{0}/bullet" else "")
  +:+ (if (Cfg.build_mygui c || Cfg.force_mygui c)%bool then ":{0}/mygui" else "")
  +:+ (if (Cfg.build_unshield c || Cfg.force_unshield c)%bool then ":{0}/unshield" else "").

(** *** [main]: the project itself *)

(** lines 1056-1059 *)
Definition tes3mp_name (tes3mp_sha : Sha) : string :=
  if sha_truthy tes3mp_sha then "tes3mp-" +:+ sha_str tes3mp_sha else "tes3mp".

(** lines 1202-1206 *)
Definition openmw_name (openmw_sha : Sha) : string :=
  if sha_truthy openmw_sha then "openmw-" +:+ sha_str openmw_sha else "openmw".

(** lines 1060-1075 *)
Definition tes3mp_env (c : Cfg.t) : M (gmap string string) :=
  let* build_env := get environ in
  let* forge := OS.getenv "TES3MP_FORGE" in
  if negb (Py.truthy forge) then
    ret (<["LDFLAGS" := "-llzma -lz -lbz2"]>
           (<["CMAKE_PREFIX_PATH" := Py.format0 (prefix_path c) (Cfg.install_prefix c)]>
              build_env))
  else ret build_env.

(** lines 1077-1123 *)
Definition tes3mp_cmake_args (c : Cfg.t) : M (list string) :=
  let base :=
    [ "-Wno-dev";
      "-DCMAKE_BUILD_TYPE=Release";
      "-DBUILD_OPENCS=OFF";
      "-DCMAKE_CXX_STANDARD=14";
      "-DCMAKE_CXX_FLAGS=" +:+ Py.dquote +:+ "-std=c++14" +:+ Py.dquote;
      "-DDESIRED_QT_VERSION=5" ] in
  if Cfg.tes3mp_serveronly c then
    ret (base ++
         [ "-DBUILD_OPENMW_MP=ON";
           "-DBUILD_BROWSER=OFF";
           "-DBUILD_BSATOOL=OFF";
           "-DBUILD_ESMTOOL=OFF";
           "-DBUILD_ESSIMPORTER=OFF";
           "-DBUILD_LAUNCHER=OFF";
           "-DBUILD_MWINIIMPORTER=OFF";
           "-DBUILD_MYGUI_PLUGIN=OFF";
           "-DBUILD_OPENMW=OFF";
           "-DBUILD_WIZARD=OFF" ])
  else
    let bullet := Path.join INSTALL_PREFIX ["bullet"] in
    let* forge := OS.getenv "TES3MP_FORGE" in
    let osg :=
      if Py.truthy forge then Some "/usr/local"
      else if Cfg.system_osg c then None
      else Some (Path.join INSTALL_PREFIX ["osg-openmw"]) in
    ret (base ++ format_openmw_cmake_args bullet osg
                   (Cfg.build_bullet c || Cfg.force_bullet c)).

(** lines 1060-1140, once the name [tes3mp] of the build is known *)
Definition build_tes3mp_as (c : Cfg.t) (tes3mp : string) : M string :=
  let* build_env := tes3mp_env c in
  let tes3mp_binary := if Cfg.tes3mp_serveronly c then "tes3mp-server" else "tes3mp" in
  let* args := tes3mp_cmake_args c in
  build_library
    {| libname := tes3mp;
       check_file := Path.join SRC_DIR ["tes3mp"; "build"; tes3mp_binary];
       clone_dest := Some "tes3mp"; cmake := true;
       cmake_args := Some args; cmake_target := ".."; cpus := Cfg.cpus c;
       env := Some build_env; force := Cfg.force_tes3mp c;
       install_prefix := Cfg.install_prefix c;
       git_url := "https://github.com/TES3MP/openmw-tes3mp.git";
       make_install := Cfg.make_install c; patch := Cfg.patch c; quiet := false;
       src_dir := Cfg.src_dir c; verbose := Cfg.verbose c; version := Cfg.rev c |} ;;
  ret tes3mp.

(** lines 1050-1140: returns the name the build ran under *)
Definition build_tes3mp (c : Cfg.t) : M string :=
  let* tes3mp_sha :=
    get_repo_sha (Cfg.src_dir c) "tes3mp" (Cfg.rev c) (Cfg.pull c) (Cfg.verbose c) in
  build_tes3mp_as c (tes3mp_name tes3mp_sha).

(** line 1237: [distro and "Ubuntu" in distro or "Debian" in distro] *)
Definition openmw_ldflags (distro : option string) : M string :=
  match distro with
  | None => raise Py.TypeError
  | Some d =>
      if ((Py.truthy (Some d) && Py.contains "Ubuntu" d) || Py.contains "Debian" d)%bool
      then ret "-lz -lbz2"
      else ret "-llzma -lz -lbz2"
  end.

(** lines 1242-1287 *)
Definition openmw_build_args (c : Cfg.t) : list string :=
  let build_args :=
    if Cfg.system_osg c then
      [ "-DBOOST_ROOT=/usr/include/boost";
        "-DCMAKE_BUILD_TYPE=MinSizeRel";
        "-DDESIRED_QT_VERSION=5" ]
    else
      let osg := Path.join INSTALL_PREFIX ["osg-openmw"] in
      [ "-DBOOST_ROOT=/usr/include/boost";
        "-DCMAKE_BUILD_TYPE=MinSizeRel";
        "-DDESIRED_QT_VERSION=5";
        "-DOPENTHREADS_INCLUDE_DIR=" +:+ osg +:+ "/include";
        "-DOPENTHREADS_LIBRARY=" +:+ osg +:+ "/lib64/libOpenThreads.so";
        "-DOSG_INCLUDE_DIR=" +:+ osg +:+ "/include";
        "-DOSG_LIBRARY=" +:+ osg +:+ "/lib64/libosg.so";
        "-DOSGANIMATION_INCLUDE_DIR=" +:+ osg +:+ "/include";
        "-DOSGANIMATION_LIBRARY=" +:+ osg +:+ "/lib64/libosgAnimation.so";
        "-DOSGDB_INCLUDE_DIR=" +:+ osg +:+ "/include";
        "-DOSGDB_LIBRARY=" +:+ osg +:+ "/lib64/libosgDB.so";
        "-DOSGFX_INCLUDE_DIR=" +:+ osg +:+ "/include";
        "-DOSGFX_LIBRARY=" +:+ osg +:+ "/lib64/libosgFX.so";
        "-DOSGGA_INCLUDE_DIR=" +:+ osg +:+ "/include";
        "-DOSGGA_LIBRARY=" +:+ osg +:+ "/lib64/libosgGA.so";
        "-DOSGPARTICLE_INCLUDE_DIR=" +:+ osg +:+ "/include";
        "-DOSGPARTICLE_LIBRARY=" +:+ osg +:+ "/lib64/libosgParticle.so";
        "-DOSGTEXT_INCLUDE_DIR=" +:+ osg +:+ "/include";
        "-DOSGTEXT_LIBRARY=" +:+ osg +:+ "/lib64/libosgText.so";
        "-DOSGUTIL_INCLUDE_DIR=" +:+ osg +:+ "/include";
        "-DOSGUTIL_LIBRARY=" +:+ osg +:+ "/lib64/libosgUtil.so";
        "-DOSGVIEWER_INCLUDE_DIR=" +:+ osg +:+ "/include";
        "-DOSGVIEWER_LIBRARY=" +:+ osg +:+ "/lib64/libosgViewer.so" ] in
  if (Cfg.build_bullet c || Cfg.force_bullet c)%bool then
    let bullet := Path.join INSTALL_PREFIX ["bullet"] in
    build_args ++
    [ "-DBullet_INCLUDE_DIR=" +:+ bullet +:+ "/include/bullet";
      "-DBullet_BulletCollision_LIBRARY=" +:+ bullet +:+ "/lib/libBulletCollision.so";
      "-DBullet_LinearMath_LIBRARY=" +:+ bullet +:+ "/lib/libLinearMath.so" ]
  else build_args.

(** lines 1289-1307: the switches appended, without their log lines *)
Definition openmw_switches (c : Cfg.t) : list string :=
  (if negb (Cfg.with_essimporter c) then ["-DBUILD_ESSIMPORTER=no"] else [])
  ++ (if Cfg.without_cs c then ["-DBUILD_OPENCS=no"] else [])
  ++ (if Cfg.without_iniimporter c then ["-DBUILD_MWINIIMPORTER=no"] else [])
  ++ (if Cfg.without_launcher c then ["-DBUILD_LAUNCHER=no"] else [])
  ++ (if Cfg.without_wizard c then ["-DBUILD_WIZARD=no"] else []).

(** The arguments of the call of lines 1311-1325. *)
Definition openmw_args (c : Cfg.t) (openmw : string)
    (build_env : gmap string string) : BuildArgs :=
  {| libname := openmw;
     check_file := Path.join (Cfg.install_prefix c) [openmw; "bin"; "openmw"];
     clone_dest := Some "openmw"; cmake := true;
     cmake_args := Some (openmw_build_args c ++ openmw_switches c);
     cmake_target := ".."; cpus := Cfg.cpus c;
     env := Some build_env; force := Cfg.force_openmw c;
     install_prefix := Cfg.install_prefix c;
     git_url := "https://github.com/OpenMW/openmw.git";
     make_install := true; patch := Cfg.patch c; quiet := false;
     src_dir := Cfg.src_dir c; verbose := Cfg.verbose c; version := Cfg.rev c |}.

(** lines 1207-1325, once the name [openmw] of the build is known *)
Definition build_openmw_as (c : Cfg.t) (openmw : string) : M string :=
  let* build_env := get environ in
  let build_env :=
    <["CMAKE_PREFIX_PATH" := Py.format0 (prefix_path c) (Cfg.install_prefix c)]>
      build_env in
  let* distro := detect_distro c in
  let* ldflags := openmw_ldflags distro in
  let build_env := <["LDFLAGS" := ldflags]> build_env in
  when (Cfg.without_cs c) (log "NOT building the openmw-cs executable ...") ;;
  when (Cfg.without_iniimporter c)
    (log "NOT building the openmw-iniimporter executable ...") ;;
  when (Cfg.without_launcher c)
    (log "NOT building the openmw-launcher executable ...") ;;
  when (Cfg.without_wizard c) (log "NOT building the openmw-wizard executable ...") ;;
  modify (fun w => with_environ (<["OPENMW_LTO_BUILD" := "on"]> (environ w)) w) ;;
  build_library (openmw_args c openmw build_env) ;;
  ret openmw.

(** lines 1200-1325: returns the name the build ran under *)
Definition build_openmw (c : Cfg.t) : M string :=
  let* openmw_sha :=
    get_repo_sha (Cfg.src_dir c) "openmw" (Cfg.rev c) (Cfg.pull c) (Cfg.verbose c) in
  build_openmw_as c (openmw_name openmw_sha).

(** [main] up to the build of the project (lines 745-1140 and
    1200-1325); the renaming, linking and packaging that follow are
    not part of it. *)
Definition main_build (parsed : Parsed.t) : M string :=
  let* c := process_flags parsed in
  let* distro := detect_distro c in
  install_dependencies c distro ;;
  ensure_dir (Path.join "/" ["opt"]) ;;
  ensure_dir (Cfg.install_prefix c) ;;
  ensure_dir (Cfg.src_dir c) ;;
  build_osg c ;;
  build_bullet c ;;
  build_unshield c ;;
  build_mygui c ;;
  if (Cfg.tes3mp c || Cfg.tes3mp_serveronly c)%bool
  then build_tes3mp c
  else build_openmw c.

End Script.

(** * Concrete runs

    Oracles, file systems and command lines to run the script on. *)

Module Scenario.

(** Every program is found, succeeds and prints nothing; no program
    changes the file system. *)
Definition popen_ok (args : list string) (env : gmap string string) (v : bool)
    (dir : string) (f : FileSys) (t : nat) : option (Z * string * string) * FileSys :=
  (Some (0, "", ""), f).

(** As [popen_ok], but [lsb_release -d] describes [distro] and
    [git rev-parse] prints a hash. *)
Definition popen_on (distro : string) (args : list string)
    (env : gmap string string) (v : bool) (dir : string) (f : FileSys) (t : nat)
    : option (Z * string * string) * FileSys :=
  match args with
  | "lsb_release" :: _ => (Some (0, "Description:" +:+ distro, ""), f)
  | ["git"; "rev-parse"; "--short"; "HEAD"] => (Some (0, "abc1234" +:+ Py.nl, ""), f)
  | _ => (Some (0, "", ""), f)
  end.

(** As [popen_ok], but [cmake] fails with exit status 1. *)
Definition popen_cmake_fails (args : list string) (env : gmap string string)
    (v : bool) (dir : string) (f : FileSys) (t : nat)
    : option (Z * string * string) * FileSys :=
  match args with
  | "cmake" :: _ => (Some (1, "", "CMake Error"), f)
  | _ => (Some (0, "", ""), f)
  end.

(** As [popen_ok], but [make install] fails with exit status 2 and
    writes nothing on stderr. *)
Definition popen_install_fails (args : list string) (env : gmap string string)
    (v : bool) (dir : string) (f : FileSys) (t : nat)
    : option (Z * string * string) * FileSys :=
  match args with
  | ["make"; "install"] => (Some (2, "make: *** [install] Error 2", ""), f)
  | _ => (Some (0, "", ""), f)
  end.

Definition system_ok (cmd dir : string) (f : FileSys) (t : nat) : Z * FileSys := (0, f).

Definition tmp_name (suffix : string) (f : FileSys) (t : nat) : string :=
  "/tmp/tmpk3x9" +:+ suffix.

(** The file system with these directories and these regular files. *)
Definition tree (dirs files : list string) : FileSys := fun p =>
  if existsb (String.eqb p) dirs then Some Dir
  else if existsb (String.eqb p) files then Some File
  else None.

(** A user at the root directory, logging at level INFO, before [main]
    has touched the package tables. *)
Definition world (f : FileSys) : World :=
  mkWorld f "/" (<["HOME" := "/home/user"]> ∅) 1000 INFO tables0 0.

(** The install prefix with the sources of bullet and of the OpenMW fork
    of OSG checked out, and bullet installed. *)
Definition built_dirs : list string :=
  [ "/"; "/opt"; "/opt/build-openmw"; "/opt/build-openmw/src";
    "/opt/build-openmw/src/bullet"; "/opt/build-openmw/src/osg-openmw";
    "/opt/build-openmw/bullet"; "/opt/build-openmw/bullet/lib";
    "/home"; "/home/user"; "/tmp" ].

Definition built_files : list string :=
  [ "/opt/build-openmw/bullet/lib/libLinearMath.so";
    "/home/user/openmw-abc1234.tar.bz2" ].

Definition built : World := world (tree built_dirs built_files).

(** A bare system: no install prefix yet. *)
Definition bare : World := world (tree ["/"; "/home"; "/home/user"; "/tmp"] []).

(** The call of lines 988-1008, as [main] makes it by default. *)
Definition bullet_args (forced : bool) : BuildArgs :=
  {| libname := "bullet";
     check_file := "/opt/build-openmw/bullet/lib/libLinearMath.so";
     clone_dest := None; cmake := true;
     cmake_args := Some ["-DINSTALL_LIBS=on"; "-DBUILD_SHARED_LIBS=on"];
     cmake_target := ".."; cpus := Py.VInt 9; env := None; force := forced;
     install_prefix := INSTALL_PREFIX;
     git_url := "https://github.com/bulletphysics/bullet3.git";
     make_install := true; patch := None; quiet := false; src_dir := SRC_DIR;
     verbose := false; version := BULLET_VERSION |}.


(** [build-openmw --tes3mp] *)
Definition parsed_tes3mp : Parsed.t :=
  Parsed.mk None None None false false false false false false false false
    false false false false false false None None false false false None
    None false None false true false false false false false false false
    false.

(** [build-openmw -S] *)
Definition parsed_skip : Parsed.t :=
  Parsed.mk None None None false false false false false false false false
    false false false false false false None None false false false None
    None true None false false false false false false false false false
    false.

(** Everything a client package is made of is in place. *)
Definition staged_dirs : list string :=
  [ "/"; "/tmp"; "/home"; "/home/user";
    "/opt/build-openmw/src/tes3mp/build/resources";
    "/opt/build-openmw/src/osg-openmw/build/lib/osgPlugins-3.4.1" ].

Definition staged : World :=
  world (tree staged_dirs
           (client_bins ++ void_system_libs ++ client_openmw_libs
            ++ ["/home/user/openmw-abc1234.tar.bz2"])).

(** The configuration of a run without options, with [HOME] set. *)
Definition default_cfg : Cfg.t :=
  Cfg.set_rev "origin/master" (cfg0 8 (Some "/home/user")).

(** As [staged], seen from the install prefix, where [main] is when it
    makes the package (line 1329), and where [./out] holds the archive of
    an earlier run. *)
Definition staged_out : World :=
  with_cwd "/opt/build-openmw"
    (world (tree (staged_dirs ++ ["/opt"; "/opt/build-openmw"; "/opt/build-openmw/out"])
              (client_bins ++ void_system_libs ++ client_openmw_libs
               ++ ["/opt/build-openmw/out/openmw-abc1234.tar.bz2"]))).

(** The same, where the directory that holds the archive of the earlier
    run is named like the package. *)
Definition staged_named : World :=
  with_cwd "/opt/build-openmw"
    (world (tree (staged_dirs ++ ["/opt"; "/opt/build-openmw";
                                  "/opt/build-openmw/openmw-abc1234"])
              (client_bins ++ void_system_libs ++ client_openmw_libs
               ++ ["/opt/build-openmw/openmw-abc1234/openmw-abc1234.tar.bz2"]))).

(** [build-openmw --make-pkg --force-pkg -o out] *)
Definition parsed_pkg_out : Parsed.t :=
  Parsed.mk None None None false false false false false false false false
    false false true false false false None None false true false (Some "out")
    None false None false false false false false false false false false
    false.

(** As [popen_ok], but [lsb_release] is not installed. *)
Definition popen_no_lsb (args : list string) (env : gmap string string)
    (v : bool) (dir : string) (f : FileSys) (t : nat)
    : option (Z * string * string) * FileSys :=
  match args with
  | "lsb_release" :: _ => (None, f)
  | _ => (Some (0, "", ""), f)
  end.

(** A shell in which every command line fails with status 1. *)
Definition system_fails (cmd dir : string) (f : FileSys) (t : nat) : Z * FileSys :=
  (1, f).

(** The install prefix and the source directory, with nothing checked
    out and nothing installed. *)
Definition fresh : World :=
  world (tree ["/"; "/opt"; "/opt/build-openmw"; "/opt/build-openmw/src";
               "/home"; "/home/user"; "/tmp"] []).

(** A forced build of bullet with a patch to apply. *)
Definition patched_args : BuildArgs :=
  {| libname := "bullet";
     check_file := "/opt/build-openmw/bullet/lib/libLinearMath.so";
     clone_dest := None; cmake := true;
     cmake_args := Some ["-DINSTALL_LIBS=on"; "-DBUILD_SHARED_LIBS=on"];
     cmake_target := ".."; cpus := Py.VInt 9; env := None; force := true;
     install_prefix := INSTALL_PREFIX;
     git_url := "https://github.com/bulletphysics/bullet3.git";
     make_install := true; patch := Some "/home/user/fix.patch"; quiet := false;
     src_dir := SRC_DIR; verbose := false; version := BULLET_VERSION |}.

(** [build-openmw --branch lua] *)
Definition parsed_branch : Parsed.t :=
  Parsed.mk None None (Some "lua") false false false false false false false
    false false false false false false false None None false false false None
    None false None false false false false false false false false false
    false.

(** [build-openmw --force-all] *)
Definition parsed_force_all : Parsed.t :=
  Parsed.mk None None None false false false false false false false false
    false false false true false false None None false false false None None
    false None false false false false false false false false false false.

(** A forced build of bullet that is not to be installed. *)
Definition uninstalled_args : BuildArgs :=
  {| libname := "bullet";
     check_file := "/opt/build-openmw/bullet/lib/libLinearMath.so";
     clone_dest := None; cmake := true;
     cmake_args := Some ["-DINSTALL_LIBS=on"; "-DBUILD_SHARED_LIBS=on"];
     cmake_target := ".."; cpus := Py.VInt 9; env := None; force := true;
     install_prefix := INSTALL_PREFIX;
     git_url := "https://github.com/bulletphysics/bullet3.git";
     make_install := false; patch := None; quiet := false;
     src_dir := SRC_DIR; verbose := false; version := BULLET_VERSION |}.

(** [build-openmw -P fix.patch] *)
Definition parsed_patch : Parsed.t :=
  Parsed.mk None None None false false false false false false false false
    false false false false false false None None false false false None
    (Some "fix.patch") false None false false false false false false false
    false false false.

End Scenario.

(** * Reasoning about runs *)

(** ** Observations on events *)

(** The commands spawned, in order. *)
Fixpoint cmds (evs : list Event) : list (list string) :=
  match evs with
  | [] => []
  | EvPopen args _ _ _ :: evs' => args :: cmds evs'
  | _ :: evs' => cmds evs'
  end.

(** An event that reaches outside the process: everything but a log
    record and a line on stderr. *)
Definition external (e : Event) : bool :=
  match e with
  | EvLog _ _ | EvStderr _ => false
  | _ => true
  end.

Definition is_popen (e : Event) : bool :=
  match e with
  | EvPopen _ _ _ _ => true
  | _ => false
  end.

(** The configure and compile command lines: [cmake ...] and
    [make -jN] (but not [make install]). *)
Definition build_cmdline (args : list string) : bool :=
  match args with
  | prog :: rest =>
      (String.eqb prog "cmake"
       || (String.eqb prog "make"
           && match rest with
              | [x] => String.prefix "-j" x
              | _ => false
              end))%bool
  | [] => false
  end.

(** The configure or the compile step was run. *)
Definition build_step (e : Event) : bool :=
  match e with
  | EvPopen args _ _ _ => build_cmdline args
  | _ => false
  end.

(** The configure or the compile step was run and returned a non-zero
    exit status. *)
Definition failed_step (e : Event) : bool :=
  match e with
  | EvPopen args _ _ (Some (rc, _, _)) => (build_cmdline args && negb (rc =? 0))%bool
  | _ => false
  end.

(** The line [error_and_die] writes. *)
Definition die_line (msg : string) : Event :=
  EvStderr ("ERROR: " +:+ msg +:+ " Exiting ..." +:+ Py.nl).

(** What a run did to archives: the files it removed, the archives it
    opened for writing and what it added to them, in order. *)
Definition archive_events (evs : list Event) : list Event :=
  List.filter (fun e => match e with
                        | EvRemove _ | EvTarOpen _ | EvTarAdd _ _ => true
                        | _ => false
                        end) evs.

Lemma cmds_app (l1 l2 : list Event) : cmds (l1 ++ l2) = cmds l1 ++ cmds l2.
Proof.
  induction l1 as [|e l1 IH]; simpl; [reflexivity|].
  destruct e; simpl; rewrite ?IH; reflexivity.
Qed.

Lemma cmds_not_popen (l : list Event) :
  Forall (fun e => is_popen e = false) l -> cmds l = [].
Proof.
  induction 1 as [|e l He _ IH]; simpl; [reflexivity|].
  destruct e; simpl in *; try discriminate; assumption.
Qed.

Lemma failed_is_build_step (e : Event) : failed_step e = true -> build_step e = true.
Proof.
  destruct e as [| |args ? ? [[[rc ?] ?]|]| | | | | | | | |]; simpl; try discriminate.
  intros H. apply andb_true_iff in H. tauto.
Qed.

(** Where an element sits once the front of the list is known not to
    hold it. *)
Lemma split_after (P : Event -> bool) (front back pre post : list Event) (e : Event) :
  Forall (fun x => P x = false) front ->
  front ++ back = pre ++ e :: post ->
  P e = true ->
  exists pre', pre = front ++ pre' /\ back = pre' ++ e :: post.
Proof.
  intros Hfront. revert pre.
  induction Hfront as [|x front Hx _ IH]; intros pre Heq He; simpl in *.
  - exists pre. split; [reflexivity | assumption].
  - destruct pre as [|y pre]; simpl in Heq; inversion Heq; subst.
    + congruence.
    + destruct (IH pre H1 He) as (pre' & -> & ->).
      exists pre'. split; reflexivity.
Qed.

(** ** Runs of compound computations *)

Section Runs.
Context {A B : Type}.
Implicit Types (m : M A) (k : A -> M B) (w : World).

Lemma bind_ret_run m k w (a : A) :
  outcome (m w) = Ret a ->
  bind m k w =
    mkRun (outcome (k a (final (m w)))) (final (k a (final (m w))))
          (events (m w) ++ events (k a (final (m w)))).
Proof.
  unfold bind. destruct (m w) as [o w1 e1]. simpl. intros ->.
  destruct (k a w1); reflexivity.
Qed.

Lemma bind_exit_run m k w (c : Z) :
  outcome (m w) = Exit c -> bind m k w = mkRun (Exit c) (final (m w)) (events (m w)).
Proof. unfold bind. destruct (m w) as [o w1 e1]. simpl. intros ->. reflexivity. Qed.

Lemma bind_raise_run m k w (e : Py.exn) :
  outcome (m w) = Raise e -> bind m k w = mkRun (Raise e) (final (m w)) (events (m w)).
Proof. unfold bind. destruct (m w) as [o w1 e1]. simpl. intros ->. reflexivity. Qed.

(** A bind returns only if both halves do. *)
Lemma bind_returns m k w (b : B) :
  outcome (bind m k w) = Ret b ->
  exists a, outcome (m w) = Ret a /\ outcome (k a (final (m w))) = Ret b.
Proof.
  destruct (outcome (m w)) as [a|c|e] eqn:E.
  - rewrite (bind_ret_run m k w a E). simpl. intros H. exists a. auto.
  - rewrite (bind_exit_run m k w c E). discriminate.
  - rewrite (bind_raise_run m k w e E). discriminate.
Qed.

(** The events of a bind start with those of its first half. *)
Lemma bind_events_prefix m k w :
  exists rest, events (bind m k w) = events (m w) ++ rest.
Proof.
  destruct (outcome (m w)) as [a|c|e] eqn:E.
  - rewrite (bind_ret_run m k w a E). simpl. eauto.
  - rewrite (bind_exit_run m k w c E). exists []. simpl. rewrite app_nil_r. reflexivity.
  - rewrite (bind_raise_run m k w e E). exists []. simpl. rewrite app_nil_r. reflexivity.
Qed.
Lemma bind_get {S} (f : World -> S) (k' : S -> M B) w :
  bind (get f) k' w = k' (f w) w.
Proof. unfold bind, get. destruct (k' (f w) w); reflexivity. Qed.

Lemma bind_ret (a : A) k w : bind (ret a) k w = k a w.
Proof. unfold bind, ret. destruct (k a w); reflexivity. Qed.

Lemma bind_modify (f : World -> World) (k' : unit -> M B) w :
  bind (modify f) k' w = k' tt (f w).
Proof. unfold bind, modify. destruct (k' tt (f w)); reflexivity. Qed.
End Runs.

(** ** Properties of every event of a computation *)

Definition AllEv {A} (P : Event -> Prop) (m : M A) : Prop :=
  forall w, Forall P (events (m w)).

Section AllEv.
Context (P : Event -> Prop).

Lemma AllEv_ret {A} (a : A) : AllEv P (ret a).
Proof. intros w. constructor. Qed.

Lemma AllEv_raise {A} (e : Py.exn) : AllEv P (@raise A e).
Proof. intros w. constructor. Qed.

Lemma AllEv_sys_exit {A} (c : Z) : AllEv P (@sys_exit A c).
Proof. intros w. constructor. Qed.

Lemma AllEv_get {A} (f : World -> A) : AllEv P (get f).
Proof. intros w. constructor. Qed.

Lemma AllEv_modify (f : World -> World) : AllEv P (modify f).
Proof. intros w. constructor. Qed.

Lemma AllEv_emit (e : Event) : P e -> AllEv P (emit e).
Proof. intros H w. repeat constructor. assumption. Qed.

Lemma AllEv_bind {A B} (m : M A) (k : A -> M B) :
  AllEv P m -> (forall a, AllEv P (k a)) -> AllEv P (bind m k).
Proof.
  intros Hm Hk w.
  destruct (outcome (m w)) as [a|c|e] eqn:E.
  - rewrite (bind_ret_run m k w a E). simpl.
    apply Forall_app. split; [apply Hm | apply Hk].
  - rewrite (bind_exit_run m k w c E). apply Hm.
  - rewrite (bind_raise_run m k w e E). apply Hm.
Qed.

Lemma AllEv_when (c : bool) (m : M unit) : AllEv P m -> AllEv P (when c m).
Proof. intros H. destruct c; simpl; [assumption | apply AllEv_ret]. Qed.

Lemma AllEv_try_except {A} (m h : M A) (handles : Py.exn -> bool) :
  AllEv P m -> AllEv P h -> AllEv P (try_except m handles h).
Proof.
  intros Hm Hh w. unfold try_except.
  specialize (Hm w). destruct (m w) as [[a|c|e] w1 e1]; simpl in *; try exact Hm.
  destruct (handles e); [|exact Hm].
  specialize (Hh w1). destruct (h w1) as [o w2 e2]. simpl in *.
  apply Forall_app. split; assumption.
Qed.

Lemma AllEv_for_each {A} (l : list A) (f : A -> M unit) :
  (forall x, AllEv P (f x)) -> AllEv P (for_each l f).
Proof.
  intros Hf. induction l as [|x l IH]; simpl.
  - apply AllEv_ret.
  - apply AllEv_bind; [apply Hf | intros _; apply IH].
Qed.
End AllEv.

(** ** The events of the primitives *)

Section Primitives.
Context (P : Event -> Prop).

Lemma AllEv_logging_log lvl msg : P (EvLog lvl msg) -> AllEv P (logging_log lvl msg).
Proof.
  intros H w. unfold logging_log.
  destruct (level_no (loglevel w) <=? level_no lvl); simpl; repeat constructor.
  assumption.
Qed.

Lemma AllEv_emit_log msg lvl quiet :
  (forall l, P (EvLog l msg)) -> AllEv P (emit_log msg lvl quiet).
Proof.
  intros H. unfold emit_log.
  destruct quiet; simpl; [apply AllEv_ret|].
  destruct lvl; apply AllEv_logging_log; apply H.
Qed.

Lemma AllEv_log s : (forall l, P (EvLog l (LStr s))) -> AllEv P (log s).
Proof. apply AllEv_emit_log. Qed.

Lemma AllEv_error_and_die {A} msg : P (die_line msg) -> AllEv P (@error_and_die A msg).
Proof.
  intros H. unfold error_and_die.
  apply AllEv_bind; [apply AllEv_emit; exact H | intros _; apply AllEv_sys_exit].
Qed.

Lemma AllEv_exists p : AllEv P (OS.exists_ p).
Proof. apply AllEv_get. Qed.
Lemma AllEv_isfile p : AllEv P (OS.isfile p).
Proof. apply AllEv_get. Qed.
Lemma AllEv_isdir p : AllEv P (OS.isdir p).
Proof. apply AllEv_get. Qed.
Lemma AllEv_getenv k : AllEv P (OS.getenv k).
Proof. apply AllEv_get. Qed.
Lemma AllEv_getcwd : AllEv P OS.getcwd.
Proof. apply AllEv_get. Qed.
Lemma AllEv_getuid : AllEv P OS.getuid.
Proof. apply AllEv_get. Qed.

Lemma AllEv_chdir p : (forall q, P (EvChdir q)) -> AllEv P (OS.chdir p).
Proof.
  intros H w. unfold OS.chdir.
  destruct (OS.lookup w p) as [[|]|]; simpl; repeat constructor. apply H.
Qed.

Lemma AllEv_mkdir p : (forall q, P (EvMkdir q)) -> AllEv P (OS.mkdir p).
Proof.
  intros H w. unfold OS.mkdir.
  destruct (fs w (OS.resolve w p)); simpl; [constructor|].
  destruct (fs w (Path.dirname (OS.resolve w p))) as [[|]|];
    simpl; repeat constructor. apply H.
Qed.

Lemma AllEv_rmtree p : (forall q, P (EvRmtree q)) -> AllEv P (OS.rmtree p).
Proof.
  intros H w. unfold OS.rmtree.
  destruct (fs w (OS.resolve w p)) as [[|]|]; simpl; repeat constructor. apply H.
Qed.

Lemma AllEv_remove p : (forall q, P (EvRemove q)) -> AllEv P (OS.remove p).
Proof.
  intros H w. unfold OS.remove.
  destruct (fs w (OS.resolve w p)) as [[|]|]; simpl; repeat constructor. apply H.
Qed.

Lemma AllEv_copy src dst : (forall a b, P (EvCopy a b)) -> AllEv P (OS.copy src dst).
Proof.
  intros H w. unfold OS.copy.
  destruct (fs w (OS.resolve w src)) as [[|]|]; simpl; try constructor.
  destruct (fs w (OS.resolve w dst)) as [[|]|]; simpl.
  - repeat constructor. apply H.
  - destruct (fs w _) as [[|]|]; simpl; repeat constructor; apply H.
  - destruct (fs w _) as [[|]|]; simpl; repeat constructor; apply H.
Qed.

Lemma AllEv_copytree src dst :
  (forall a b, P (EvCopytree a b)) -> AllEv P (OS.copytree src dst).
Proof.
  intros H w. unfold OS.copytree.
  destruct (fs w (OS.resolve w src)) as [[|]|]; simpl; try constructor.
  destruct (fs w (OS.resolve w dst)); simpl; repeat constructor. apply H.
Qed.

Lemma AllEv_makedirs p : (forall q, P (EvMkdir q)) -> AllEv P (OS.makedirs p).
Proof.
  intros H. unfold OS.makedirs.
  apply AllEv_bind; [apply AllEv_get | intros rp].
  apply AllEv_bind; [|intros _; apply AllEv_mkdir, H].
  apply AllEv_for_each. intros a.
  apply AllEv_bind; [apply AllEv_exists | intros e].
  apply AllEv_when, AllEv_mkdir, H.
Qed.

Context (popen :
  list string -> gmap string string -> bool -> string -> FileSys -> nat ->
  option (Z * string * string) * FileSys).
Context (system : string -> string -> FileSys -> nat -> Z * FileSys).

Lemma AllEv_Popen args env v :
  (forall res, P (EvPopen args env v res)) -> AllEv P (Popen popen args env v).
Proof.
  intros H w. unfold Popen.
  destruct (popen _ _ _ _ _ _) as [[r|] f]; simpl; repeat constructor; apply H.
Qed.

Lemma AllEv_execute_shell args env v :
  (forall l m, P (EvLog l m)) ->
  (forall res, P (EvPopen args env v res)) ->
  AllEv P (execute_shell popen args env v).
Proof.
  intros Hl Hp. unfold execute_shell.
  apply AllEv_bind; [apply AllEv_emit_log; intros; apply Hl | intros _].
  apply AllEv_bind; [apply AllEv_Popen, Hp | intros [[rc out] err]].
  apply AllEv_ret.
Qed.

Lemma AllEv_os_system cmd :
  (forall code, P (EvSystem cmd code)) -> AllEv P (os_system system cmd).
Proof.
  intros H w. unfold os_system.
  destruct (system _ _ _ _) as [code f]; simpl. repeat constructor. apply H.
Qed.
End Primitives.

(** Logging leaves the world as it is. *)
Lemma final_log (s : string) (w : World) : final (log s w) = w.
Proof.
  unfold log, emit_log, logging_log. simpl.
  destruct (level_no (loglevel w) <=? 20); reflexivity.
Qed.

Lemma outcome_log (s : string) (w : World) : outcome (log s w) = Ret tt.
Proof.
  unfold log, emit_log, logging_log. simpl.
  destruct (level_no (loglevel w) <=? 20); reflexivity.
Qed.

Lemma events_log (s : string) (w : World) :
  events (log s w) =
    if level_no (loglevel w) <=? level_no INFO then [EvLog INFO (LStr s)] else [].
Proof.
  unfold log, emit_log, logging_log. simpl.
  destruct (level_no (loglevel w) <=? 20); reflexivity.
Qed.

Lemma bind_log_run {B} (s : string) (k : unit -> M B) (w : World) :
  bind (log s) k w =
    mkRun (outcome (k tt w)) (final (k tt w)) (events (log s w) ++ events (k tt w)).
Proof.
  rewrite (bind_ret_run (log s) k w tt (outcome_log s w)), final_log. reflexivity.
Qed.

(** Structural steps on a goal [AllEv P m]; the leaves are left to the
    caller. *)
Ltac allev_step :=
  first
    [ apply AllEv_ret | apply AllEv_raise | apply AllEv_sys_exit
    | apply AllEv_exists | apply AllEv_isfile | apply AllEv_isdir
    | apply AllEv_getenv | apply AllEv_getcwd | apply AllEv_getuid
    | apply AllEv_when
    | apply AllEv_for_each; intros ?
    | apply AllEv_try_except
    | apply AllEv_log; intros
    | apply AllEv_emit_log; intros
    | apply AllEv_error_and_die
    | apply AllEv_chdir; intros
    | apply AllEv_makedirs; intros
    | apply AllEv_mkdir; intros
    | apply AllEv_rmtree; intros
    | apply AllEv_remove; intros
    | apply AllEv_copy; intros
    | apply AllEv_copytree; intros
    | apply AllEv_os_system; intros
    | apply AllEv_execute_shell; intros
    | apply AllEv_bind; [|intros ?]
    | apply AllEv_get | apply AllEv_modify
    | match goal with
      | |- AllEv _ (if ?c then _ else _) => destruct c
      | |- AllEv _ (match ?x with _ => _ end) => destruct x
      end ].

Ltac allev := repeat allev_step.

(** Find the place of an element in a list that is known. *)
Ltac list_cases :=
  repeat match goal with
    | H : [] = ?pre ++ _ :: _ |- _ => destruct pre; discriminate H
    | H : _ :: _ = ?pre ++ _ :: _ |- _ =>
        destruct pre; simpl in H; inversion H; subst; clear H
    end.

(** ** The commands of a run that returns *)

Section Commands.
Context (popen :
  list string -> gmap string string -> bool -> string -> FileSys -> nat ->
  option (Z * string * string) * FileSys).

Definition Cmds {A} (m : M A) (l : list (list string)) : Prop :=
  forall w a, outcome (m w) = Ret a -> cmds (events (m w)) = l.

Lemma Cmds_bind {A B} (m : M A) (k : A -> M B) (l1 l2 : list (list string)) :
  Cmds m l1 -> (forall a, Cmds (k a) l2) -> Cmds (bind m k) (l1 ++ l2).
Proof.
  intros Hm Hk w b Hb.
  destruct (bind_returns m k w b Hb) as (a & Ha & Hka).
  rewrite (bind_ret_run m k w a Ha). simpl.
  rewrite cmds_app, (Hm w a Ha), (Hk a _ b Hka). reflexivity.
Qed.

Lemma Cmds_eq {A} (m : M A) (l l' : list (list string)) :
  Cmds m l -> l = l' -> Cmds m l'.
Proof. intros H <-. exact H. Qed.

Lemma Cmds_quiet {A} (m : M A) :
  AllEv (fun e => is_popen e = false) m -> Cmds m [].
Proof. intros H w a _. apply cmds_not_popen, H. Qed.

Lemma Cmds_execute_shell (cmd : list string) (env : option (gmap string string))
    (v : bool) :
  Cmds (execute_shell popen cmd env v) [cmd].
Proof.
  intros w a _.
  unfold execute_shell, bind, Popen, emit_log, logging_log, emit, ret. simpl.
  destruct (level_no (loglevel w) <=? 10); simpl;
    destruct (popen cmd _ v _ _ _) as [[[[rc out] err]|] f]; reflexivity.
Qed.

Lemma outcome_emit_log (msg : LogMsg) (lvl : Level) (quiet : bool) (w : World) :
  outcome (emit_log msg lvl quiet w) = Ret tt.
Proof.
  unfold emit_log, logging_log. destruct quiet; simpl; [reflexivity|].
  destruct lvl; destruct (level_no (loglevel w) <=? _); reflexivity.
Qed.

Lemma final_emit_log (msg : LogMsg) (lvl : Level) (quiet : bool) (w : World) :
  final (emit_log msg lvl quiet w) = w.
Proof.
  unfold emit_log, logging_log. destruct quiet; simpl; [reflexivity|].
  destruct lvl; destruct (level_no (loglevel w) <=? _); reflexivity.
Qed.

End Commands.

(** One step of a straight-line computation. *)
Ltac cmds_step :=
  first
    [ apply Cmds_execute_shell
    | apply Cmds_quiet; allev; reflexivity
    | eapply Cmds_bind; [|intros ?] ].


(** * Properties of [build_library] *)

Section BuildLibrary.
Context (popen :
  list string -> gmap string string -> bool -> string -> FileSys -> nat ->
  option (Z * string * string) * FileSys).
Context (system : string -> string -> FileSys -> nat -> Z * FileSys).

(** The skip test of line 153 only reads the file system. *)
Lemma build_library_branch (a : BuildArgs) (w : World) :
  build_library popen system a w =
    if (match OS.lookup w (check_file a) with Some File => true | _ => false end
        && negb (force a))%bool
    then log (libname a +:+ " found!") w
    else build_now popen system a w.
Proof.
  unfold build_library, OS.exists_, OS.isfile. rewrite !bind_get.
  destruct (OS.lookup w (check_file a)) as [[|]|]; destruct (force a); reflexivity.
Qed.

(** C1: if the check file exists as a regular file and [force] is
    false, [build_library] returns at once: it spawns no command and
    touches nothing on disk; the world is left exactly as it was and
    the only thing it does is log that the library was found. *)
Theorem build_library_skip_is_silent (a : BuildArgs) (w : World) :
  OS.lookup w (check_file a) = Some File ->
  force a = false ->
  outcome (build_library popen system a w) = Ret tt /\
  final (build_library popen system a w) = w /\
  events (build_library popen system a w) =
    (if level_no (loglevel w) <=? level_no INFO
     then [EvLog INFO (LStr (libname a +:+ " found!"))] else []) /\
  Forall (fun e => external e = false) (events (build_library popen system a w)).
Proof.
  intros Hfile Hforce.
  rewrite build_library_branch, Hfile, Hforce. simpl.
  rewrite outcome_log, final_log, events_log.
  repeat split.
  destruct (level_no (loglevel w) <=? level_no INFO); repeat constructor.
Qed.

(** *** Steps that are neither configure nor compile *)

Definition nostep (e : Event) : Prop := build_step e = false.

Lemma clone_source_nostep (a : BuildArgs) : AllEv nostep (clone_source popen a).
Proof. unfold clone_source. allev; reflexivity. Qed.

Lemma remove_previous_install_nostep (a : BuildArgs) :
  AllEv nostep (remove_previous_install a).
Proof. unfold remove_previous_install. allev; reflexivity. Qed.

Lemma _git_clean_src_nostep (a : BuildArgs) : AllEv nostep (_git_clean_src popen a).
Proof. unfold _git_clean_src. allev; reflexivity. Qed.

Lemma apply_patch_nostep (a : BuildArgs) : AllEv nostep (apply_patch system a).
Proof. unfold apply_patch. allev; reflexivity. Qed.

Lemma install_nostep (a : BuildArgs) : AllEv nostep (install popen a).
Proof. unfold install. allev; reflexivity. Qed.

Lemma log_nostep (s : string) : AllEv nostep (log s).
Proof. allev; reflexivity. Qed.

Lemma chdir_nostep (p : string) : AllEv nostep (OS.chdir p).
Proof. allev; reflexivity. Qed.

Lemma nostep_nofail {A} (m : M A) :
  AllEv nostep m -> AllEv (fun e => failed_step e = false) m.
Proof.
  intros H w. eapply Forall_impl; [apply H|].
  intros e He. destruct (failed_step e) eqn:E; [|reflexivity].
  apply failed_is_build_step in E. unfold nostep in He. congruence.
Qed.

(** *** A failed configure or compile step ends the run *)

(** What follows a failed step: nothing that reaches outside, and the
    line of [error_and_die] last. *)
Definition aborted (post : list Event) : Prop :=
  Forall (fun x => external x = false) post /\
  exists msg, (msg = "cmake exited nonzero!" \/ msg = "make exited nonzero!") /\
    last post = Some (die_line msg).

Definition Fatal {A} (m : M A) : Prop :=
  forall w pre e post,
    events (m w) = pre ++ e :: post ->
    failed_step e = true ->
    outcome (m w) = Exit 1 /\ aborted post.

Lemma Fatal_of_nofail {A} (m : M A) :
  AllEv (fun e => failed_step e = false) m -> Fatal m.
Proof.
  intros H w pre e post Heq He.
  specialize (H w). rewrite Heq in H.
  apply Forall_app in H as [_ H]. inversion H; subst. congruence.
Qed.

Lemma Fatal_of_nostep {A} (m : M A) : AllEv nostep m -> Fatal m.
Proof. intros H. apply Fatal_of_nofail, nostep_nofail, H. Qed.

Lemma Fatal_bind {A B} (m : M A) (k : A -> M B) :
  Fatal m -> (forall a, Fatal (k a)) -> Fatal (bind m k).
Proof.
  intros Hm Hk w pre e post Heq He.
  destruct (outcome (m w)) as [a|c|x] eqn:Hout;
    [ rewrite (bind_ret_run m k w a Hout) in *
    | rewrite (bind_exit_run m k w c Hout) in *
    | rewrite (bind_raise_run m k w x Hout) in * ]; simpl in *.
  - apply app_eq_app in Heq as [l [[H1 H2]|[H1 H2]]].
    + destruct l as [|e' l]; simpl in H2.
      * apply (Hk a (final (m w)) [] e post); [symmetry; exact H2 | exact He].
      * inversion H2; subst.
        destruct (Hm w pre e' l H1 He) as [Hx _]. congruence.
    + apply (Hk a (final (m w)) l e post); assumption.
  - destruct (Hm w pre e post Heq He) as [Hx Hab]. split; [congruence | exact Hab].
  - destruct (Hm w pre e post Heq He) as [Hx Hab]. congruence.
Qed.

Lemma Fatal_when (c : bool) (m : M unit) : Fatal m -> Fatal (when c m).
Proof.
  intros H. destruct c; simpl; [exact H|].
  apply Fatal_of_nofail, AllEv_ret.
Qed.

(** A command whose exit status is checked the way lines 200-203 and
    206-211 check it. *)
Lemma Fatal_checked (cmd : list string) (env : option (gmap string string))
    (v : bool) (msg : string) :
  msg = "cmake exited nonzero!" \/ msg = "make exited nonzero!" ->
  Fatal (bind (execute_shell popen cmd env v)
           (fun '(exitcode, output) =>
              when (negb (exitcode =? 0))
                (bind (emit_log (LBytes (snd output)) INFO false)
                   (fun _ => error_and_die msg)))).
Proof.
  intros Htool w pre e post.
  unfold execute_shell, bind, Popen, emit_log, logging_log, error_and_die,
    emit, sys_exit, ret, when, tick. simpl.
  destruct (level_no (loglevel w) <=? 10); simpl;
    destruct (popen cmd _ v (cwd w) (fs w) (clock w)) as [[[[rc out] err]|] f];
    simpl; try destruct (rc =? 0) eqn:Hrc; simpl;
    try destruct (level_no (loglevel w) <=? 20); simpl;
    intros Heq He; list_cases; simpl in He; try discriminate He;
    try (rewrite Hrc in He; rewrite andb_false_r in He; discriminate He);
    (split; [reflexivity|]); (split; [repeat constructor|]);
    exists msg; (split; [exact Htool | reflexivity]).
Qed.

Lemma configure_fatal (a : BuildArgs) : Fatal (configure popen a).
Proof.
  unfold configure. apply Fatal_when.
  apply Fatal_bind; [apply Fatal_of_nostep; allev; reflexivity | intros _].
  apply Fatal_bind; [apply Fatal_of_nostep; allev; reflexivity | intros old].
  apply Fatal_bind; [apply Fatal_of_nostep; allev; reflexivity | intros _].
  apply Fatal_bind; [apply Fatal_of_nostep; allev; reflexivity | intros _].
  apply Fatal_bind; [apply Fatal_of_nostep; allev; reflexivity | intros _].
  apply Fatal_bind; [apply Fatal_of_nostep; allev; reflexivity | intros _].
  apply Fatal_checked. left. reflexivity.
Qed.

Lemma compile_fatal (a : BuildArgs) : Fatal (compile popen a).
Proof.
  unfold compile.
  apply Fatal_bind; [apply Fatal_of_nostep; allev; reflexivity | intros _].
  apply Fatal_checked. right. reflexivity.
Qed.

Lemma build_now_fatal (a : BuildArgs) : Fatal (build_now popen system a).
Proof.
  unfold build_now.
  apply Fatal_bind; [apply Fatal_of_nostep, log_nostep | intros _].
  apply Fatal_bind; [apply Fatal_of_nostep, clone_source_nostep | intros _].
  apply Fatal_bind; [apply Fatal_of_nostep, remove_previous_install_nostep | intros _].
  apply Fatal_bind; [apply Fatal_of_nostep, _git_clean_src_nostep | intros _].
  apply Fatal_bind; [apply Fatal_of_nostep, apply_patch_nostep | intros _].
  apply Fatal_bind; [apply Fatal_of_nostep, chdir_nostep | intros _].
  apply Fatal_bind; [apply configure_fatal | intros _].
  apply Fatal_bind; [apply compile_fatal | intros _].
  apply Fatal_of_nostep, install_nostep.
Qed.

(** C4: in [build_library], a non-zero exit status of the configure step
    ([cmake ...]) or of the compile step ([make -jN]) is fatal.  Whatever
    the arguments and the world, once such a command has returned a
    non-zero status the run ends with [sys.exit(1)]; after the command
    nothing reaches outside the process any more (no retry, no further
    command, no file-system change): the stderr of the command is logged
    and the last thing written is the error line on stderr. *)
Theorem build_library_failed_step_is_fatal (a : BuildArgs) (w : World)
    (pre post : list Event) (e : Event) :
  events (build_library popen system a w) = pre ++ e :: post ->
  failed_step e = true ->
  outcome (build_library popen system a w) = Exit 1 /\
  Forall (fun x => external x = false) post /\
  exists msg, (msg = "cmake exited nonzero!" \/ msg = "make exited nonzero!") /\
    last post = Some (EvStderr ("ERROR: " +:+ msg +:+ " Exiting ..." +:+ Py.nl)).
Proof.
  rewrite build_library_branch.
  destruct (_ && _)%bool.
  - intros Heq He. exfalso.
    pose proof (Fatal_of_nostep (log (libname a +:+ " found!"))
                  (log_nostep _) w pre e post Heq He) as [H _].
    rewrite outcome_log in H. discriminate H.
  - intros Heq He. exact (build_now_fatal a w pre e post Heq He).
Qed.


(** *** The commands of the clean step *)

(** What the clean step spawns when nothing stops it (lines 115-149). *)
Definition clean_cmds (a : BuildArgs) : list (list string) :=
  [ ["git"; "checkout"; "--"; "."]; ["git"; "clean"; "-df"] ]
  ++ (if String.eqb (libname a) "osg-openmw"
      then [ ["git"; "checkout"; OPENMW_OSG_BRANCH];
             ["git"; "reset"; "--hard"; "origin/" +:+ OPENMW_OSG_BRANCH] ]
      else [])
  ++ (if String.eqb (libname a) "osg"
      then [ ["git"; "checkout"; UPSTREAM_OSG_VERSION];
             ["git"; "reset"; "--hard"; "origin/" +:+ UPSTREAM_OSG_VERSION] ]
      else [ ["git"; "checkout"; version a];
             ["git"; "reset"; "--hard"; version a] ]).

Lemma _git_clean_src_cmds (a : BuildArgs) :
  Cmds (_git_clean_src popen a) (clean_cmds a).
Proof.
  unfold _git_clean_src, clean_cmds.
  destruct (String.eqb (libname a) "osg-openmw");
    destruct (String.eqb (libname a) "osg"); unfold when;
    (eapply Cmds_eq; [repeat cmds_step | reflexivity]).
Qed.


(** *** A forced build *)





(** *** The revision the clean step ends on *)

(** For [osg-openmw] the reset to the OSG branch is not the last thing
    the clean step does: line 130 is an [if], not an [elif], so its
    [else] branch (lines 142-149) runs as well and the checkout ends on
    [version]. *)
Lemma osg_openmw_clean_ends_on_version (a : BuildArgs) (w : World) :
  libname a = "osg-openmw" ->
  outcome (_git_clean_src popen a w) = Ret tt ->
  cmds (events (_git_clean_src popen a w)) =
    [ ["git"; "checkout"; "--"; "."];
      ["git"; "clean"; "-df"];
      ["git"; "checkout"; OPENMW_OSG_BRANCH];
      ["git"; "reset"; "--hard"; "origin/" +:+ OPENMW_OSG_BRANCH];
      ["git"; "checkout"; version a];
      ["git"; "reset"; "--hard"; version a] ].
Proof.
  intros Hname Hret.
  rewrite (_git_clean_src_cmds a w tt Hret).
  unfold clean_cmds. rewrite Hname. reflexivity.
Qed.

(** X13: for every library but [osg-openmw] the clean step ends on the
    revision asked for.  A clean step that returns has discarded the
    local changes ([git checkout -- .], [git clean -df]) and then checked
    out and hard-reset the upstream OSG tag (under [origin/]) for [osg],
    and the version given for any other library; these are the only
    commands it ran. *)
Lemma clean_ends_on_requested (a : BuildArgs) (w : World) :
  libname a <> "osg-openmw" ->
  outcome (_git_clean_src popen a w) = Ret tt ->
  cmds (events (_git_clean_src popen a w)) =
    [ ["git"; "checkout"; "--"; "."]; ["git"; "clean"; "-df"] ]
    ++ (if String.eqb (libname a) "osg"
        then [ ["git"; "checkout"; UPSTREAM_OSG_VERSION];
               ["git"; "reset"; "--hard"; "origin/" +:+ UPSTREAM_OSG_VERSION] ]
        else [ ["git"; "checkout"; version a];
               ["git"; "reset"; "--hard"; version a] ]).
Proof.
  intros Hname Hret.
  rewrite (_git_clean_src_cmds a w tt Hret).
  unfold clean_cmds.
  destruct (String.eqb_spec (libname a) "osg-openmw") as [E|_]; [contradiction|].
  reflexivity.
Qed.

(** *** The install step *)

(** A command that is found returns its status and, unless verbose, its
    streams. *)
Lemma execute_shell_found (cmd : list string) (env : option (gmap string string))
    (v : bool) (w : World) (rc : Z) (out err : string) (f : FileSys) :
  popen cmd (default (environ w) env) v (cwd w) (fs w) (clock w)
    = (Some (rc, out, err), f) ->
  outcome (execute_shell popen cmd env v w)
    = Ret (rc, if v then (None, None) else (Some out, Some err)) /\
  final (execute_shell popen cmd env v w) = tick f w.
Proof.
  intros H. unfold execute_shell, bind, Popen, emit_log, logging_log, emit, ret.
  cbn [negb]. destruct (level_no (loglevel w) <=? level_no DEBUG);
    cbn [outcome final events cwd fs clock environ]; rewrite H;
    cbn [outcome final events]; split; reflexivity.
Qed.

(** The install step looks at what [make install] wrote on stderr, not
    at its exit status (line 215 keeps only [[1]] of the result): a
    [make install] that fails without writing on stderr goes
    unnoticed. *)
Lemma install_ignores_exit_status (a : BuildArgs) (w : World) (rc : Z)
    (out : string) (f : FileSys) :
  make_install a = true ->
  popen ["make"; "install"] (default (environ w) (env a)) (verbose a)
    (cwd w) (fs w) (clock w) = (Some (rc, out, ""), f) ->
  outcome (install popen a w) = Ret tt.
Proof.
  intros Hmi Hp.
  destruct (execute_shell_found _ _ _ _ _ _ _ _ Hp) as [Ho Hf].
  unfold install. rewrite Hmi. unfold when at 1.
  rewrite bind_log_run. cbn [outcome].
  rewrite (bind_ret_run _ _ w _ Ho). cbn [outcome].
  destruct (verbose a); cbn [Py.truthy when];
    rewrite (bind_ret_run (ret tt) _ _ tt eq_refl); cbn [outcome];
    apply outcome_log.
Qed.

(** In verbose mode the streams are not piped, and no failure of
    [make install] is noticed at all. *)
Lemma install_verbose_never_fails (a : BuildArgs) (w : World) (rc : Z)
    (out err : string) (f : FileSys) :
  make_install a = true ->
  verbose a = true ->
  popen ["make"; "install"] (default (environ w) (env a)) true
    (cwd w) (fs w) (clock w) = (Some (rc, out, err), f) ->
  outcome (install popen a w) = Ret tt.
Proof.
  intros Hmi Hv Hp.
  destruct (execute_shell_found _ _ _ _ _ _ _ _ Hp) as [Ho Hf].
  unfold install. rewrite Hmi, Hv. unfold when at 1.
  rewrite bind_log_run. cbn [outcome].
  rewrite (bind_ret_run _ _ w _ Ho). cbn [outcome Py.truthy when].
  rewrite (bind_ret_run (ret tt) _ _ tt eq_refl). cbn [outcome].
  apply outcome_log.
Qed.

End BuildLibrary.

(** * Properties of [install_packages] *)

(** The words the families of distributions are recognised by, in the
    lower-cased description. *)
Definition family_keywords : list string :=
  ["void"; "arch"; "debian"; "devuan"; "ubuntu"; "mint"; "fedora"].

(** The description matches one of the supported families. *)
Definition supported (distro : string) : bool :=
  existsb (fun k => Py.contains k (Py.lower distro)) family_keywords.

(** A command line without the [sudo] that runs it. *)
Definition strip_sudo (cmd : list string) : list string :=
  match cmd with
  | x :: rest => if String.eqb x "sudo" then rest else cmd
  | [] => []
  end.

(** What the package manager is asked for, by family and table. *)
Definition expected_invocations (t : Tables) (distro : string) : list (list string) :=
  let d := Py.lower distro in
  if Py.contains "void" d then [ ["xbps-install"; "--yes"] ++ VOID_PKGS t ]
  else if Py.contains "arch" d then [ ["pacman"; "-sy"] ++ ARCH_PKGS t ]
  else if Py.contains "debian" d
  then [ ["apt-get"; "install"; "-y"; "--force-yes"] ++ DEBIAN_PKGS t ]
  else if Py.contains "devuan" d
  then [ ["apt-get"; "install"; "-y"; "--force-yes"] ++ DEBIAN_PKGS t ]
  else if (Py.contains "ubuntu" d || Py.contains "mint" d)%bool
  then [ ["apt-get"; "install"; "-y"; "--force-yes"] ++ UBUNTU_PKGS t ]
  else if Py.contains "fedora" d
  then [ ["dnf"; "groupinstall"; "-y"; "development-tools"];
         ["dnf"; "install"; "-y"] ++ REDHAT_PKGS t ]
  else [].

Lemma unsupported_contains (distro : string) :
  supported distro = false ->
  Py.contains "void" (Py.lower distro) = false /\
  Py.contains "arch" (Py.lower distro) = false /\
  Py.contains "debian" (Py.lower distro) = false /\
  Py.contains "devuan" (Py.lower distro) = false /\
  Py.contains "ubuntu" (Py.lower distro) = false /\
  Py.contains "mint" (Py.lower distro) = false /\
  Py.contains "fedora" (Py.lower distro) = false.
Proof.
  unfold supported, family_keywords. cbn [existsb].
  intros H.
  repeat (apply orb_false_iff in H as [? H]).
  repeat split; assumption.
Qed.

Section InstallPackages.
Context (popen :
  list string -> gmap string string -> bool -> string -> FileSys -> nat ->
  option (Z * string * string) * FileSys).

(** An unsupported distribution stops [install_packages] before any
    command is spawned. *)
Lemma install_packages_unsupported (distro : string) (quiet verbose : bool)
    (w : World) :
  supported distro = false ->
  outcome (install_packages popen (Some distro) quiet verbose w) = Exit 1 /\
  cmds (events (install_packages popen (Some distro) quiet verbose w)) = [] /\
  last (events (install_packages popen (Some distro) quiet verbose w)) =
    Some (die_line "Your OS is not yet supported!  If you think you know what you are doing, you can use '-S' to continue anyways.") /\
  final (install_packages popen (Some distro) quiet verbose w) = w.
Proof.
  intros H.
  destruct (unsupported_contains distro H) as (H1 & H2 & H3 & H4 & H5 & H6 & H7).
  unfold install_packages, bind, OS.getuid, get, emit_log, logging_log,
    error_and_die, emit, sys_exit, ret.
  simpl. rewrite H1, H2, H3, H4, H5, H6, H7. simpl.
  destruct quiet; simpl;
    try destruct (level_no (loglevel w) <=? 20); simpl; repeat split.
Qed.

(** C7: a distribution description that matches none of the supported
    families (Void, Arch, Debian, Devuan, Ubuntu or Mint, Fedora) is a
    hard failure of the installation of packages: the run ends with
    [sys.exit(1)] after the error line, and no package manager has been
    started.  With the skip flag set, [install_packages] is not called at
    all: the step does nothing. *)
Theorem unsupported_distro_is_fatal_unless_skipped (c : Cfg.t) (distro : string)
    (w : World) :
  supported distro = false ->
  (forall quiet verbose,
     outcome (install_packages popen (Some distro) quiet verbose w) = Exit 1 /\
     cmds (events (install_packages popen (Some distro) quiet verbose w)) = []) /\
  (Cfg.skip_install_pkgs c = false ->
     outcome (install_dependencies popen c (Some distro) w) = Exit 1 /\
     cmds (events (install_dependencies popen c (Some distro) w)) = [] /\
     last (events (install_dependencies popen c (Some distro) w)) =
       Some (die_line "Your OS is not yet supported!  If you think you know what you are doing, you can use '-S' to continue anyways.")) /\
  (Cfg.skip_install_pkgs c = true ->
     install_dependencies popen c (Some distro) w = mkRun (Ret tt) w []).
Proof.
  intros H. split; [|split].
  - intros quiet verbose.
    destruct (install_packages_unsupported distro quiet verbose w H) as (A & B & _).
    split; assumption.
  - intros Hskip.
    destruct (install_packages_unsupported distro false (Cfg.verbose c) w H)
      as (A & B & C & _).
    unfold install_dependencies. rewrite Hskip. simpl.
    rewrite (bind_exit_run _ _ w 1 A). simpl. auto.
  - intros Hskip. unfold install_dependencies. rewrite Hskip. reflexivity.
Qed.

(** With the skip flag nothing is installed, whatever was detected. *)
Lemma install_dependencies_skipped (c : Cfg.t) (distro : option string) (w : World) :
  Cfg.skip_install_pkgs c = true ->
  install_dependencies popen c distro w = mkRun (Ret tt) w [].
Proof. intros H. unfold install_dependencies. rewrite H. reflexivity. Qed.

(** The commands of a run of [install_packages] that returns are the
    expected ones, up to [sudo]: they depend on the description and on
    the tables only. *)
Lemma install_packages_invocations (distro : string) (quiet verbose : bool)
    (w : World) (r : option string * option string) :
  outcome (install_packages popen (Some distro) quiet verbose w) = Ret r ->
  map strip_sudo (cmds (events (install_packages popen (Some distro) quiet verbose w)))
    = expected_invocations (tables w) distro.
Proof.
  unfold install_packages, expected_invocations, OS.getuid.
  rewrite (bind_ret_run _ _ w tt (outcome_emit_log _ _ _ w)), final_emit_log.
  cbn [outcome events]. rewrite cmds_app.
  rewrite (cmds_not_popen (events (emit_log _ _ _ w)))
    by (apply AllEv_emit_log; reflexivity).
  rewrite !bind_get. cbn [app].
  destruct (Py.contains "void" (Py.lower distro));
    [|destruct (Py.contains "arch" (Py.lower distro));
      [|destruct (Py.contains "debian" (Py.lower distro));
        [|destruct (Py.contains "devuan" (Py.lower distro));
          [|destruct (Py.contains "ubuntu" (Py.lower distro) ||
                      Py.contains "mint" (Py.lower distro))%bool;
            [|destruct (Py.contains "fedora" (Py.lower distro))]]]]];
    destruct (0 <? uid w); cbv zeta; intros Hret;
    match type of Hret with
    | outcome (?m w) = Ret r =>
        let H := fresh in
        eassert (H : Cmds m _) by (repeat cmds_step);
        rewrite (H w r Hret); reflexivity
    end.
Qed.

End InstallPackages.

(** C8 (as amended): for a run of [install_packages] that returns, the
    command lines given to the package manager, and with them the list of
    packages, are a function of the distribution description and of the
    module-level package tables: two runs that see the same description
    and the same tables ask for the same packages, whatever the user id,
    the file system, the verbosity and what the commands answer.  (The
    tables are not constant: [main] appends the LuaJIT packages to them
    when a TES3MP build is selected.) *)
Theorem package_list_is_function_of_distro_and_tables
    (popen1 popen2 :
       list string -> gmap string string -> bool -> string -> FileSys -> nat ->
       option (Z * string * string) * FileSys)
    (distro : string) (q1 v1 q2 v2 : bool) (w1 w2 : World)
    (r1 r2 : option string * option string) :
  tables w1 = tables w2 ->
  outcome (install_packages popen1 (Some distro) q1 v1 w1) = Ret r1 ->
  outcome (install_packages popen2 (Some distro) q2 v2 w2) = Ret r2 ->
  map strip_sudo (cmds (events (install_packages popen1 (Some distro) q1 v1 w1))) =
  map strip_sudo (cmds (events (install_packages popen2 (Some distro) q2 v2 w2))).
Proof.
  intros Ht H1 H2.
  rewrite (install_packages_invocations popen1 distro q1 v1 w1 r1 H1).
  rewrite (install_packages_invocations popen2 distro q2 v2 w2 r2 H2).
  rewrite Ht. reflexivity.
Qed.

(** * Properties of the orchestrator *)

(** ** What a computation returns *)

Definition Returns {A} (m : M A) (Q : A -> Prop) : Prop :=
  forall w a, outcome (m w) = Ret a -> Q a.

Lemma Returns_ret {A} (a : A) (Q : A -> Prop) : Q a -> Returns (ret a) Q.
Proof. intros H w x Hx. inversion Hx; subst. exact H. Qed.

Lemma Returns_any {A} (m : M A) : Returns m (fun _ => True).
Proof. intros w a _. exact I. Qed.

Lemma Returns_bind {A B} (m : M A) (k : A -> M B) (P : A -> Prop) (Q : B -> Prop) :
  Returns m P -> (forall a, P a -> Returns (k a) Q) -> Returns (bind m k) Q.
Proof.
  intros Hm Hk w b Hb.
  destruct (bind_returns m k w b Hb) as (a & Ha & Hka).
  exact (Hk a (Hm w a Ha) _ b Hka).
Qed.

Lemma Returns_error_and_die {A} (msg : string) (Q : A -> Prop) :
  Returns (error_and_die msg) Q.
Proof. intros w a H. discriminate H. Qed.

Lemma Returns_if {A} (c : bool) (m1 m2 : M A) (Q : A -> Prop) :
  Returns m1 Q -> Returns m2 Q -> Returns (if c then m1 else m2) Q.
Proof. destruct c; auto. Qed.

Lemma Returns_on_flag (flag : bool) (update : Cfg.t -> Cfg.t) (msg : string)
    (c : Cfg.t) (Q : Cfg.t -> Prop) :
  Q c -> Q (update c) -> Returns (on_flag flag update msg c) Q.
Proof.
  intros Hc Hu. unfold on_flag. apply Returns_if.
  - eapply Returns_bind; [apply Returns_any | intros _ _].
    apply Returns_ret, Hu.
  - apply Returns_ret, Hc.
Qed.

Lemma Returns_on_flag_quiet (flag : bool) (update : Cfg.t -> Cfg.t)
    (c : Cfg.t) (Q : Cfg.t -> Prop) :
  Q c -> Q (update c) -> Returns (on_flag_quiet flag update c) Q.
Proof.
  intros Hc Hu. unfold on_flag_quiet. apply Returns_if; apply Returns_ret; assumption.
Qed.


(** ** Computations that always return *)

Definition Total {A} (m : M A) : Prop := forall w, exists a, outcome (m w) = Ret a.

Lemma Total_ret {A} (a : A) : Total (ret a).
Proof. intros w. exists a. reflexivity. Qed.

Lemma Total_get {A} (f : World -> A) : Total (get f).
Proof. intros w. exists (f w). reflexivity. Qed.

Lemma Total_modify (f : World -> World) : Total (modify f).
Proof. intros w. exists tt. reflexivity. Qed.

Lemma Total_log (s : string) : Total (log s).
Proof. intros w. exists tt. apply outcome_log. Qed.

Lemma Total_bind {A B} (m : M A) (k : A -> M B) :
  Total m -> (forall a, Total (k a)) -> Total (bind m k).
Proof.
  intros Hm Hk w. destruct (Hm w) as [a Ha].
  destruct (Hk a (final (m w))) as [b Hb].
  exists b. rewrite (bind_ret_run m k w a Ha). exact Hb.
Qed.

Lemma Total_if {A} (c : bool) (m1 m2 : M A) :
  Total m1 -> Total m2 -> Total (if c then m1 else m2).
Proof. destruct c; auto. Qed.

Ltac total_step :=
  first
    [ apply Total_ret | apply Total_get | apply Total_modify | apply Total_log
    | apply Total_if
    | apply Total_bind; [|intros ?] ].

Section Orchestrator.
Context (popen :
  list string -> gmap string string -> bool -> string -> FileSys -> nat ->
  option (Z * string * string) * FileSys).
Context (system : string -> string -> FileSys -> nat -> Z * FileSys).
Context (normpath : string -> string).
Context (cpu_count : Z).



(** Unless a patch is named, [process_flags] returns. *)
Lemma process_flags_returns (parsed : Parsed.t) :
  Py.truthy (Parsed.patch parsed) = false ->
  Total (process_flags normpath cpu_count parsed).
Proof.
  intros Hp. unfold process_flags. rewrite Hp.
  unfold on_flag, on_flag_quiet, OS.getenv.
  repeat total_step.
Qed.





End Orchestrator.

(** * Properties of [make_portable_package] *)

(** A bind that returns: both halves return and the events add up. *)
Lemma bind_ret_inv {A B} (m : M A) (k : A -> M B) (w : World) (b : B) :
  outcome (bind m k w) = Ret b ->
  exists a,
    outcome (m w) = Ret a /\
    outcome (k a (final (m w))) = Ret b /\
    events (bind m k w) = events (m w) ++ events (k a (final (m w))).
Proof.
  intros Hb.
  destruct (bind_returns m k w b Hb) as (a & Ha & Hka).
  exists a. split; [exact Ha|]. split; [exact Hka|].
  rewrite (bind_ret_run m k w a Ha). reflexivity.
Qed.

Lemma startswith_append (a b : string) :
  Py.startswith a "/" = true -> Py.startswith (a +:+ b) "/" = true.
Proof.
  destruct a as [|ch a]; [discriminate|].
  change (String ch a +:+ b) with (String ch (a +:+ b)).
  unfold Py.startswith. cbn [String.prefix]. intros H.
  destruct (ascii_dec "/" ch); [|discriminate H].
  destruct (a +:+ b); reflexivity.
Qed.

(** Joining onto an absolute path gives an absolute path. *)
Lemma join2_absolute (a b : string) :
  Py.startswith a "/" = true -> Py.startswith (Path.join2 a b) "/" = true.
Proof.
  intros Ha. unfold Path.join2.
  destruct (Py.startswith b "/") eqn:Hb; [exact Hb|].
  destruct (String.eqb a "" || Py.endswith_sep a)%bool;
    apply startswith_append, Ha.
Qed.

(** An absolute path means the same from every working directory. *)
Lemma resolve_absolute (w : World) (p : string) :
  Py.startswith p "/" = true -> OS.resolve w p = p.
Proof. intros H. unfold OS.resolve, Path.join2. rewrite H. reflexivity. Qed.

Section Package.
Context (mkdtemp_name : string -> FileSys -> nat -> string).

(** The guard of lines 293-297 on an archive that is there. *)
Lemma guard_archive_refuses (pkg_path : string) (w : World) :
  OS.lookup w pkg_path <> None ->
  guard_archive pkg_path false w =
    mkRun (Exit 1) w [die_line ("Path exists: " +:+ pkg_path)].
Proof.
  intros H. unfold guard_archive, OS.exists_. rewrite bind_get.
  destruct (OS.lookup w pkg_path); [reflexivity | contradiction].
Qed.

Lemma guard_archive_removes (pkg_path : string) (w : World) :
  OS.lookup w pkg_path = Some File ->
  outcome (guard_archive pkg_path true w) = Ret tt /\
  OS.lookup (final (guard_archive pkg_path true w)) pkg_path = None /\
  exists logged,
    Forall (fun e => external e = false) logged /\
    events (guard_archive pkg_path true w) =
      logged ++ [EvRemove (OS.resolve w pkg_path)].
Proof.
  intros H. unfold guard_archive, OS.exists_. rewrite bind_get, H.
  cbn [andb negb when]. rewrite bind_log_run. cbn [outcome final events].
  unfold OS.remove. unfold OS.lookup in H. rewrite H. cbn [outcome final events].
  split; [reflexivity|]. split.
  - unfold OS.lookup, OS.resolve, OS.set_node. simpl.
    rewrite String.eqb_refl. reflexivity.
  - eexists. split; [|reflexivity].
    rewrite events_log. destruct (_ <=? _); repeat constructor.
Qed.

Lemma tarfile_open_events (path : string) (w : World) (tar : string) :
  outcome (tarfile_open path w) = Ret tar ->
  events (tarfile_open path w) = [EvTarOpen (Path.join2 (cwd w) path)].
Proof.
  unfold tarfile_open, OS.resolve.
  destruct (fs w (Path.join2 (cwd w) path)) as [[|]|];
    try discriminate;
    destruct (fs w (Path.dirname (Path.join2 (cwd w) path))) as [[|]|];
    simpl; try discriminate; reflexivity.
Qed.

(** The guard of [make_portable_package] in a run.  If
    [<out_dir>/<pkgname>.tar.bz2] is there and [force] is false, the run
    ends with [sys.exit(1)] after the error line and has changed nothing.
    If it is there as a file and [force] is true, the archive is removed
    first; a run that returns has then opened an archive for writing, and
    that is the archive removed when the output directory is given as an
    absolute path.  For a relative output directory the path is resolved
    again, from the temporary directory of line 506. *)
Lemma archive_guard_in_a_run (pkgname : string)
    (distro : option string) (out_dir : string) (serveronly : bool) (w : World) :
  let pkg_path := Path.join out_dir [pkgname +:+ ".tar.bz2"] in
  let run force :=
    make_portable_package mkdtemp_name pkgname distro force (Some out_dir)
      serveronly w in
  OS.lookup w out_dir = Some Dir ->
  OS.lookup w pkg_path <> None ->
  (outcome (run false) = Exit 1 /\
   final (run false) = w /\
   events (run false) = [die_line ("Path exists: " +:+ pkg_path)]) /\
  (OS.lookup w pkg_path = Some File ->
   (exists logged rest,
      Forall (fun e => external e = false) logged /\
      events (run true) = logged ++ EvRemove (OS.resolve w pkg_path) :: rest) /\
   (outcome (run true) = Ret true ->
    exists l1 l2 l3 tmp,
      events (run true) =
        l1 ++ EvRemove (OS.resolve w pkg_path)
           :: l2 ++ EvTarOpen (Path.join2 tmp pkg_path) :: l3 /\
      (Py.startswith out_dir "/" = true ->
       OS.resolve w pkg_path = pkg_path /\ Path.join2 tmp pkg_path = pkg_path))).
Proof.
  intros pkg_path run Hdir Hthere.
  assert (Hhead : forall force,
            run force =
              bind (guard_archive pkg_path force)
                (fun _ =>
                   bind (log ("Creating a portable package: " +:+ pkg_path))
                     (fun _ =>
                        bind (mkdtemp mkdtemp_name pkgname)
                          (fun _tmpdir =>
                             let pkg_dir := Path.join _tmpdir [pkgname] in
                             let pkg_libs := Path.join pkg_dir ["lib"] in
                             bind (stage_package pkgname distro serveronly pkg_dir pkg_libs)
                               (fun _ =>
                                  bind OS.getcwd
                                    (fun _prev =>
                                       bind (OS.chdir _tmpdir)
                                         (fun _ =>
                                            bind (log ("Creating package now: " +:+ pkg_path))
                                              (fun _ =>
                                                 bind (tarfile_open pkg_path)
                                                   (fun tar =>
                                                      bind (tar_add tar pkgname)
                                                        (fun _ =>
                                                           bind (OS.chdir _prev)
                                                             (fun _ =>
                                                                bind (log ("Removing: " +:+ _tmpdir))
                                                                  (fun _ =>
                                                                     bind (OS.rmtree _tmpdir)
                                                                       (fun _ => ret true)))))))))))) w).
  { intros force. unfold run, make_portable_package, OS.isdir.
    rewrite bind_get, Hdir. cbn [negb when]. rewrite bind_ret. reflexivity. }
  split.
  - rewrite Hhead.
    rewrite (bind_exit_run _ _ w 1);
      rewrite (guard_archive_refuses pkg_path w Hthere); auto.
  - intros Hfile.
    destruct (guard_archive_removes pkg_path w Hfile) as (Hg & _ & logged & Hlog & Hev).
    split.
    + rewrite Hhead.
      destruct (bind_events_prefix (guard_archive pkg_path true)
                  (fun _ =>
                     bind (log ("Creating a portable package: " +:+ pkg_path))
                       (fun _ =>
                          bind (mkdtemp mkdtemp_name pkgname)
                            (fun _tmpdir =>
                               let pkg_dir := Path.join _tmpdir [pkgname] in
                               let pkg_libs := Path.join pkg_dir ["lib"] in
                               bind (stage_package pkgname distro serveronly pkg_dir pkg_libs)
                                 (fun _ =>
                                    bind OS.getcwd
                                      (fun _prev =>
                                         bind (OS.chdir _tmpdir)
                                           (fun _ =>
                                              bind (log ("Creating package now: " +:+ pkg_path))
                                                (fun _ =>
                                                   bind (tarfile_open pkg_path)
                                                     (fun tar =>
                                                        bind (tar_add tar pkgname)
                                                          (fun _ =>
                                                             bind (OS.chdir _prev)
                                                               (fun _ =>
                                                                  bind (log ("Removing: " +:+ _tmpdir))
                                                                    (fun _ =>
                                                                       bind (OS.rmtree _tmpdir)
                                                                         (fun _ => ret true)))))))))))) w)
        as [rest Hrest].
      exists logged, rest. split; [exact Hlog|].
      rewrite Hrest, Hev, <- app_assoc. reflexivity.
    + rewrite Hhead. intros Hret.
      apply bind_ret_inv in Hret as ([] & _ & Hret & ->).
      apply bind_ret_inv in Hret as ([] & _ & Hret & ->).
      apply bind_ret_inv in Hret as (tmpdir & _ & Hret & ->).
      cbv zeta in Hret |- *.
      apply bind_ret_inv in Hret as ([] & _ & Hret & ->).
      apply bind_ret_inv in Hret as (prev & _ & Hret & ->).
      apply bind_ret_inv in Hret as ([] & _ & Hret & ->).
      apply bind_ret_inv in Hret as ([] & _ & Hret & ->).
      apply bind_ret_inv in Hret as (tar & Htar & Hret & ->).
      pose proof (tarfile_open_events _ _ _ Htar) as Hopen.
      match type of Htar with
      | outcome (tarfile_open _ ?w') = _ => set (wt := w') in *
      end.
      rewrite Hopen, Hev.
      match goal with
      | |- exists l1 l2 l3 tmp,
             (?lg ++ [_]) ++ ?a1 ++ ?a2 ++ ?a3 ++ ?a4 ++ ?a5 ++ ?a6 ++ [_] ++ ?r = _ /\ _ =>
          exists lg, (a1 ++ a2 ++ a3 ++ a4 ++ a5 ++ a6), r, (cwd wt)
      end.
      split.
      * rewrite <- !app_assoc. reflexivity.
      * intros Habs.
        assert (Hp : Py.startswith pkg_path "/" = true)
          by (apply join2_absolute, Habs).
        split; [apply resolve_absolute, Hp|].
        unfold Path.join2. rewrite Hp. reflexivity.
Qed.

End Package.

(** * More on [build_library] *)

(** ** Runs of the primitives, as equations *)

Lemma bind_run_ret {A B} (m : M A) (k : A -> M B) (w w1 : World) (a : A)
    (e1 : list Event) :
  m w = mkRun (Ret a) w1 e1 ->
  bind m k w = mkRun (outcome (k a w1)) (final (k a w1)) (e1 ++ events (k a w1)).
Proof. intros H. unfold bind. rewrite H. destruct (k a w1); reflexivity. Qed.

Lemma bind_run_exit {A B} (m : M A) (k : A -> M B) (w w1 : World) (c : Z)
    (e1 : list Event) :
  m w = mkRun (Exit c) w1 e1 -> bind m k w = mkRun (Exit c) w1 e1.
Proof. intros H. unfold bind. rewrite H. reflexivity. Qed.

Lemma bind_run_raise {A B} (m : M A) (k : A -> M B) (w w1 : World) (x : Py.exn)
    (e1 : list Event) :
  m w = mkRun (Raise x) w1 e1 -> bind m k w = mkRun (Raise x) w1 e1.
Proof. intros H. unfold bind. rewrite H. reflexivity. Qed.

Lemma log_run (s : string) (w : World) :
  log s w = mkRun (Ret tt) w (events (log s w)).
Proof.
  unfold log, emit_log, logging_log, emit, ret. simpl.
  destruct (level_no (loglevel w) <=? 20); reflexivity.
Qed.


Lemma chdir_run (p : string) (w : World) :
  OS.lookup w p = Some Dir ->
  OS.chdir p w = mkRun (Ret tt) (with_cwd (OS.resolve w p) w) [EvChdir (OS.resolve w p)].
Proof. intros H. unfold OS.chdir. rewrite H. reflexivity. Qed.

Lemma events_log_quiet (s : string) (w : World) :
  Forall (fun e => external e = false) (events (log s w)).
Proof. rewrite events_log. destruct (_ <=? _); repeat constructor. Qed.


(** ** Computations that stay in the working directory *)

Definition KeepsCwd {A} (m : M A) : Prop := forall w, cwd (final (m w)) = cwd w.

Lemma KeepsCwd_ret {A} (a : A) : KeepsCwd (ret a).
Proof. intros w. reflexivity. Qed.

Lemma KeepsCwd_raise {A} (x : Py.exn) : KeepsCwd (@raise A x).
Proof. intros w. reflexivity. Qed.

Lemma KeepsCwd_get {A} (f : World -> A) : KeepsCwd (get f).
Proof. intros w. reflexivity. Qed.

Lemma KeepsCwd_bind {A B} (m : M A) (k : A -> M B) :
  KeepsCwd m -> (forall a, KeepsCwd (k a)) -> KeepsCwd (bind m k).
Proof.
  intros Hm Hk w.
  destruct (outcome (m w)) as [a|c|x] eqn:E;
    [ rewrite (bind_ret_run m k w a E)
    | rewrite (bind_exit_run m k w c E)
    | rewrite (bind_raise_run m k w x E) ]; cbn [final].
  - rewrite Hk. apply Hm.
  - apply Hm.
  - apply Hm.
Qed.

Lemma KeepsCwd_when (c : bool) (m : M unit) : KeepsCwd m -> KeepsCwd (when c m).
Proof. intros H. destruct c; [exact H | apply KeepsCwd_ret]. Qed.

Lemma KeepsCwd_emit_log (msg : LogMsg) (lvl : Level) (quiet : bool) :
  KeepsCwd (emit_log msg lvl quiet).
Proof. intros w. rewrite final_emit_log. reflexivity. Qed.

Lemma KeepsCwd_log (s : string) : KeepsCwd (log s).
Proof. apply KeepsCwd_emit_log. Qed.

Lemma KeepsCwd_error_and_die {A} (msg : string) : KeepsCwd (@error_and_die A msg).
Proof. intros w. reflexivity. Qed.

Lemma KeepsCwd_execute_shell popen (cmd : list string)
    (env : option (gmap string string)) (v : bool) :
  KeepsCwd (execute_shell popen cmd env v).
Proof.
  unfold execute_shell.
  apply KeepsCwd_bind; [apply KeepsCwd_emit_log | intros _].
  apply KeepsCwd_bind; [|intros [[rc out] err]; apply KeepsCwd_ret].
  intros w. unfold Popen.
  destruct (popen cmd _ v (cwd w) (fs w) (clock w)) as [[r|] f]; reflexivity.
Qed.

Ltac keeps_cwd :=
  repeat first
    [ apply KeepsCwd_ret | apply KeepsCwd_raise | apply KeepsCwd_get
    | apply KeepsCwd_when | apply KeepsCwd_log | apply KeepsCwd_emit_log
    | apply KeepsCwd_error_and_die | apply KeepsCwd_execute_shell
    | apply KeepsCwd_bind; [|intros ?]
    | match goal with
      | |- KeepsCwd (if ?c then _ else _) => destruct c
      | |- KeepsCwd (match ?x with _ => _ end) => destruct x
      end ].

Section MoreBuildLibrary.
Context (popen :
  list string -> gmap string string -> bool -> string -> FileSys -> nat ->
  option (Z * string * string) * FileSys).
Context (system : string -> string -> FileSys -> nat -> Z * FileSys).


(** A command that is not installed: [Popen] raises, and nothing
    catches it. *)
Lemma execute_shell_not_found (cmd : list string) (env : option (gmap string string))
    (v : bool) (w : World) (f : FileSys) :
  popen cmd (default (environ w) env) v (cwd w) (fs w) (clock w) = (None, f) ->
  outcome (execute_shell popen cmd env v w) = Raise Py.FileNotFoundError /\
  fs (final (execute_shell popen cmd env v w)) = fs w.
Proof.
  intros H. unfold execute_shell, bind, Popen, emit_log, logging_log, emit, ret.
  cbn [negb]. destruct (level_no (loglevel w) <=? level_no DEBUG);
    cbn [outcome final events cwd fs clock environ]; rewrite H;
    split; reflexivity.
Qed.



(** ** A patch that does not apply *)

(** The shell command of line 178 ended with a positive status. *)
Definition failed_system (e : Event) : bool :=
  match e with
  | EvSystem _ code => 0 <? code
  | _ => false
  end.

Definition nosystem (e : Event) : Prop := failed_system e = false.

(** The first event of a kind lies behind every part of the run that has
    none of the kind, and that part returned. *)
Lemma bind_split_after {A B} (P : Event -> bool) (m : M A) (k : A -> M B)
    (w : World) (pre post : list Event) (e : Event) :
  AllEv (fun x => P x = false) m ->
  events (bind m k w) = pre ++ e :: post ->
  P e = true ->
  exists a pre',
    outcome (m w) = Ret a /\
    pre = events (m w) ++ pre' /\
    events (k a (final (m w))) = pre' ++ e :: post.
Proof.
  intros Hm Heq He.
  destruct (outcome (m w)) as [a|c|x] eqn:Hout;
    [ rewrite (bind_ret_run m k w a Hout) in Heq
    | rewrite (bind_exit_run m k w c Hout) in Heq
    | rewrite (bind_raise_run m k w x Hout) in Heq ]; simpl in Heq.
  - destruct (split_after P _ _ _ _ _ (Hm w) Heq He) as (pre' & H1 & H2).
    exists a, pre'. auto.
  - exfalso. specialize (Hm w). rewrite Heq in Hm.
    apply Forall_app in Hm as [_ Hm]. inversion Hm; subst. congruence.
  - exfalso. specialize (Hm w). rewrite Heq in Hm.
    apply Forall_app in Hm as [_ Hm]. inversion Hm; subst. congruence.
Qed.

Lemma clone_source_nosystem (a : BuildArgs) : AllEv nosystem (clone_source popen a).
Proof. unfold clone_source. allev; reflexivity. Qed.

Lemma remove_previous_install_nosystem (a : BuildArgs) :
  AllEv nosystem (remove_previous_install a).
Proof. unfold remove_previous_install. allev; reflexivity. Qed.

Lemma _git_clean_src_nosystem (a : BuildArgs) : AllEv nosystem (_git_clean_src popen a).
Proof. unfold _git_clean_src. allev; reflexivity. Qed.

Lemma after_patch_nosystem (a : BuildArgs) :
  AllEv nosystem
    (bind (OS.chdir (Path.join (src_dir a) [dest a]))
       (fun _ => bind (configure popen a)
          (fun _ => bind (compile popen a) (fun _ => install popen a)))).
Proof.
  unfold configure, compile, install. cbv zeta.
  allev; try apply AllEv_logging_log; reflexivity.
Qed.

(** The patch step on its own (lines 176-180). *)
Lemma apply_patch_run (a : BuildArgs) (w : World) :
  Py.truthy (patch a) = true ->
  let cmd := "patch -p1 < " +:+ default "" (patch a) in
  let code := fst (system cmd (cwd w) (fs w) (clock w)) in
  exists logged,
    Forall (fun e => external e = false) logged /\
    events (apply_patch system a w) =
      logged ++ EvSystem cmd code
        :: (if 0 <? code
            then [die_line "There was a problem applying the patch!"] else []) /\
    outcome (apply_patch system a w) = if 0 <? code then Exit 1 else Ret tt.
Proof.
  intros Hp. cbv zeta. unfold apply_patch. rewrite Hp. cbn [when].
  rewrite bind_log_run. cbn [outcome final events].
  unfold bind, os_system.
  destruct (system _ (cwd w) (fs w) (clock w)) as [code f]. cbn [fst].
  destruct (0 <? code); cbn [when outcome final events];
    (eexists; split; [apply events_log_quiet|]); split; reflexivity.
Qed.

Lemma apply_patch_skipped (a : BuildArgs) (w : World) :
  Py.truthy (patch a) = false -> apply_patch system a w = mkRun (Ret tt) w [].
Proof. intros Hp. unfold apply_patch. rewrite Hp. reflexivity. Qed.

(** X2: a patch that does not apply ends the run before anything is
    configured.  Whenever the [patch -p1 < file] command line of a run of
    [build_library] returns a positive status, the run ends with
    [sys.exit(1)]; the only thing that follows the command is the error
    line, and the whole run holds no configure and no compile step. *)
Theorem failed_patch_is_fatal (a : BuildArgs) (w : World)
    (pre post : list Event) (e : Event) :
  events (build_library popen system a w) = pre ++ e :: post ->
  failed_system e = true ->
  outcome (build_library popen system a w) = Exit 1 /\
  post = [die_line "There was a problem applying the patch!"] /\
  Forall (fun x => build_step x = false) (events (build_library popen system a w)).
Proof.
  rewrite build_library_branch.
  destruct (_ && _)%bool.
  { intros Heq He. exfalso.
    assert (H : Forall nosystem (events (log (libname a +:+ " found!") w)))
      by (apply AllEv_log; reflexivity).
    rewrite Heq in H. apply Forall_app in H as [_ H]. inversion H; subst.
    unfold nosystem in *. congruence. }
  intros Heq He.
  assert (Hall : forall evs,
            events (build_now popen system a w) = evs -> evs = pre ++ e :: post ->
            outcome (build_now popen system a w) = Exit 1 /\
            post = [die_line "There was a problem applying the patch!"] /\
            Forall (fun x => build_step x = false) evs).
  2:{ exact (Hall _ eq_refl Heq). }
  intros evs Hevs Hsplit. subst evs.
  unfold build_now in *.
  rewrite Hsplit.
  pose proof Hsplit as Heq0.
  apply (bind_split_after failed_system) in Heq0 as ([] & p0 & Ho0 & Hp0 & Heq1);
    [|apply AllEv_log; reflexivity|exact He].
  rewrite (bind_ret_run _ _ w tt Ho0). rewrite final_log in *. cbn [outcome].
  pose proof Heq1 as Heq1'.
  apply (bind_split_after failed_system) in Heq1' as ([] & p1 & Ho1 & Hp1 & Heq2);
    [|apply clone_source_nosystem|exact He].
  rewrite (bind_ret_run _ _ w tt Ho1). cbn [outcome].
  pose proof Heq2 as Heq2'.
  apply (bind_split_after failed_system) in Heq2' as ([] & p2 & Ho2 & Hp2 & Heq3);
    [|apply remove_previous_install_nosystem|exact He].
  rewrite (bind_ret_run _ _ _ tt Ho2). cbn [outcome].
  pose proof Heq3 as Heq3'.
  apply (bind_split_after failed_system) in Heq3' as ([] & p3 & Ho3 & Hp3 & Heq4);
    [|apply _git_clean_src_nosystem|exact He].
  rewrite (bind_ret_run _ _ _ tt Ho3). cbn [outcome].
  match type of Heq4 with
  | events (bind (apply_patch system a) _ ?x) = _ => set (w4 := x) in *
  end.
  destruct (Py.truthy (patch a)) eqn:Hp.
  - destruct (apply_patch_run a w4 Hp) as (logged & Hlog & Hev & Hout).
    cbv zeta in Hev, Hout.
    set (code := fst (system ("patch -p1 < " +:+ default "" (patch a))
                        (cwd w4) (fs w4) (clock w4))) in *.
    destruct (0 <? code) eqn:Hcode.
    + rewrite (bind_exit_run _ _ w4 1 Hout) in Heq4 |- *. cbn [outcome events] in *.
      rewrite Hev in Heq4.
      assert (Hpost : p3 = logged /\ post =
                [die_line "There was a problem applying the patch!"]).
      { clear - Heq4 Hlog He.
        revert p3 Heq4. induction Hlog as [|x l Hx _ IH]; intros p3 Heq4.
        - destruct p3 as [|y p3]; simpl in Heq4.
          + inversion Heq4; subst. auto.
          + inversion Heq4; subst. destruct p3; inversion H1; subst.
            * discriminate He.
            * destruct p3; discriminate.
        - destruct p3 as [|y p3]; simpl in Heq4; inversion Heq4; subst.
          + destruct e; simpl in *; discriminate.
          + destruct (IH p3 H1) as [-> ->]. auto. }
      destruct Hpost as [-> ->].
      split; [reflexivity|]. split; [reflexivity|].
      subst pre p0 p1 p2.
      apply Forall_app_2.
      * apply Forall_app_2; [apply log_nostep|].
        apply Forall_app_2; [apply clone_source_nostep|].
        apply Forall_app_2; [apply remove_previous_install_nostep|].
        apply Forall_app_2; [apply _git_clean_src_nostep|].
        eapply Forall_impl; [exact Hlog|]. intros [] ?; simpl in *; congruence.
      * assert (Hnb : build_step e = false)
          by (destruct e; simpl in *; congruence).
        repeat constructor; assumption.
    + exfalso.
      rewrite (bind_ret_run _ _ w4 tt Hout) in Heq4. cbn [events] in Heq4.
      rewrite Hev in Heq4.
      assert (Hfront : Forall (fun x => failed_system x = false)
                         (logged ++ [EvSystem ("patch -p1 < " +:+ default "" (patch a)) code])).
      { apply Forall_app_2.
        - eapply Forall_impl; [exact Hlog|]. intros [] ?; simpl in *; congruence.
        - repeat constructor. simpl. exact Hcode. }
      change (logged ++ EvSystem ("patch -p1 < " +:+ default "" (patch a)) code :: [])
        with (logged ++ [EvSystem ("patch -p1 < " +:+ default "" (patch a)) code])
        in Heq4.
      destruct (split_after failed_system _ _ _ _ _ Hfront Heq4 He)
        as (pre' & _ & Hrest).
      pose proof (after_patch_nosystem a (final (apply_patch system a w4))) as Hno.
      rewrite Hrest in Hno. apply Forall_app in Hno as [_ Hno].
      inversion Hno; subst. unfold nosystem in *. congruence.
  - exfalso.
    rewrite (bind_run_ret _ _ _ _ _ _ (apply_patch_skipped a w4 Hp)) in Heq4.
    cbn [events app] in Heq4.
    pose proof (after_patch_nosystem a w4) as Hno.
    rewrite Heq4 in Hno. apply Forall_app in Hno as [_ Hno].
    inversion Hno; subst. unfold nosystem in *. congruence.
Qed.

(** ** What every command of a build is given *)

Definition is_git (args : list string) : bool :=
  match args with
  | prog :: _ => String.eqb prog "git"
  | [] => false
  end.

(** How [build_library a] spawns: with the verbosity asked for; git
    inherits the environment of the process, everything else gets
    [env]. *)
Definition spawned_as (a : BuildArgs) (e : Event) : Prop :=
  match e with
  | EvPopen args env' v _ =>
      v = verbose a /\ env' = (if is_git args then None else env a)
  | _ => True
  end.

(** X3: the build environment reaches cmake, make and make install, and
    never git.  Every program a run of [build_library] starts through
    [execute_shell] is git, run in the inherited environment, or [cmake],
    [make -jN] or [make install], run in [env]; all of them are run with
    the verbosity that was asked for.  (The patch goes through
    [os.system], in the environment of the process.) *)
Theorem build_library_spawns_in_env (a : BuildArgs) (w : World) :
  Forall (fun e =>
            spawned_as a e /\
            match e with
            | EvPopen args _ _ _ =>
                is_git args = true \/ args = build_cmd a \/ args = make_cmd a
                \/ args = ["make"; "install"]
            | _ => True
            end)
    (events (build_library popen system a w)).
Proof.
  rewrite build_library_branch.
  destruct (_ && _)%bool.
  - apply AllEv_log. intros. split; exact I.
  - revert w. change (AllEv (fun e =>
            spawned_as a e /\
            match e with
            | EvPopen args _ _ _ =>
                is_git args = true \/ args = build_cmd a \/ args = make_cmd a
                \/ args = ["make"; "install"]
            | _ => True
            end) (build_now popen system a)).
    unfold build_now, clone_source, remove_previous_install, _git_clean_src,
      apply_patch, configure, compile, install.
    cbv zeta.
    allev; try apply AllEv_logging_log;
      try (split; exact I);
      try (split; [split; reflexivity | left; reflexivity]).
    + split; [split; [reflexivity|] | right; left; reflexivity].
      unfold build_cmd. reflexivity.
    + split; [split; [reflexivity|] | right; right; left; reflexivity].
      unfold make_cmd. reflexivity.
    + split; [split; reflexivity | right; right; right; reflexivity].
Qed.

End MoreBuildLibrary.

(** * More on the detection of the distribution and on packages *)

(** The Fedora branch of [install_packages] is the one taken. *)
Definition fedora_branch (distro : string) : bool :=
  let d := Py.lower distro in
  (negb (Py.contains "void" d) && negb (Py.contains "arch" d)
   && negb (Py.contains "debian" d) && negb (Py.contains "devuan" d)
   && negb (Py.contains "ubuntu" d || Py.contains "mint" d)
   && Py.contains "fedora" d)%bool.

(** [try: m] when [m] returns. *)
Lemma try_except_run_ret {A} (m h : M A) (handles : Py.exn -> bool) (w w1 : World)
    (a : A) (e1 : list Event) :
  m w = mkRun (Ret a) w1 e1 -> try_except m handles h w = mkRun (Ret a) w1 e1.
Proof. intros H. unfold try_except. rewrite H. reflexivity. Qed.


Lemma try_except_run_caught {A} (m h : M A) (handles : Py.exn -> bool) (w w1 : World)
    (x : Py.exn) (e1 : list Event) :
  m w = mkRun (Raise x) w1 e1 -> handles x = true ->
  try_except m handles h w =
    mkRun (outcome (h w1)) (final (h w1)) (e1 ++ events (h w1)).
Proof.
  intros H Hx. unfold try_except. rewrite H, Hx. destruct (h w1); reflexivity.
Qed.

Section MoreInstall.
Context (popen :
  list string -> gmap string string -> bool -> string -> FileSys -> nat ->
  option (Z * string * string) * FileSys).
Context (system : string -> string -> FileSys -> nat -> Z * FileSys).

(** X4: who gets [sudo].  In a run of [install_packages] that returns,
    the package manager is run through [sudo] exactly when the user is
    not root, for every family but Fedora; on Fedora it is the other way
    round: [dnf] is run directly by a user who is not root and through
    [sudo] by root. *)
Theorem install_packages_sudo (distro : string) (quiet verbose : bool)
    (w : World) (r : option string * option string) :
  outcome (install_packages popen (Some distro) quiet verbose w) = Ret r ->
  cmds (events (install_packages popen (Some distro) quiet verbose w)) =
    map (fun c => if xorb (0 <? uid w) (fedora_branch distro) then "sudo" :: c else c)
      (expected_invocations (tables w) distro).
Proof.
  unfold install_packages, expected_invocations, fedora_branch, OS.getuid.
  rewrite (bind_ret_run _ _ w tt (outcome_emit_log _ _ _ w)), final_emit_log.
  cbn [outcome events]. rewrite cmds_app.
  rewrite (cmds_not_popen (events (emit_log _ _ _ w)))
    by (apply AllEv_emit_log; reflexivity).
  rewrite !bind_get. cbn [app]. cbv zeta.
  destruct (Py.contains "void" (Py.lower distro));
    [|destruct (Py.contains "arch" (Py.lower distro));
      [|destruct (Py.contains "debian" (Py.lower distro));
        [|destruct (Py.contains "devuan" (Py.lower distro));
          [|destruct (Py.contains "ubuntu" (Py.lower distro) ||
                      Py.contains "mint" (Py.lower distro))%bool;
            [|destruct (Py.contains "fedora" (Py.lower distro))]]]]];
    destruct (0 <? uid w); cbv zeta; intros Hret;
    match type of Hret with
    | outcome (?m w) = Ret r =>
        let H := fresh in
        eassert (H : Cmds m _) by (repeat cmds_step);
        rewrite (H w r Hret); reflexivity
    end.
Qed.

Lemma detect_distro_not_found (c : Cfg.t) (w : World) (f : FileSys) :
  popen ["lsb_release"; "-d"] (environ w) false (cwd w) (fs w) (clock w) = (None, f) ->
  outcome (detect_distro popen c w) =
    (if Cfg.skip_install_pkgs c then Ret None else Exit 1) /\
  fs (final (detect_distro popen c w)) = fs w /\
  cmds (events (detect_distro popen c w)) = [["lsb_release"; "-d"]].
Proof.
  intros Hp. unfold detect_distro.
  assert (Hget : exists dbg,
            Forall (fun e => is_popen e = false) dbg /\
            (bind (get_distro popen)
               (fun '(out, err) =>
                  bind (when (Py.truthy err) (error_and_die (default "" err)))
                    (fun _ => ret (Some out)))) w =
            mkRun (Raise Py.FileNotFoundError) (tick (fs w) w)
              (dbg ++ [EvPopen ["lsb_release"; "-d"] None false None])).
  { unfold get_distro, execute_shell, bind, Popen, emit_log, logging_log, emit, ret.
    cbn [negb default]. destruct (level_no (loglevel w) <=? level_no DEBUG);
      cbn [outcome final events cwd fs clock environ]; rewrite Hp.
    - eexists. split; [|reflexivity]. repeat constructor.
    - exists []. split; [constructor | reflexivity]. }
  destruct Hget as (dbg & Hdbg & Hget).
  destruct (Cfg.skip_install_pkgs c).
  - rewrite (bind_run_ret _ _ w (tick (fs w) w) None
               ((dbg ++ [EvPopen ["lsb_release"; "-d"] None false None]) ++ []))
      by (rewrite (try_except_run_caught _ _ _ _ _ _ _ Hget eq_refl); reflexivity).
    cbn [outcome final events ret fs tick].
    repeat split.
    rewrite !cmds_app, (cmds_not_popen dbg Hdbg). reflexivity.
  - rewrite (bind_run_exit _ _ w (tick (fs w) w) 1
               ((dbg ++ [EvPopen ["lsb_release"; "-d"] None false None])
                ++ [die_line "Unable to determine your distro to install dependencies!  Try again and use '-S' if you know what you are doing."]))
      by (rewrite (try_except_run_caught _ _ _ _ _ _ _ Hget eq_refl); reflexivity).
    cbn [outcome final events ret fs tick].
    repeat split.
    rewrite !cmds_app, (cmds_not_popen dbg Hdbg). reflexivity.
Qed.

(** X5: without [lsb_release] the distribution stays unknown.  When the
    program is not installed, [detect_distro] gives [None] if the
    installation of packages is to be skipped and ends the run with
    [sys.exit(1)] otherwise; the file system is left as it was. *)
Theorem detect_distro_without_lsb_release (c : Cfg.t) (w : World) (f : FileSys) :
  popen ["lsb_release"; "-d"] (environ w) false (cwd w) (fs w) (clock w) = (None, f) ->
  outcome (detect_distro popen c w) =
    (if Cfg.skip_install_pkgs c then Ret None else Exit 1) /\
  fs (final (detect_distro popen c w)) = fs w /\
  cmds (events (detect_distro popen c w)) = [["lsb_release"; "-d"]].
Proof. exact (detect_distro_not_found c w f). Qed.



(** What [get_repo_sha] runs once it is in the checkout. *)
Definition sha_cmds (rev : string) (pull : bool) : list (list string) :=
  (if pull then [ ["git"; "fetch"; "--all"] ] else [])
  ++ [ ["git"; "checkout"; rev];
       ["git"; "reset"; "--hard"; rev];
       ["git"; "rev-parse"; "--short"; "HEAD"] ].

(** X8: how [get_repo_sha] finds the hash.  With the checkout in place,
    a run that returns has changed into the checkout, fetched all remotes
    unless told not to, checked out and hard-reset the revision, and
    asked [git rev-parse] for the short hash, in this order; it leaves
    the process in the checkout, and what it returns is a string. *)
Theorem get_repo_sha_resets_checkout (src repo rev : string) (pull verbose : bool)
    (w : World) (sha : Sha) :
  OS.lookup w (Path.join src [repo]) = Some Dir ->
  outcome (get_repo_sha popen src repo rev pull verbose w) = Ret sha ->
  cmds (events (get_repo_sha popen src repo rev pull verbose w)) = sha_cmds rev pull /\
  cwd (final (get_repo_sha popen src repo rev pull verbose w))
    = OS.resolve w (Path.join src [repo]) /\
  exists s, sha = ShaStr s.
Proof.
  intros Hdir. unfold get_repo_sha.
  assert (Htry : try_except
                   (bind (OS.chdir (Path.join src [repo])) (fun _ => ret true))
                   is_FileNotFoundError (ret false) w
                 = mkRun (Ret true) (with_cwd (OS.resolve w (Path.join src [repo])) w)
                     ([EvChdir (OS.resolve w (Path.join src [repo]))] ++ [])).
  { apply try_except_run_ret.
    rewrite (bind_run_ret _ _ _ _ _ _ (chdir_run _ _ Hdir)). reflexivity. }
  rewrite (bind_run_ret _ _ _ _ _ _ Htry). cbn [negb outcome final events].
  set (w1 := with_cwd (OS.resolve w (Path.join src [repo])) w).
  intros Hret.
  split; [|split].
  - rewrite cmds_app. cbn [cmds app]. unfold sha_cmds.
    match type of Hret with
    | outcome (?m w1) = Ret sha =>
        assert (H : Cmds m ((if pull then [ ["git"; "fetch"; "--all"] ] else [])
                            ++ [ ["git"; "checkout"; rev] ]
                            ++ [ ["git"; "reset"; "--hard"; rev] ]
                            ++ [ ["git"; "rev-parse"; "--short"; "HEAD"] ] ++ []))
    end.
    { apply Cmds_bind.
      - destruct pull; unfold when.
        + eapply Cmds_eq; [repeat cmds_step | reflexivity].
        + apply Cmds_quiet. allev.
      - intros _. apply Cmds_bind; [apply Cmds_execute_shell | intros _].
        apply Cmds_bind; [apply Cmds_execute_shell | intros _].
        apply Cmds_bind; [apply Cmds_execute_shell | intros r].
        apply Cmds_quiet. allev. }
    rewrite (H w1 sha Hret). reflexivity.
  - match goal with
    | |- cwd (final (?m w1)) = _ =>
        assert (H : KeepsCwd m) by keeps_cwd; rewrite (H w1); reflexivity
    end.
  - apply bind_returns in Hret as (? & _ & Hret).
    apply bind_returns in Hret as (? & _ & Hret).
    apply bind_returns in Hret as (? & _ & Hret).
    apply bind_returns in Hret as (r & _ & Hret).
    destruct (fst (snd r)); [|discriminate Hret].
    inversion Hret. eauto.
Qed.

End MoreInstall.

(** * More on the orchestrator *)

(** X9: the cmake arguments of OpenMW spelled out in [main] (lines
    1242-1287) are the three fixed ones followed by what
    [format_openmw_cmake_args] gives for the OSG and Bullet directories
    under the default install prefix: the two code places agree. *)
Theorem openmw_build_args_agree (c : Cfg.t) :
  openmw_build_args c =
    [ "-DBOOST_ROOT=/usr/include/boost";
      "-DCMAKE_BUILD_TYPE=MinSizeRel";
      "-DDESIRED_QT_VERSION=5" ]
    ++ format_openmw_cmake_args (Path.join INSTALL_PREFIX ["bullet"])
         (if Cfg.system_osg c then None
          else Some (Path.join INSTALL_PREFIX ["osg-openmw"]))
         (Cfg.build_bullet c || Cfg.force_bullet c).
Proof.
  unfold openmw_build_args, format_openmw_cmake_args.
  destruct (Cfg.system_osg c); destruct (Cfg.build_bullet c || Cfg.force_bullet c)%bool;
    reflexivity.
Qed.

(** The revision a command line asks for: the branch (under [origin/]
    unless it names a remote), else the hash, else the tag, else the tip
    of [origin/master]; an empty value counts as not given. *)
Definition selected_rev (parsed : Parsed.t) : string :=
  if Py.truthy (Parsed.branch parsed) then
    let b := default "" (Parsed.branch parsed) in
    if Py.contains "/" b then b else "origin/" +:+ b
  else if Py.truthy (Parsed.sha parsed) then default "" (Parsed.sha parsed)
  else if Py.truthy (Parsed.tag parsed) then default "" (Parsed.tag parsed)
  else "origin/master".

(** As [returns_step], with the proof of the invariant left to [leaf]. *)
Ltac returns_with Inv leaf :=
  repeat first
    [ apply Returns_on_flag; [assumption | leaf]
    | apply Returns_on_flag_quiet; [assumption | leaf]
    | apply Returns_ret; leaf
    | apply Returns_error_and_die
    | apply Returns_if
    | match goal with
      | |- Returns (@bind Cfg.t _ ?m ?k) _ =>
          apply (Returns_bind m k Inv); [|intros ? ?]
      | |- Returns (@bind _ _ ?m ?k) _ =>
          apply (Returns_bind m k (fun _ => True)); [apply Returns_any | intros ? _]
      end ].

(** Through the steps of [process_flags] that return a configuration,
    up to the choice of the revision. *)
Ltac flags_chain Inv leaf :=
  repeat match goal with
    | |- Returns (@bind Cfg.t _ ?m ?k) _ =>
        apply (Returns_bind m k Inv); [solve [returns_with Inv leaf] | intros ? ?]
    end.

Section MoreOrchestrator.
Context (normpath : string -> string).
Context (cpu_count : Z).

(** X10: which revision is built.  In every configuration
    [process_flags] returns, [rev] is the branch if one is given (with
    [origin/] put in front unless it contains a slash), else the hash,
    else the tag, else [origin/master]. *)
Theorem process_flags_selects_rev (parsed : Parsed.t) (w : World) (c : Cfg.t) :
  outcome (process_flags normpath cpu_count parsed w) = Ret c ->
  Cfg.rev c = selected_rev parsed.
Proof.
  revert w c.
  change (Returns (process_flags normpath cpu_count parsed)
            (fun c => Cfg.rev c = selected_rev parsed)).
  unfold process_flags.
  apply (Returns_bind _ _ (fun _ => True)); [apply Returns_any | intros OUT_DIR _].
  assert (H0 : Cfg.branch (cfg0 cpu_count OUT_DIR) = "master") by reflexivity.
  revert H0. generalize (cfg0 cpu_count OUT_DIR). intros c Hc.
  flags_chain (fun c => Cfg.branch c = "master") ltac:(simpl; assumption).
  unfold selected_rev.
  destruct (Py.truthy (Parsed.branch parsed)).
  - cbv zeta. destruct (Py.contains "/" (default "" (Parsed.branch parsed))); cbn [negb];
      (eapply Returns_bind; [apply Returns_any | intros _ _]);
      apply Returns_ret; reflexivity.
  - destruct (Py.truthy (Parsed.sha parsed)).
    + eapply Returns_bind; [apply Returns_any | intros _ _].
      apply Returns_ret. reflexivity.
    + destruct (Py.truthy (Parsed.tag parsed)).
      * eapply Returns_bind; [apply Returns_any | intros _ _].
        apply Returns_ret. reflexivity.
      * apply Returns_ret. simpl.
        match goal with H : Cfg.branch _ = "master" |- _ => rewrite H end.
        reflexivity.
Qed.

(** X11: [--force-all] forces every dependency, OpenMW and the package,
    but not TES3MP: in every configuration [process_flags] returns for a
    command line with the flag, the six force variables it names are
    set; [force_tes3mp] is set only if one of the TES3MP flags is
    given. *)
Theorem force_all_forces_everything_but_tes3mp (parsed : Parsed.t) (w : World)
    (c : Cfg.t) :
  Parsed.force_all parsed = true ->
  outcome (process_flags normpath cpu_count parsed w) = Ret c ->
  (Cfg.force_bullet c = true /\ Cfg.force_mygui c = true /\
   Cfg.force_openmw c = true /\ Cfg.force_osg c = true /\
   Cfg.force_unshield c = true /\ Cfg.force_pkg c = true) /\
  Cfg.force_tes3mp c =
    (Parsed.force_all_tes3mp parsed || Parsed.force_tes3mp parsed)%bool.
Proof.
  intros Hall. revert w c.
  change (Returns (process_flags normpath cpu_count parsed)
            (fun c =>
               (Cfg.force_bullet c = true /\ Cfg.force_mygui c = true /\
                Cfg.force_openmw c = true /\ Cfg.force_osg c = true /\
                Cfg.force_unshield c = true /\ Cfg.force_pkg c = true) /\
               Cfg.force_tes3mp c =
                 (Parsed.force_all_tes3mp parsed || Parsed.force_tes3mp parsed)%bool)).
  unfold process_flags. rewrite Hall.
  apply (Returns_bind _ _ (fun _ => True)); [apply Returns_any | intros OUT_DIR _].
  set (Forced := fun c =>
         Cfg.force_bullet c = true /\ Cfg.force_mygui c = true /\
         Cfg.force_openmw c = true /\ Cfg.force_osg c = true /\
         Cfg.force_unshield c = true /\ Cfg.force_pkg c = true).
  (* --force-all *)
  apply (Returns_bind _ _ (fun c => Forced c /\ Cfg.force_tes3mp c = false)).
  { unfold on_flag. eapply Returns_bind; [apply Returns_any | intros _ _].
    apply Returns_ret. unfold Forced. simpl. tauto. }
  intros c Hc.
  (* --force-all-tes3mp *)
  apply (Returns_bind _ _
           (fun c => Forced c /\ Cfg.force_tes3mp c = Parsed.force_all_tes3mp parsed)).
  { unfold on_flag. destruct (Parsed.force_all_tes3mp parsed).
    - eapply Returns_bind; [apply Returns_any | intros _ _].
      apply Returns_ret. unfold Forced in *. simpl. tauto.
    - apply Returns_ret. exact Hc. }
  clear c Hc. intros c Hc.
  (* up to --force-tes3mp *)
  do 8 (match goal with
        | |- Returns (@bind Cfg.t _ ?m ?k) _ =>
            apply (Returns_bind m k
                     (fun c => Forced c /\
                               Cfg.force_tes3mp c = Parsed.force_all_tes3mp parsed));
              [ apply Returns_on_flag;
                  [assumption | unfold Forced in *; simpl; tauto]
              | clear c Hc; intros c Hc ]
        end).
  apply (Returns_bind _ _
           (fun c => Forced c /\
                     Cfg.force_tes3mp c =
                       (Parsed.force_all_tes3mp parsed || Parsed.force_tes3mp parsed)%bool)).
  { unfold on_flag. destruct (Parsed.force_tes3mp parsed).
    - eapply Returns_bind; [apply Returns_any | intros _ _].
      apply Returns_ret. unfold Forced in *. simpl.
      rewrite orb_true_r. tauto.
    - apply Returns_ret. rewrite orb_false_r. exact Hc. }
  clear c Hc. intros c Hc.
  flags_chain (fun c => Forced c /\
                        Cfg.force_tes3mp c =
                          (Parsed.force_all_tes3mp parsed || Parsed.force_tes3mp parsed)%bool)
              ltac:(unfold Forced in *; simpl; tauto).
  returns_with (fun c => Forced c /\
                         Cfg.force_tes3mp c =
                           (Parsed.force_all_tes3mp parsed || Parsed.force_tes3mp parsed)%bool)
               ltac:(unfold Forced in *; simpl; tauto).
Qed.

End MoreOrchestrator.

(** * A patch that is not a file *)

(** A computation that returns and leaves the world as it is. *)
Definition Pure {A} (m : M A) : Prop :=
  forall w, final (m w) = w /\ exists a, outcome (m w) = Ret a.

Lemma Pure_ret {A} (a : A) : Pure (ret a).
Proof. intros w. split; [reflexivity | exists a; reflexivity]. Qed.

Lemma Pure_get {A} (f : World -> A) : Pure (get f).
Proof. intros w. split; [reflexivity | exists (f w); reflexivity]. Qed.

Lemma Pure_log (s : string) : Pure (log s).
Proof. intros w. split; [apply final_log | exists tt; apply outcome_log]. Qed.

Lemma Pure_bind {A B} (m : M A) (k : A -> M B) :
  Pure m -> (forall a, Pure (k a)) -> Pure (bind m k).
Proof.
  intros Hm Hk w. destruct (Hm w) as (Hf & a & Ho).
  rewrite (bind_ret_run m k w a Ho). cbn [final outcome].
  rewrite Hf. apply Hk.
Qed.

Lemma Pure_on_flag (flag : bool) (update : Cfg.t -> Cfg.t) (msg : string)
    (c : Cfg.t) :
  Pure (on_flag flag update msg c).
Proof.
  unfold on_flag. destruct flag; [|apply Pure_ret].
  apply Pure_bind; [apply Pure_log | intros _; apply Pure_ret].
Qed.

(** From a world where [P] holds, [m] ends with [sys.exit(1)] on the
    error line of [msg], in that world. *)
Definition DiesWith {A} (msg : string) (P : World -> Prop) (m : M A) : Prop :=
  forall w, P w ->
    outcome (m w) = Exit 1 /\
    last (events (m w)) = Some (die_line msg) /\
    final (m w) = w.

Lemma DiesWith_after {A B} (msg : string) (P : World -> Prop) (m : M A)
    (k : A -> M B) :
  Pure m -> (forall a, DiesWith msg P (k a)) -> DiesWith msg P (bind m k).
Proof.
  intros Hm Hk w HP. destruct (Hm w) as (Hf & a & Ho).
  rewrite (bind_ret_run m k w a Ho). cbn [final outcome events].
  rewrite Hf. destruct (Hk a w HP) as (H1 & H2 & H3).
  split; [exact H1|]. split; [|exact H3].
  apply last_app_Some. left. exact H2.
Qed.

Lemma DiesWith_first {A B} (msg : string) (P : World -> Prop) (m : M A)
    (k : A -> M B) :
  DiesWith msg P m -> DiesWith msg P (bind m k).
Proof.
  intros Hm w HP. destruct (Hm w HP) as (H1 & H2 & H3).
  rewrite (bind_exit_run m k w 1 H1). cbn [final outcome events].
  split; [reflexivity|]. split; assumption.
Qed.

Section MoreFlags.
Context (normpath : string -> string).
Context (cpu_count : Z).

(** X14: the patch must be a file.  When [-P] names something that is
    not a regular file (seen from the working directory, as
    [os.path.abspath] has it), reading the flags ends with [sys.exit(1)]
    on the line [The supplied patch isn't a file!]; nothing has been
    changed and nothing has been run by then. *)
Theorem patch_must_be_a_file (parsed : Parsed.t) (w : World) :
  Py.truthy (Parsed.patch parsed) = true ->
  OS.lookup w (normpath (Path.join (cwd w) [default "" (Parsed.patch parsed)]))
    <> Some File ->
  outcome (process_flags normpath cpu_count parsed w) = Exit 1 /\
  last (events (process_flags normpath cpu_count parsed w))
    = Some (die_line "The supplied patch isn't a file!") /\
  final (process_flags normpath cpu_count parsed w) = w /\
  Forall (fun e => external e = false)
    (events (process_flags normpath cpu_count parsed w)).
Proof.
  intros Hpatch Hnofile.
  assert (Hquiet : Forall (fun e => external e = false)
                     (events (process_flags normpath cpu_count parsed w))).
  { revert w Hnofile. intros w _. revert w.
    change (AllEv (fun e => external e = false)
              (process_flags normpath cpu_count parsed)).
    unfold process_flags, on_flag, on_flag_quiet, abspath.
    allev; try apply AllEv_logging_log; reflexivity. }
  assert (H : DiesWith "The supplied patch isn't a file!"
                (fun w => OS.lookup w (normpath (Path.join (cwd w)
                                         [default "" (Parsed.patch parsed)]))
                          <> Some File)
                (process_flags normpath cpu_count parsed)).
  2:{ destruct (H w Hnofile) as (H1 & H2 & H3). auto. }
  clear w Hnofile Hquiet.
  unfold process_flags.
  apply DiesWith_after; [apply Pure_get | intros OUT_DIR].
  generalize (cfg0 cpu_count OUT_DIR). intros c.
  do 19 (apply DiesWith_after; [apply Pure_on_flag | clear c; intros c]).
  apply DiesWith_first.
  rewrite Hpatch.
  intros w Hw.
  assert (Habs : abspath normpath (default "" (Parsed.patch parsed)) w =
                 mkRun (Ret (normpath (Path.join (cwd w)
                                         [default "" (Parsed.patch parsed)]))) w [])
    by reflexivity.
  rewrite (bind_run_ret _ _ _ w _ [] Habs). cbn [app].
  unfold OS.isfile. rewrite bind_get.
  destruct (OS.lookup w _) as [[|]|] eqn:E;
    try (split; [reflexivity | split; reflexivity]).
  contradiction.
Qed.

End MoreFlags.

(** * [make install] is run only when asked for *)

Definition is_make_install (e : Event) : bool :=
  match e with
  | EvPopen ["make"; "install"] _ _ _ => true
  | _ => false
  end.

Section MoreInstallStep.
Context (popen :
  list string -> gmap string string -> bool -> string -> FileSys -> nat ->
  option (Z * string * string) * FileSys).
Context (system : string -> string -> FileSys -> nat -> Z * FileSys).

(** X15: without [make_install] nothing is installed.  A run of
    [build_library] with [make_install] false never spawns
    [make install], whatever the other arguments are: the configure and
    compile command lines it builds cannot be mistaken for it. *)
Theorem no_install_unless_asked (a : BuildArgs) (w : World) :
  make_install a = false ->
  Forall (fun e => is_make_install e = false)
    (events (build_library popen system a w)).
Proof.
  intros Hno.
  rewrite build_library_branch.
  destruct (_ && _)%bool.
  - apply AllEv_log. reflexivity.
  - revert w.
    change (AllEv (fun e => is_make_install e = false) (build_now popen system a)).
    unfold build_now, clone_source, remove_previous_install, _git_clean_src,
      apply_patch, configure, compile, install.
    rewrite Hno. cbv zeta.
    allev; try apply AllEv_logging_log; try reflexivity.
Qed.

End MoreInstallStep.

(** * More on [make_portable_package] *)

(** ** Computations that leave the process environment alone *)

Definition KeepsEnv {A} (m : M A) : Prop :=
  forall w, environ (final (m w)) = environ w.

Lemma KeepsEnv_ret {A} (a : A) : KeepsEnv (ret a).
Proof. intros w. reflexivity. Qed.

Lemma KeepsEnv_raise {A} (x : Py.exn) : KeepsEnv (@raise A x).
Proof. intros w. reflexivity. Qed.

Lemma KeepsEnv_get {A} (f : World -> A) : KeepsEnv (get f).
Proof. intros w. reflexivity. Qed.

Lemma KeepsEnv_bind {A B} (m : M A) (k : A -> M B) :
  KeepsEnv m -> (forall a, KeepsEnv (k a)) -> KeepsEnv (bind m k).
Proof.
  intros Hm Hk w.
  destruct (outcome (m w)) as [a|c|x] eqn:E;
    [ rewrite (bind_ret_run m k w a E)
    | rewrite (bind_exit_run m k w c E)
    | rewrite (bind_raise_run m k w x E) ]; cbn [final].
  - rewrite Hk. apply Hm.
  - apply Hm.
  - apply Hm.
Qed.

Lemma KeepsEnv_when (c : bool) (m : M unit) : KeepsEnv m -> KeepsEnv (when c m).
Proof. intros H. destruct c; [exact H | apply KeepsEnv_ret]. Qed.

Lemma KeepsEnv_for_each {A} (l : list A) (f : A -> M unit) :
  (forall x, KeepsEnv (f x)) -> KeepsEnv (for_each l f).
Proof.
  intros Hf. induction l as [|x l IH]; simpl.
  - apply KeepsEnv_ret.
  - apply KeepsEnv_bind; [apply Hf | intros _; exact IH].
Qed.

Lemma KeepsEnv_emit_log (msg : LogMsg) (lvl : Level) (quiet : bool) :
  KeepsEnv (emit_log msg lvl quiet).
Proof. intros w. rewrite final_emit_log. reflexivity. Qed.

Lemma KeepsEnv_log (s : string) : KeepsEnv (log s).
Proof. apply KeepsEnv_emit_log. Qed.

Lemma KeepsEnv_error_and_die {A} (msg : string) : KeepsEnv (@error_and_die A msg).
Proof. intros w. reflexivity. Qed.

Lemma KeepsEnv_mkdir (p : string) : KeepsEnv (OS.mkdir p).
Proof.
  intros w. unfold OS.mkdir.
  destruct (fs w (OS.resolve w p)); [reflexivity|].
  destruct (fs w (Path.dirname (OS.resolve w p))) as [[|]|]; reflexivity.
Qed.

Lemma KeepsEnv_makedirs (p : string) : KeepsEnv (OS.makedirs p).
Proof.
  unfold OS.makedirs.
  apply KeepsEnv_bind; [apply KeepsEnv_get | intros rp].
  apply KeepsEnv_bind; [|intros _; apply KeepsEnv_mkdir].
  apply KeepsEnv_for_each. intros a.
  apply KeepsEnv_bind; [apply KeepsEnv_get | intros e].
  apply KeepsEnv_when, KeepsEnv_mkdir.
Qed.

Lemma KeepsEnv_remove (p : string) : KeepsEnv (OS.remove p).
Proof.
  intros w. unfold OS.remove.
  destruct (fs w (OS.resolve w p)) as [[|]|]; reflexivity.
Qed.

Lemma KeepsEnv_copy (src dst : string) : KeepsEnv (OS.copy src dst).
Proof.
  intros w. unfold OS.copy.
  destruct (fs w (OS.resolve w src)) as [[|]|]; try reflexivity.
  destruct (fs w (OS.resolve w dst)) as [[|]|]; try reflexivity;
    destruct (fs w _) as [[|]|]; reflexivity.
Qed.

Ltac keeps_env :=
  repeat first
    [ apply KeepsEnv_log | apply KeepsEnv_emit_log
    | apply KeepsEnv_ret | apply KeepsEnv_raise | apply KeepsEnv_get
    | apply KeepsEnv_when
    | apply KeepsEnv_error_and_die | apply KeepsEnv_mkdir
    | apply KeepsEnv_makedirs | apply KeepsEnv_remove | apply KeepsEnv_copy
    | apply KeepsEnv_for_each; intros ?
    | apply KeepsEnv_bind; [|intros ?]
    | match goal with
      | |- KeepsEnv (if ?c then _ else _) => destruct c
      | |- KeepsEnv (match ?x with _ => _ end) => destruct x
      end ].

(** ** Runs that cannot get to the archive *)

(** An archive is opened for writing, or written to. *)
Definition writes_archive (e : Event) : bool :=
  match e with
  | EvTarOpen _ | EvTarAdd _ _ => true
  | _ => false
  end.

Definition noarchive (e : Event) : Prop := writes_archive e = false.

(** Started in the environment [env], [m] does not return and writes no
    archive. *)
Definition Stuck {A} (env : gmap string string) (m : M A) : Prop :=
  forall w, environ w = env ->
    (forall a, outcome (m w) <> Ret a) /\ Forall noarchive (events (m w)).

Lemma Stuck_raise {A} (env : gmap string string) (x : Py.exn) :
  Stuck env (@raise A x).
Proof. intros w _. split; [discriminate | constructor]. Qed.

Lemma Stuck_first {A B} (env : gmap string string) (m : M A) (k : A -> M B) :
  Stuck env m -> Stuck env (bind m k).
Proof.
  intros Hm w Hw. destruct (Hm w Hw) as [Hno Hev].
  destruct (outcome (m w)) as [a|c|x] eqn:E.
  - destruct (Hno a eq_refl).
  - rewrite (bind_exit_run m k w c E). split; [discriminate | exact Hev].
  - rewrite (bind_raise_run m k w x E). split; [discriminate | exact Hev].
Qed.

Lemma Stuck_then {A B} (env : gmap string string) (m : M A) (k : A -> M B) :
  AllEv noarchive m -> KeepsEnv m -> (forall a, Stuck env (k a)) ->
  Stuck env (bind m k).
Proof.
  intros Hev Hkeep Hk w Hw.
  destruct (outcome (m w)) as [a|c|x] eqn:E.
  - rewrite (bind_ret_run m k w a E). cbn [outcome events].
    destruct (Hk a (final (m w))) as [Hno Hevk]; [rewrite Hkeep; exact Hw|].
    split; [exact Hno|]. apply Forall_app. split; [apply Hev | exact Hevk].
  - rewrite (bind_exit_run m k w c E). split; [discriminate | apply Hev].
  - rewrite (bind_raise_run m k w x E). split; [discriminate | apply Hev].
Qed.

(** The distributions [make_portable_package] knows the system
    libraries of (lines 379 and 398). *)
Definition packaged_family (distro : option string) : bool :=
  match distro with
  | Some d => (Py.contains "Void" d || Py.contains "Ubuntu" d || Py.contains "Debian" d)%bool
  | None => false
  end.

Section MorePackage.
Context (mkdtemp_name : string -> FileSys -> nat -> string).

Lemma mkdtemp_noarchive (suffix : string) :
  AllEv noarchive (mkdtemp mkdtemp_name suffix).
Proof. unfold mkdtemp. allev; reflexivity. Qed.

Lemma mkdtemp_keeps_env (suffix : string) : KeepsEnv (mkdtemp mkdtemp_name suffix).
Proof. unfold mkdtemp. keeps_env. Qed.

(** Outside the docker image of TES3MP and on a distribution that is
    not known, the staging stops: at the system libraries, if not
    before. *)
Lemma stage_package_stuck (env : gmap string string) (pkgname : string)
    (distro : option string) (serveronly : bool) (pkg_dir pkg_libs : string) :
  Py.truthy (env !! "TES3MP_FORGE") = false ->
  packaged_family distro = false ->
  Stuck env (stage_package pkgname distro serveronly pkg_dir pkg_libs).
Proof.
  intros Hforge Hfam. unfold stage_package.
  apply Stuck_then; [allev; reflexivity | keeps_env | intros _].
  apply Stuck_then; [allev; reflexivity | keeps_env | intros _].
  cbv zeta.
  intros w Hw.
  assert (Hsel : select_system_libs distro w =
                 mkRun (match distro with
                        | None => Raise Py.TypeError
                        | Some _ => Ret None
                        end) w []).
  { unfold select_system_libs, OS.getenv. rewrite bind_get, Hw, Hforge.
    destruct distro as [d|]; [|reflexivity].
    unfold packaged_family in Hfam.
    apply orb_false_iff in Hfam as [Hfam Hd].
    apply orb_false_iff in Hfam as [Hv Hu].
    rewrite Hv, Hu, Hd. reflexivity. }
  destruct distro as [d|].
  - rewrite (bind_run_ret _ _ _ w None [] Hsel). cbn [app].
    revert w Hw Hsel. intros w Hw _. revert w Hw.
    change (Stuck env
              (log "Copying binaries" ;;
               for_each (if serveronly then server_bins else client_bins)
                 (fun b =>
                    emit_log (LStr ("Copying " +:+ b +:+ " to " +:+ pkg_dir)) DEBUG false ;;
                    OS.copy b pkg_dir) ;;
               log "Copying system libs" ;;
               (raise Py.UnboundLocalError : M unit))).
    apply Stuck_then; [allev; reflexivity | keeps_env | intros _].
    apply Stuck_then;
      [ apply AllEv_for_each; intros b; allev; try apply AllEv_logging_log; reflexivity
      | apply KeepsEnv_for_each; intros b; keeps_env
      | intros _ ].
    apply Stuck_then; [allev; reflexivity | keeps_env | intros _].
    apply Stuck_raise.
  - rewrite (bind_run_raise _ _ _ w Py.TypeError [] Hsel).
    split; [discriminate | constructor].
Qed.

(** X12: no package without a known distribution.  Outside the docker
    image of TES3MP ([TES3MP_FORGE] unset or empty) and with a
    distribution that contains none of [Void], [Ubuntu] and [Debian] (or
    with none at all), no run of [make_portable_package] returns and none
    opens or writes an archive: [system_libs] is never assigned. *)
Theorem package_needs_a_known_distribution (pkgname : string)
    (distro : option string) (force : bool) (out_dir : option string)
    (serveronly : bool) (w : World) :
  Py.truthy (environ w !! "TES3MP_FORGE") = false ->
  packaged_family distro = false ->
  (forall b, outcome (make_portable_package mkdtemp_name pkgname distro force
                        out_dir serveronly w) <> Ret b) /\
  Forall (fun e => writes_archive e = false)
    (events (make_portable_package mkdtemp_name pkgname distro force out_dir
               serveronly w)).
Proof.
  intros Hforge Hfam.
  assert (H : Stuck (environ w)
                (make_portable_package mkdtemp_name pkgname distro force out_dir
                   serveronly)).
  2:{ exact (H w eq_refl). }
  unfold make_portable_package.
  destruct out_dir as [out_dir|]; [|apply Stuck_raise].
  unfold guard_archive.
  apply Stuck_then; [allev; reflexivity | keeps_env | intros d].
  apply Stuck_then; [allev; reflexivity | keeps_env | intros _].
  cbv zeta.
  apply Stuck_then; [allev; reflexivity | keeps_env | intros _].
  apply Stuck_then; [allev; reflexivity | keeps_env | intros _].
  apply Stuck_then;
    [apply mkdtemp_noarchive | apply mkdtemp_keeps_env | intros tmp].
  apply Stuck_first.
  apply stage_package_stuck; assumption.
Qed.

End MorePackage.

(** * The theorems at concrete runs *)


Definition cmake_failed : Event :=
  EvPopen ["cmake"; "-DCMAKE_INSTALL_PREFIX=/opt/build-openmw/bullet";
           "-DINSTALL_LIBS=on"; "-DBUILD_SHARED_LIBS=on"; ".."]
    None false (Some (1, "", "CMake Error")).

Lemma build_library_skip_witness :
  OS.lookup Scenario.built (check_file (Scenario.bullet_args false)) = Some File /\
  force (Scenario.bullet_args false) = false /\
  final (build_library Scenario.popen_ok Scenario.system_ok
           (Scenario.bullet_args false) Scenario.built) = Scenario.built /\
  events (build_library Scenario.popen_ok Scenario.system_ok
            (Scenario.bullet_args false) Scenario.built)
    = [EvLog INFO (LStr "bullet found!")].
Proof.
  split; [reflexivity|]. split; [reflexivity|].
  destruct (build_library_skip_is_silent Scenario.popen_ok Scenario.system_ok
              (Scenario.bullet_args false) Scenario.built eq_refl eq_refl)
    as (_ & Hw & He & _).
  split; [exact Hw | exact He].
Defined.


Lemma failed_cmake_witness :
  let r := build_library Scenario.popen_cmake_fails Scenario.system_ok
             (Scenario.bullet_args true) Scenario.built in
  let pre := firstn 15 (events r) in
  let post := skipn 16 (events r) in
  events r = pre ++ cmake_failed :: post /\
  failed_step cmake_failed = true /\
  outcome r = Exit 1 /\
  Forall (fun x => external x = false) post /\
  exists msg, (msg = "cmake exited nonzero!" \/ msg = "make exited nonzero!") /\
    last post = Some (EvStderr ("ERROR: " +:+ msg +:+ " Exiting ..." +:+ Py.nl)).
Proof.
  cbv zeta.
  assert (Heq : events (build_library Scenario.popen_cmake_fails Scenario.system_ok
                          (Scenario.bullet_args true) Scenario.built)
                = firstn 15 (events (build_library Scenario.popen_cmake_fails
                                       Scenario.system_ok
                                       (Scenario.bullet_args true) Scenario.built))
                  ++ cmake_failed
                  :: skipn 16 (events (build_library Scenario.popen_cmake_fails
                                         Scenario.system_ok
                                         (Scenario.bullet_args true) Scenario.built)))
    by (vm_compute; reflexivity).
  split; [exact Heq|]. split; [reflexivity|].
  exact (build_library_failed_step_is_fatal Scenario.popen_cmake_fails
           Scenario.system_ok (Scenario.bullet_args true) Scenario.built
           _ _ _ Heq eq_refl).
Defined.

(** C5, at the call [main] makes for the OpenMW fork of OSG: the clean
    step runs to its end and the last thing it does is reset the checkout
    to [master], after having reset it to the OSG branch. *)
Theorem osg_openmw_checkout_ends_on_master :
  let a := osg_openmw_args Scenario.default_cfg in
  let r := _git_clean_src Scenario.popen_ok a Scenario.built in
  libname a = "osg-openmw" /\
  outcome r = Ret tt /\
  cmds (events r) =
    [ ["git"; "checkout"; "--"; "."];
      ["git"; "clean"; "-df"];
      ["git"; "checkout"; "3.4"];
      ["git"; "reset"; "--hard"; "origin/3.4"];
      ["git"; "checkout"; "master"];
      ["git"; "reset"; "--hard"; "master"] ].
Proof.
  cbv zeta. split; [reflexivity|].
  assert (Hret : outcome (_git_clean_src Scenario.popen_ok
                            (osg_openmw_args Scenario.default_cfg) Scenario.built)
                 = Ret tt) by (vm_compute; reflexivity).
  split; [exact Hret|].
  exact (osg_openmw_clean_ends_on_version Scenario.popen_ok
           (osg_openmw_args Scenario.default_cfg) Scenario.built eq_refl Hret).
Qed.

(** C9, at a run where [make install] returns exit status 2 and writes
    nothing on stderr: [build_library] returns normally and logs that the
    library was installed. *)
Theorem failed_make_install_goes_unnoticed :
  let r := build_library Scenario.popen_install_fails Scenario.system_ok
             (Scenario.bullet_args true) Scenario.built in
  nth_error (events r) 19 =
    Some (EvPopen ["make"; "install"] None false
            (Some (2, "make: *** [install] Error 2", ""))) /\
  outcome r = Ret tt /\
  last (events r) = Some (EvLog INFO (LStr "bullet installed successfully")).
Proof. cbv zeta. vm_compute. repeat split. Qed.


Lemma unsupported_distro_witness :
  let distro := "Gentoo Base System release 2.7" in
  let skipping := Cfg.set_skip_install_pkgs true Scenario.default_cfg in
  supported distro = false /\
  Cfg.skip_install_pkgs Scenario.default_cfg = false /\
  outcome (install_dependencies Scenario.popen_ok Scenario.default_cfg
             (Some distro) Scenario.built) = Exit 1 /\
  Cfg.skip_install_pkgs skipping = true /\
  install_dependencies Scenario.popen_ok skipping (Some distro) Scenario.built
    = mkRun (Ret tt) Scenario.built [].
Proof.
  cbv zeta.
  assert (Hun : supported "Gentoo Base System release 2.7" = false)
    by (vm_compute; reflexivity).
  split; [exact Hun|]. split; [reflexivity|].
  destruct (unsupported_distro_is_fatal_unless_skipped Scenario.popen_ok
              Scenario.default_cfg "Gentoo Base System release 2.7"
              Scenario.built Hun) as (_ & H & _).
  destruct (H eq_refl) as (Hexit & _).
  split; [exact Hexit|]. split; [reflexivity|].
  destruct (unsupported_distro_is_fatal_unless_skipped Scenario.popen_ok
              (Cfg.set_skip_install_pkgs true Scenario.default_cfg)
              "Gentoo Base System release 2.7" Scenario.built Hun) as (_ & _ & Hskip).
  exact (Hskip eq_refl).
Defined.

(** The same machine seen by root, with nothing installed. *)
Definition root_world : World :=
  mkWorld (fs Scenario.bare) "/root" ∅ 0 DEBUG tables0 7.

Lemma package_list_witness :
  let run1 := install_packages Scenario.popen_ok (Some "Void Linux") false false
                Scenario.built in
  let run2 := install_packages Scenario.popen_install_fails (Some "Void Linux")
                false true root_world in
  tables Scenario.built = tables root_world /\
  outcome run1 = Ret (Some "", Some "") /\
  outcome run2 = Ret (None, None) /\
  map strip_sudo (cmds (events run1)) = map strip_sudo (cmds (events run2)).
Proof.
  cbv zeta.
  assert (H1 : outcome (install_packages Scenario.popen_ok (Some "Void Linux")
                          false false Scenario.built) = Ret (Some "", Some ""))
    by (vm_compute; reflexivity).
  assert (H2 : outcome (install_packages Scenario.popen_install_fails
                          (Some "Void Linux") false true root_world)
               = Ret (None, None))
    by (vm_compute; reflexivity).
  split; [reflexivity|]. split; [exact H1|]. split; [exact H2|].
  exact (package_list_is_function_of_distro_and_tables
           Scenario.popen_ok Scenario.popen_install_fails "Void Linux"
           false false false true Scenario.built root_world _ _
           eq_refl H1 H2).
Defined.

(** C8 as stated fails: two runs of [install_packages] on the same
    description, [Void Linux], by the same user on the same machine, ask
    for different packages when one of them comes after the flags of a
    TES3MP build were read: [main] has then appended [LuaJIT-devel] to
    the table. *)
Lemma package_list_depends_on_tes3mp_flag :
  let w := Scenario.built in
  let w' := final (process_flags id 8 Scenario.parsed_tes3mp w) in
  let run x := install_packages Scenario.popen_ok (Some "Void Linux") false false x in
  fs w' = fs w /\ uid w' = uid w /\
  outcome (run w) = Ret (Some "", Some "") /\
  outcome (run w') = Ret (Some "", Some "") /\
  cmds (events (run w')) = map (fun c => c ++ ["LuaJIT-devel"]) (cmds (events (run w))) /\
  cmds (events (run w)) <> cmds (events (run w')).
Proof.
  cbv zeta.
  split; [reflexivity|]. split; [reflexivity|].
  split; [vm_compute; reflexivity|]. split; [vm_compute; reflexivity|].
  split; [vm_compute; reflexivity|].
  intros H. apply (f_equal (map (@length string))) in H.
  vm_compute in H. discriminate H.
Qed.


(** With the output directory given as an absolute path, the guard and
    the archive at a concrete run. *)
Lemma archive_guard_at_absolute_out_dir :
  let run force :=
    make_portable_package Scenario.tmp_name "openmw-abc1234" (Some "Void Linux")
      force (Some "/home/user") false Scenario.staged in
  OS.lookup Scenario.staged "/home/user" = Some Dir /\
  OS.lookup Scenario.staged "/home/user/openmw-abc1234.tar.bz2" = Some File /\
  outcome (run false) = Exit 1 /\
  final (run false) = Scenario.staged /\
  outcome (run true) = Ret true /\
  exists l1 l2 l3,
    events (run true) =
      l1 ++ EvRemove "/home/user/openmw-abc1234.tar.bz2"
         :: l2 ++ EvTarOpen "/home/user/openmw-abc1234.tar.bz2" :: l3.
Proof.
  cbv zeta.
  split; [reflexivity|]. split; [reflexivity|].
  destruct (archive_guard_in_a_run Scenario.tmp_name "openmw-abc1234"
              (Some "Void Linux") "/home/user" false Scenario.staged eq_refl)
    as [(Hexit & Hsame & _) Hforced].
  { vm_compute. discriminate. }
  split; [exact Hexit|]. split; [exact Hsame|].
  assert (Hret : outcome (make_portable_package Scenario.tmp_name "openmw-abc1234"
                            (Some "Void Linux") true (Some "/home/user") false
                            Scenario.staged) = Ret true)
    by (vm_compute; reflexivity).
  split; [exact Hret|].
  destruct (Hforced eq_refl) as [_ Hcreated].
  destruct (Hcreated Hret) as (l1 & l2 & l3 & tmp & Hev & Habs).
  destruct (Habs eq_refl) as [Hr Ht].
  exists l1, l2, l3.
  rewrite Hev. rewrite Hr, Ht. reflexivity.
Qed.

(** C3, at [build-openmw --make-pkg --force-pkg -o out]: the output
    directory stays the relative path it was given as (line 850; the
    patch of line 853 is made absolute).  [make_portable_package] removes
    the archive of the earlier run from [./out] (line 297) and opens the
    new one after [os.chdir(_tmpdir)] (lines 506-508), where
    [out/<pkgname>.tar.bz2] names a directory that does not exist: the run
    ends in [FileNotFoundError], inside the temporary directory, and no
    archive is left.  When the relative path falls inside the staging
    tree (an output directory named like the package), the run returns
    [True] and the archive it wrote goes away with the temporary
    directory.  Called with the same directory as an absolute path, the
    run replaces the archive. *)
Theorem forced_package_is_lost_with_relative_out_dir :
  let pkg := "openmw-abc1234" in
  let tmp := "/tmp/tmpk3x9openmw-abc1234" in
  let old := "/opt/build-openmw/out/openmw-abc1234.tar.bz2" in
  let old' := "/opt/build-openmw/openmw-abc1234/openmw-abc1234.tar.bz2" in
  let run out w :=
    make_portable_package Scenario.tmp_name pkg (Some "Void Linux") true
      (Some out) false w in
  let relative := run "out" Scenario.staged_out in
  let named := run pkg Scenario.staged_named in
  let absolute := run "/opt/build-openmw/out" Scenario.staged_out in
  outcome (process_flags id 8 Scenario.parsed_pkg_out Scenario.staged_out)
    = Ret (Cfg.set_out_dir (Some "out")
             (Cfg.set_make_pkg true (Cfg.set_force_pkg true Scenario.default_cfg))) /\
  (OS.lookup Scenario.staged_out "out/openmw-abc1234.tar.bz2" = Some File /\
   outcome relative = Raise Py.FileNotFoundError /\
   archive_events (events relative) = [EvRemove old] /\
   fs (final relative) old = None /\
   cwd (final relative) = tmp) /\
  (OS.lookup Scenario.staged_named "openmw-abc1234/openmw-abc1234.tar.bz2" = Some File /\
   outcome named = Ret true /\
   archive_events (events named) =
     [ EvRemove old';
       EvTarOpen (tmp +:+ "/openmw-abc1234/openmw-abc1234.tar.bz2");
       EvTarAdd (tmp +:+ "/openmw-abc1234/openmw-abc1234.tar.bz2")
         (tmp +:+ "/openmw-abc1234") ] /\
   last (events named) = Some (EvRmtree tmp) /\
   fs (final named) old' = None /\
   fs (final named) (tmp +:+ "/openmw-abc1234/openmw-abc1234.tar.bz2") = None) /\
  (outcome absolute = Ret true /\
   archive_events (events absolute) =
     [ EvRemove old; EvTarOpen old; EvTarAdd old (tmp +:+ "/openmw-abc1234") ] /\
   fs (final absolute) old = Some File).
Proof. cbv zeta. vm_compute. repeat split. Qed.

(** * The further properties at concrete runs *)


(** A forced build of bullet whose patch does not apply. *)
Lemma failed_patch_witness :
  let r := build_library Scenario.popen_ok Scenario.system_fails
             Scenario.patched_args Scenario.built in
  let e := EvSystem "patch -p1 < /home/user/fix.patch" 1 in
  events r = firstn 11 (events r) ++ e :: skipn 12 (events r) /\
  failed_system e = true /\
  outcome r = Exit 1 /\
  skipn 12 (events r) = [die_line "There was a problem applying the patch!"] /\
  Forall (fun x => build_step x = false) (events r).
Proof.
  cbv zeta.
  assert (Heq : events (build_library Scenario.popen_ok Scenario.system_fails
                          Scenario.patched_args Scenario.built)
                = firstn 11 (events (build_library Scenario.popen_ok
                                       Scenario.system_fails Scenario.patched_args
                                       Scenario.built))
                  ++ EvSystem "patch -p1 < /home/user/fix.patch" 1
                  :: skipn 12 (events (build_library Scenario.popen_ok
                                         Scenario.system_fails Scenario.patched_args
                                         Scenario.built)))
    by (vm_compute; reflexivity).
  split; [exact Heq|]. split; [reflexivity|].
  exact (failed_patch_is_fatal Scenario.popen_ok Scenario.system_fails
           Scenario.patched_args Scenario.built _ _ _ Heq eq_refl).
Defined.

(** Fedora, seen by a user who is not root: [dnf] without [sudo]. *)
Lemma install_packages_sudo_witness :
  let r := install_packages Scenario.popen_ok
             (Some "Fedora release 38 (Thirty Eight)") false false Scenario.built in
  uid Scenario.built = 1000 /\
  fedora_branch "Fedora release 38 (Thirty Eight)" = true /\
  outcome r = Ret (Some "", Some "") /\
  cmds (events r) =
    [ ["dnf"; "groupinstall"; "-y"; "development-tools"];
      "dnf" :: "install" :: "-y" :: REDHAT_PKGS (tables Scenario.built) ].
Proof.
  cbv zeta.
  assert (Hret : outcome (install_packages Scenario.popen_ok
                            (Some "Fedora release 38 (Thirty Eight)") false false
                            Scenario.built) = Ret (Some "", Some ""))
    by (vm_compute; reflexivity).
  split; [reflexivity|]. split; [vm_compute; reflexivity|].
  split; [exact Hret|].
  rewrite (install_packages_sudo Scenario.popen_ok
             "Fedora release 38 (Thirty Eight)" false false Scenario.built _ Hret).
  vm_compute. reflexivity.
Defined.

(** A machine without [lsb_release]. *)
Lemma no_lsb_release_witness :
  let skipping := Cfg.set_skip_install_pkgs true Scenario.default_cfg in
  outcome (detect_distro Scenario.popen_no_lsb Scenario.default_cfg Scenario.built)
    = Exit 1 /\
  outcome (detect_distro Scenario.popen_no_lsb skipping Scenario.built) = Ret None /\
  fs (final (detect_distro Scenario.popen_no_lsb skipping Scenario.built))
    = fs Scenario.built.
Proof.
  cbv zeta.
  destruct (detect_distro_without_lsb_release Scenario.popen_no_lsb
              Scenario.default_cfg Scenario.built (fs Scenario.built) eq_refl)
    as (H1 & _ & _).
  destruct (detect_distro_without_lsb_release Scenario.popen_no_lsb
              (Cfg.set_skip_install_pkgs true Scenario.default_cfg) Scenario.built
              (fs Scenario.built) eq_refl)
    as (H2 & H3 & _).
  split; [exact H1|]. split; [exact H2 | exact H3].
Defined.



(** The hash of the checkout of the OpenMW fork of OSG. *)
Lemma get_repo_sha_witness :
  let r := get_repo_sha (Scenario.popen_on "Void Linux") SRC_DIR "osg-openmw"
             "origin/master" true false Scenario.built in
  OS.lookup Scenario.built (Path.join SRC_DIR ["osg-openmw"]) = Some Dir /\
  outcome r = Ret (ShaStr "abc1234") /\
  cmds (events r) =
    [ ["git"; "fetch"; "--all"];
      ["git"; "checkout"; "origin/master"];
      ["git"; "reset"; "--hard"; "origin/master"];
      ["git"; "rev-parse"; "--short"; "HEAD"] ] /\
  cwd (final r) = "/opt/build-openmw/src/osg-openmw".
Proof.
  cbv zeta.
  assert (Hret : outcome (get_repo_sha (Scenario.popen_on "Void Linux") SRC_DIR
                            "osg-openmw" "origin/master" true false Scenario.built)
                 = Ret (ShaStr "abc1234"))
    by (vm_compute; reflexivity).
  split; [reflexivity|]. split; [exact Hret|].
  destruct (get_repo_sha_resets_checkout (Scenario.popen_on "Void Linux") SRC_DIR
              "osg-openmw" "origin/master" true false Scenario.built _ eq_refl Hret)
    as (Hcmds & Hcwd & _).
  split; [exact Hcmds | exact Hcwd].
Defined.

(** [build-openmw --branch lua] *)
Lemma selects_rev_witness :
  let r := process_flags id 8 Scenario.parsed_branch Scenario.built in
  outcome r = Ret (Cfg.set_rev "origin/lua"
                     (Cfg.set_branch "origin/lua" Scenario.default_cfg)) /\
  Cfg.rev (Cfg.set_rev "origin/lua"
             (Cfg.set_branch "origin/lua" Scenario.default_cfg)) = "origin/lua".
Proof.
  cbv zeta.
  assert (Hret : outcome (process_flags id 8 Scenario.parsed_branch Scenario.built)
                 = Ret (Cfg.set_rev "origin/lua"
                          (Cfg.set_branch "origin/lua" Scenario.default_cfg)))
    by (vm_compute; reflexivity).
  split; [exact Hret|].
  exact (process_flags_selects_rev id 8 Scenario.parsed_branch Scenario.built _ Hret).
Defined.

(** [build-openmw --force-all] *)
Lemma force_all_witness :
  let r := process_flags id 8 Scenario.parsed_force_all Scenario.built in
  Parsed.force_all Scenario.parsed_force_all = true /\
  exists c,
    outcome r = Ret c /\
    Cfg.force_openmw c = true /\ Cfg.force_pkg c = true /\
    Cfg.force_tes3mp c = false.
Proof.
  cbv zeta. split; [reflexivity|].
  eexists. split; [vm_compute; reflexivity|].
  destruct (force_all_forces_everything_but_tes3mp id 8 Scenario.parsed_force_all
              Scenario.built _ eq_refl
              (eq_refl : outcome (process_flags id 8 Scenario.parsed_force_all
                                    Scenario.built) = Ret _))
    as ((_ & _ & Ho & _ & _ & Hp) & Ht).
  split; [exact Ho|]. split; [exact Hp | exact Ht].
Defined.

(** A forced package on Arch Linux: the archive of the earlier run is
    removed, and none is written. *)
Lemma package_distribution_witness :
  let r := make_portable_package Scenario.tmp_name "openmw-abc1234"
             (Some "Arch Linux") true (Some "/opt/build-openmw/out") false
             Scenario.staged_out in
  Py.truthy (environ Scenario.staged_out !! "TES3MP_FORGE") = false /\
  packaged_family (Some "Arch Linux") = false /\
  outcome r = Raise Py.UnboundLocalError /\
  outcome r <> Ret true /\
  Forall (fun e => writes_archive e = false) (events r).
Proof.
  cbv zeta.
  split; [reflexivity|]. split; [reflexivity|].
  split; [vm_compute; reflexivity|].
  destruct (package_needs_a_known_distribution Scenario.tmp_name "openmw-abc1234"
              (Some "Arch Linux") true (Some "/opt/build-openmw/out") false
              Scenario.staged_out eq_refl eq_refl) as [Hno Hev].
  split; [apply Hno | exact Hev].
Defined.

(** The clean step of bullet. *)
Lemma clean_ends_witness :
  let r := _git_clean_src Scenario.popen_ok (Scenario.bullet_args true)
             Scenario.built in
  outcome r = Ret tt /\
  cmds (events r) =
    [ ["git"; "checkout"; "--"; "."]; ["git"; "clean"; "-df"];
      ["git"; "checkout"; "2.86.1"]; ["git"; "reset"; "--hard"; "2.86.1"] ].
Proof.
  cbv zeta.
  assert (Hret : outcome (_git_clean_src Scenario.popen_ok (Scenario.bullet_args true)
                            Scenario.built) = Ret tt)
    by (vm_compute; reflexivity).
  split; [exact Hret|].
  rewrite (clean_ends_on_requested Scenario.popen_ok (Scenario.bullet_args true)
             Scenario.built ltac:(discriminate) Hret).
  reflexivity.
Defined.

(** [build-openmw -P fix.patch] where there is no such file. *)
Lemma patch_file_witness :
  let r := process_flags id 8 Scenario.parsed_patch Scenario.built in
  OS.lookup Scenario.built "/fix.patch" = None /\
  outcome r = Exit 1 /\
  events r = [die_line "The supplied patch isn't a file!"] /\
  final r = Scenario.built.
Proof.
  cbv zeta. split; [reflexivity|].
  destruct (patch_must_be_a_file id 8 Scenario.parsed_patch Scenario.built eq_refl
              ltac:(vm_compute; discriminate))
    as (Hexit & _ & Hfinal & _).
  split; [exact Hexit|]. split; [vm_compute; reflexivity | exact Hfinal].
Defined.

(** A forced build of bullet without [make install]. *)
Lemma no_install_witness :
  let r := build_library Scenario.popen_ok Scenario.system_ok
             Scenario.uninstalled_args Scenario.built in
  make_install Scenario.uninstalled_args = false /\
  outcome r = Ret tt /\
  Forall (fun e => is_make_install e = false) (events r).
Proof.
  cbv zeta. split; [reflexivity|]. split; [vm_compute; reflexivity|].
  exact (no_install_unless_asked Scenario.popen_ok Scenario.system_ok
           Scenario.uninstalled_args Scenario.built eq_refl).
Defined.
